(** * Credential lifecycle of the gas-plumbers backend

    A shallow embedding of [controllers/authController.js] and
    [models/UserModel.js]: the user schema with its validators and pre-save
    hooks, the instance methods [correctPassword], [changedPasswordAfter] and
    [createPasswordResetToken], and the handlers [signupUser], [login],
    [isLoggedIn], [protect], [forgotPassword], [resetPassword],
    [updatePassword] and [adminProtection].

    Conventions.
    - Instants ([Date], [Date.now()]) are integers: milliseconds since the
      epoch.  A handler invocation reads the clock once.
    - The collection is a list of stored documents in natural order;
      [findOne] returns the first match.
    - Third-party primitives (SHA-256, bcrypt, JWT signing, the regular
      expression engine) are fields of the class [Platform].
    - Randomness drawn by a call (reset-token bytes, bcrypt salt, the new
      ObjectId) is an explicit argument of that call.
    - The credentials of a request body ([password], [passwordConfirm],
      [passwordCurrent]) are values of any JSON type, since the handlers
      hand them to [bcrypt.compare] and to the String type of the schema
      as they come; the other body fields are strings.
    - [User] holds the paths the schema declares.  The [createdAt] and
      [updatedAt] stamps that the option [timestamps: true] lets Mongoose
      maintain are not part of it, and no statement speaks about them. *)

From Stdlib Require Import ZArith List String Ascii Bool Lia.
From Stdlib Require Import Strings.Byte.
From Stdlib Require Import DecimalString.
Import ListNotations.
Local Open Scope string_scope.
Local Open Scope Z_scope.

(** ** JavaScript values used by the handlers *)

Module Js.

(** [if (v)] on a value that is a string or [undefined]. *)
Definition truthy (v : option string) : bool :=
  match v with
  | Some (String _ _) => true
  | _ => false
  end.

(** [a === b] on values that are strings or [undefined]. *)
Definition strict_eq (a b : option string) : bool :=
  match a, b with
  | Some x, Some y => String.eqb x y
  | None, None => true
  | _, _ => false
  end.

(** [s.startsWith(p)] *)
Definition startsWith (p s : string) : bool := String.prefix p s.

(** [s.split(c)] for a one-character separator. *)
Fixpoint split (c : ascii) (s : string) : list string :=
  match s with
  | EmptyString => [EmptyString]
  | String a r =>
      if Ascii.eqb a c then EmptyString :: split c r
      else match split c r with
           | h :: t => String a h :: t
           | [] => [String a EmptyString]
           end
  end.

(** The value when it is truthy, for [if (v) { ... v ... }]. *)
Definition as_truthy (v : option string) : option string :=
  if truthy v then v else None.

(** [xs[i]], [undefined] out of range. *)
Definition index {A} (xs : list A) (i : nat) : option A := nth_error xs i.

Definition lower_ascii (a : ascii) : ascii :=
  let n := nat_of_ascii a in
  if (Nat.leb 65 n && Nat.leb n 90)%bool then ascii_of_nat (n + 32) else a.

(** [s.toLowerCase()] on ASCII text; texts are ASCII throughout. *)
Fixpoint toLowerCase (s : string) : string :=
  match s with
  | EmptyString => EmptyString
  | String a r => String (lower_ascii a) (toLowerCase r)
  end.

Definition is_space (a : ascii) : bool :=
  let n := nat_of_ascii a in
  (Nat.eqb n 32 || (Nat.leb 9 n && Nat.leb n 13))%bool.

Fixpoint trimStart (s : string) : string :=
  match s with
  | String a r => if is_space a then trimStart r else s
  | EmptyString => EmptyString
  end.

Fixpoint trimEnd (s : string) : string :=
  match s with
  | EmptyString => EmptyString
  | String a r =>
      match trimEnd r with
      | EmptyString => if is_space a then EmptyString else String a EmptyString
      | r' => String a r'
      end
  end.

(** [s.trim()] on ASCII text. *)
Definition trim (s : string) : string := trimEnd (trimStart s).

Definition hex_digit (n : N) : ascii :=
  match String.get (N.to_nat n) "0123456789abcdef" with
  | Some c => c
  | None => "0"%char
  end.

(** [buf.toString("hex")] *)
Fixpoint toHex (buf : list byte) : string :=
  match buf with
  | [] => EmptyString
  | b :: r =>
      String (hex_digit (Byte.to_N b / 16))
        (String (hex_digit (Byte.to_N b mod 16)) (toHex r))
  end.

(** A value of a parsed JSON body is a string or a value of another type:
    a number, a boolean, an array, an object.  Of the latter the code
    observes whether it is truthy, and the String type of the schema what
    it casts to, if anything: a number or a boolean is cast to its text,
    and for an array the cast throws.  A credential that is absent or
    [null] is [None]. *)
Inductive value :=
| Str (s : string)
| Other (is_truthy : bool) (as_text : option string).

(** [if (v)] on a value of any type. *)
Definition truthy_value (v : option value) : bool :=
  match v with
  | Some (Str s) => truthy (Some s)
  | Some (Other t _) => t
  | None => false
  end.

(** The String type of the schema applied to a value; [None] when the cast
    throws. *)
Definition text (x : value) : option string :=
  match x with
  | Str s => Some s
  | Other _ t => t
  end.

(** The string a body field gives to a String path, if it gives one. *)
Definition cast (v : option value) : option string :=
  match v with
  | Some x => text x
  | None => None
  end.

(** The field holds a value the String type cannot cast. *)
Definition uncastable (v : option value) : bool :=
  match v with
  | Some x => match text x with
              | Some _ => false
              | None => true
              end
  | None => false
  end.

(** [parseInt(ms / 1000, 10)]: the quotient is printed in plain decimal
    notation for every instant a [Date] can hold, so [parseInt] keeps the
    digits before the point, that is, truncates toward zero. *)
Definition parseInt_div1000 (ms : Z) : Z := Z.quot ms 1000.

End Js.

(** [crypto.randomBytes(n)]: the first [n] bytes produced by the generator
    [draw] for this call. *)
Definition randomBytes (draw : nat -> byte) (n : nat) : list byte :=
  map draw (seq 0 n).

(** ** Third-party primitives *)

Record JwtPayload := { jwt_id : string; jwt_iat : Z }.

Class Platform := {
  (** [crypto.createHash("sha256").update(s).digest("hex")] *)
  sha256_hex : string -> string;
  (** [bcrypt.hash(s, rounds)] with the salt it generated *)
  bcrypt_hash : string -> string -> Z -> string;
  (** [bcrypt.compare(s, hash)] on two strings *)
  bcrypt_compare : string -> string -> bool;
  (** [jwt.sign({ id }, JWT_SECRET, { expiresIn: JWT_EXPIRES_IN })] at an instant *)
  jwt_sign : string -> Z -> string;
  (** [jwt.verify(token, JWT_SECRET)] at an instant; [None] when it throws *)
  jwt_verify : string -> Z -> option JwtPayload;
  (** the three regular expressions of the schema *)
  email_pattern : string -> bool;
  uk_phone_pattern : string -> bool;
  uk_postcode_pattern : string -> bool
}.

(** [process.env] *)
Record Config := {
  JWT_COOKIE_EXPIRES_IN : Z;
  NODE_ENV_production : bool;
  FRONTEND_URL : string
}.

(** ** Errors *)

(** A [ValidationError] lists the paths whose value could not be cast and
    the messages of the validators that failed on the other paths;
    [DuplicateKey] is the E11000 error of a unique index. *)
Inductive exn :=
| ValidationError (casts : list string) (errors : list (string * string))
| IllegalArguments
| TypeError
| DuplicateKey.

Inductive result (A : Type) :=
| Ok (a : A)
| Throw (e : exn).
Arguments Ok {A} a.
Arguments Throw {A} e.

Definition bind {A B} (m : result A) (k : A -> result B) : result B :=
  match m with
  | Ok a => k a
  | Throw e => Throw e
  end.

Notation "x <- m ;; k" := (bind m (fun x => k))
  (at level 61, m at next level, right associativity).

(** ** The user schema *)

Record Location := {
  address : option string;
  city : option string;
  zipCode : option string;
  country : option string
}.

Record User := {
  _id : string;
  username : option string;
  email : option string;
  password : option string;
  passwordConfirm : option string;
  role : option string;
  phoneNumber : option string;
  location : Location;
  passwordChangedAt : option Z;
  passwordResetToken : option string;
  passwordResetExpires : option Z
}.

Definition with_password (v : option string) (u : User) : User :=
  {| _id := _id u; username := username u; email := email u;
     password := v; passwordConfirm := passwordConfirm u; role := role u;
     phoneNumber := phoneNumber u; location := location u;
     passwordChangedAt := passwordChangedAt u;
     passwordResetToken := passwordResetToken u;
     passwordResetExpires := passwordResetExpires u |}.

Definition with_passwordConfirm (v : option string) (u : User) : User :=
  {| _id := _id u; username := username u; email := email u;
     password := password u; passwordConfirm := v; role := role u;
     phoneNumber := phoneNumber u; location := location u;
     passwordChangedAt := passwordChangedAt u;
     passwordResetToken := passwordResetToken u;
     passwordResetExpires := passwordResetExpires u |}.

Definition with_passwordChangedAt (v : option Z) (u : User) : User :=
  {| _id := _id u; username := username u; email := email u;
     password := password u; passwordConfirm := passwordConfirm u;
     role := role u; phoneNumber := phoneNumber u; location := location u;
     passwordChangedAt := v;
     passwordResetToken := passwordResetToken u;
     passwordResetExpires := passwordResetExpires u |}.

Definition with_passwordResetToken (v : option string) (u : User) : User :=
  {| _id := _id u; username := username u; email := email u;
     password := password u; passwordConfirm := passwordConfirm u;
     role := role u; phoneNumber := phoneNumber u; location := location u;
     passwordChangedAt := passwordChangedAt u;
     passwordResetToken := v;
     passwordResetExpires := passwordResetExpires u |}.

Definition with_passwordResetExpires (v : option Z) (u : User) : User :=
  {| _id := _id u; username := username u; email := email u;
     password := password u; passwordConfirm := passwordConfirm u;
     role := role u; phoneNumber := phoneNumber u; location := location u;
     passwordChangedAt := passwordChangedAt u;
     passwordResetToken := passwordResetToken u;
     passwordResetExpires := v |}.

(** [role.enum.values] *)
Definition role_values : list string := ["customer"; "engineer"; "admin"].

(** A document in memory: its fields and the bookkeeping Mongoose keeps for
    [isNew], [isModified("password")], the [select: false] of the password
    path, and the paths an assignment could not cast. *)
Record Doc := {
  fields : User;
  isNew : bool;
  passwordSelected : bool;
  passwordModified : bool;
  castErrors : list string
}.

Definition map_fields (f : User -> User) (d : Doc) : Doc :=
  {| fields := f (fields d); isNew := isNew d;
     passwordSelected := passwordSelected d;
     passwordModified := passwordModified d;
     castErrors := castErrors d |}.

(** An assignment whose value the String type cannot cast leaves the path
    as it was and records the path. *)
Definition invalidate (path : string) (d : Doc) : Doc :=
  {| fields := fields d; isNew := isNew d;
     passwordSelected := passwordSelected d;
     passwordModified := passwordModified d;
     castErrors := (castErrors d ++ [path])%list |}.

(** The password path takes a string or [undefined]: it becomes modified
    on a new document, on a document loaded without the path, and
    otherwise when the value differs. *)
Definition assign_password (v : option string) (d : Doc) : Doc :=
  {| fields := with_password v (fields d);
     isNew := isNew d;
     passwordSelected := passwordSelected d;
     passwordModified :=
       passwordModified d || isNew d || negb (passwordSelected d)
       || negb (Js.strict_eq v (password (fields d)));
     castErrors := castErrors d |}.

(** [doc.password = v] *)
Definition set_password (v : option Js.value) (d : Doc) : Doc :=
  if Js.uncastable v then invalidate "password" d
  else assign_password (Js.cast v) d.

(** [doc.passwordConfirm = v] *)
Definition set_passwordConfirm (v : option Js.value) (d : Doc) : Doc :=
  if Js.uncastable v then invalidate "passwordConfirm" d
  else map_fields (with_passwordConfirm (Js.cast v)) d.

(** ** HTTP requests and responses *)

Module Body.
(** [req.body]: the fields the handlers and the schema read.  The
    credentials are values of any type; [_id], [passwordChangedAt],
    [passwordResetToken] and [passwordResetExpires] are schema paths as
    well, so that [User.create({ ...req.body })] takes them from a body
    that names them. *)
Record t := {
  email : option string;
  password : option Js.value;
  passwordConfirm : option Js.value;
  passwordCurrent : option Js.value;
  username : option string;
  role : option string;
  phoneNumber : option string;
  location : Location;
  _id : option string;
  passwordChangedAt : option Z;
  passwordResetToken : option string;
  passwordResetExpires : option Z
}.
End Body.

Record Request := {
  authorization : option string;   (* req.headers.authorization *)
  cookies_jwt : option string;     (* req.cookies.jwt *)
  params_token : string;           (* req.params.token *)
  params_id : string;              (* req.params.id *)
  body : Body.t;
  user : option User               (* req.user, set by protect *)
}.

Record Cookie := {
  cookie_name : string;
  cookie_value : string;
  expires : Z;
  httpOnly : bool;
  secure : bool
}.

Inductive message :=
| Text (s : string)
| ErrMessage (e : exn).            (* err.message *)

Inductive payload :=
| Fail (m : message)               (* { status: "fail", message } *)
| Success (m : string)             (* { status: "success", message } *)
| Session (token : string) (u : User).  (* { status: "success", token, user } *)

Record Response := {
  status : Z;
  cookie : option Cookie;
  json : payload
}.

Record AppError := { err_message : string; statusCode : Z }.

(** What a handler or middleware does with the request: it answers, it calls
    [next] (with the user it attached to the request context, and with the
    error it passed, if any), or its promise rejects. *)
Inductive Outcome :=
| Respond (r : Response)
| Forward (attached : option User) (err : option AppError)
| Rejected (e : exn).

Definition fail (code : Z) (m : message) : Response :=
  {| status := code; cookie := None; json := Fail m |}.

Record EmailMessage := {
  mail_to : option string;
  mail_subject : string;
  mail_message : string
}.

(** ** The model and the controller *)

Section Model.

Context {P : Platform}.

(** *** Validators of the schema *)

Definition minlength (n : nat) (v : option string) : bool :=
  match v with
  | Some s => Nat.leb n (String.length s)
  | None => true
  end.

Definition matches (re : string -> bool) (v : option string) : bool :=
  match v with
  | Some s => re s
  | None => true
  end.

(** The validators of one path run in order; the first that fails gives
    the error recorded for the path.  The errors of a document are listed
    path by path in the order of the schema; the order in which
    [err.message] names them is not modelled. *)
Definition first_failure (path : string) (checks : list (bool * string))
  : list (string * string) :=
  match find (fun c => negb (fst c)) checks with
  | Some (_, m) => [(path, m)]
  | None => []
  end.

Definition validationErrors (d : Doc) : list (string * string) :=
  let u := fields d in
  let l := location u in
  (first_failure "username"
     [(Js.truthy (username u), "Please provide a username");
      (minlength 1 (username u), "Username cannot be empty")]
   ++ first_failure "email"
     [(Js.truthy (email u), "Please provide an email");
      (matches email_pattern (email u), "Please provide a valid email")]
   ++ (if passwordSelected d || passwordModified d then
         first_failure "password"
           [(Js.truthy (password u), "Please provide a password");
            (minlength 8 (password u),
             "Password must be at least 8 characters")]
       else [])
   ++ first_failure "passwordConfirm"
     [(Js.truthy (passwordConfirm u), "Please confirm your password");
      (minlength 8 (passwordConfirm u),
       "Password confirmation must be at least 8 characters");
      (Js.strict_eq (passwordConfirm u) (password u),
       "Passwords are not the same")]
   ++ first_failure "role"
     [(match role u with
       | Some r => existsb (String.eqb r) role_values
       | None => true
       end, "Role must be either customer, engineer, or admin")]
   ++ first_failure "phoneNumber"
     [(Js.truthy (phoneNumber u), "Please provide a phone number");
      (matches uk_phone_pattern (phoneNumber u),
       "Please provide a valid UK phone number")]
   ++ first_failure "location.address"
     [(Js.truthy (address l), "Please provide an address");
      (minlength 1 (address l), "Address cannot be empty")]
   ++ first_failure "location.city"
     [(Js.truthy (city l), "Please provide a city");
      (minlength 1 (city l), "City cannot be empty")]
   ++ first_failure "location.zipCode"
     [(Js.truthy (zipCode l), "Please provide a postcode");
      (matches uk_postcode_pattern (zipCode l),
       "Please provide a valid UK postcode")]
   ++ first_failure "location.country"
     [(Js.truthy (country l), "Please provide a country")])%list.

(** [doc.validate()]: a path that could not be cast is reported as such
    and its validators do not run. *)
Definition validate (d : Doc) : result unit :=
  match castErrors d, validationErrors d with
  | [], [] => Ok tt
  | casts, errs =>
      Throw (ValidationError casts
               (filter (fun e => negb (existsb (String.eqb (fst e)) casts))
                  errs))
  end.

(** *** Pre-save hooks *)

(** [userSchema.pre("save")], first hook: hash a modified password with
    cost 12 and drop the confirmation. *)
Definition hashPassword (salt : string) (d : Doc) : result Doc :=
  if negb (passwordModified d) then Ok d
  else match password (fields d) with
       | Some plain =>
           Ok (map_fields
                 (fun u => with_passwordConfirm None
                             (with_password (Some (bcrypt_hash salt plain 12)) u))
                 d)
       | None => Throw IllegalArguments
       end.

(** [userSchema.pre("save")], second hook. *)
Definition stampPasswordChange (now : Z) (d : Doc) : Doc :=
  if negb (passwordModified d) || isNew d then d
  else map_fields (with_passwordChangedAt (Some (now - 1000))) d.

(** *** Instance methods *)

(** [bcrypt.compare] rejects when either argument is not a string. *)
Definition correctPassword (candidatePassword : option Js.value)
  (userPassword : option string) : result bool :=
  match candidatePassword, userPassword with
  | Some (Js.Str c), Some h => Ok (bcrypt_compare c h)
  | _, _ => Throw IllegalArguments
  end.

Definition changedPasswordAfter (u : User) (JWTTimestamp : Z) : bool :=
  match passwordChangedAt u with
  | Some t =>
      let changedTimestamp := Js.parseInt_div1000 t in
      JWTTimestamp <? changedTimestamp
  | None => false
  end.

Definition createPasswordResetToken (draw : nat -> byte) (now : Z) (u : User)
  : string * User :=
  let resetToken := Js.toHex (randomBytes draw 32) in
  let u1 := with_passwordResetToken (Some (sha256_hex resetToken)) u in
  let u2 := with_passwordResetExpires (Some (now + 10 * 60 * 1000)) u1 in
  (resetToken, u2).

(** *** The collection *)

(** A document as a query returns it: the password path is left out
    unless the query asks for it with [select("+password")]. *)
Definition hydrate (selectPassword : bool) (u : User) : Doc :=
  {| fields := if selectPassword then u else with_password None u;
     isNew := false;
     passwordSelected := selectPassword;
     passwordModified := false;
     castErrors := [] |}.

Definition has_id (id : string) (u : User) : bool := String.eqb (_id u) id.

(** [User.findById(id)].  Ids are the texts of ObjectIds: [id] is taken
    to be a text that casts to one; for any other text the query throws. *)
Definition findById (selectPassword : bool) (db : list User) (id : string)
  : option Doc :=
  option_map (hydrate selectPassword) (find (has_id id) db).

(** [User.findOne({ email })]; the schema lower-cases the filter value. *)
Definition has_email (q : option string) (u : User) : bool :=
  Js.strict_eq (email u) (option_map Js.toLowerCase q).

Definition findOne_email (selectPassword : bool) (db : list User)
  (q : option string) : option Doc :=
  option_map (hydrate selectPassword) (find (has_email q) db).

(** [{ passwordResetToken: hashedToken, passwordResetExpires: { $gt: now } }] *)
Definition has_live_reset (hashedToken : string) (now : Z) (u : User) : bool :=
  Js.strict_eq (passwordResetToken u) (Some hashedToken)
  && match passwordResetExpires u with
     | Some e => now <? e
     | None => false
     end.

Definition findOne_reset (db : list User) (hashedToken : string) (now : Z)
  : option Doc :=
  option_map (hydrate false) (find (has_live_reset hashedToken now) db).

(** [updateOne({ _id: id }, ...)]: the first document with that id. *)
Fixpoint updateOne (id : string) (f : User -> User) (db : list User)
  : list User :=
  match db with
  | [] => []
  | u :: rest =>
      if has_id id u then f u :: rest else u :: updateOne id f rest
  end.

(** What [save] writes for a document: an unmodified password path is not
    written, so the stored value stays. *)
Definition written (d : Doc) (stored : User) : User :=
  if passwordModified d then fields d
  else with_password (password stored) (fields d).

Definition persist (d : Doc) (db : list User) : list User :=
  if isNew d then (db ++ [fields d])%list
  else updateOne (_id (fields d)) (written d) db.

Definition saved (d : Doc) : Doc :=
  {| fields := fields d; isNew := false;
     passwordSelected := passwordSelected d; passwordModified := false;
     castErrors := castErrors d |}.

(** [doc.save(options)]: validation unless switched off, then the two
    hooks, then the write.  The insert of a new document is refused by the
    unique index on [_id] when a stored record has that id. *)
Definition save (validateBeforeSave : bool) (salt : string) (now : Z)
  (d : Doc) (db : list User) : result (Doc * list User) :=
  _ <- (if validateBeforeSave then validate d else Ok tt) ;;
  d1 <- hashPassword salt d ;;
  let d2 := stampPasswordChange now d1 in
  if isNew d2 && existsb (has_id (_id (fields d2))) db then Throw DuplicateKey
  else Ok (saved d2, persist d2 db).

End Model.

Section Controller.

Context {P : Platform}.
Variable cfg : Config.

Definition signToken (id : string) (now : Z) : string := jwt_sign id now.

Definition createSendToken (now : Z) (u : User) (code : Z) : Response :=
  let token := signToken (_id u) now in
  let cookieOptions :=
    {| cookie_name := "jwt";
       cookie_value := token;
       expires := now + JWT_COOKIE_EXPIRES_IN cfg * 24 * 60 * 60 * 1000;
       httpOnly := true;
       secure := NODE_ENV_production cfg |} in
  {| status := code;
     cookie := Some cookieOptions;
     json := Session token (with_password None u) |}.

(** [User.create({ ...req.body })]: every schema path the body names is
    taken from it, through the casts, setters and defaults of the schema;
    [newId] is the ObjectId generated when the body names no [_id]. *)
Definition new_document (newId : string) (b : Body.t) : Doc :=
  let l := Body.location b in
  {| fields :=
       {| _id := match Body._id b with
                 | Some id => id
                 | None => newId
                 end;
          username := option_map Js.trim (Body.username b);
          email := option_map Js.toLowerCase (Body.email b);
          password := Js.cast (Body.password b);
          passwordConfirm := Js.cast (Body.passwordConfirm b);
          role := match Body.role b with
                  | Some r => Some r
                  | None => Some "customer"
                  end;
          phoneNumber := Body.phoneNumber b;
          location :=
            {| address := option_map Js.trim (address l);
               city := option_map Js.trim (city l);
               zipCode := option_map Js.trim (zipCode l);
               country := match country l with
                          | Some c => Some (Js.trim c)
                          | None => Some "United Kingdom"
                          end |};
          passwordChangedAt := Body.passwordChangedAt b;
          passwordResetToken := Body.passwordResetToken b;
          passwordResetExpires := Body.passwordResetExpires b |};
     isNew := true;
     passwordSelected := true;
     passwordModified := match Js.cast (Body.password b) with
                         | Some _ => true
                         | None => false
                         end;
     castErrors :=
       ((if Js.uncastable (Body.password b) then ["password"] else [])
        ++ (if Js.uncastable (Body.passwordConfirm b)
            then ["passwordConfirm"] else []))%list |}.

Definition signupUser (salt newId : string) (now : Z) (req : Request)
  (db : list User) : Outcome * list User :=
  let b := body req in
  if negb (Js.truthy (Body.email b)) then
    (Respond (fail 400 (Text "Email is required")), db)
  else
    match findOne_email false db (Body.email b) with
    | Some _ =>
        (Respond (fail 400 (Text "User with this email already exists")), db)
    | None =>
        match save true salt now (new_document newId b) db with
        | Throw e => (Respond (fail 400 (ErrMessage e)), db)
        | Ok (newUser, db') =>
            (Respond (createSendToken now (fields newUser) 201), db')
        end
    end.

(** [login] has no [try]: when [correctPassword] throws, the promise of the
    handler rejects. *)
Definition login (now : Z) (req : Request) (db : list User) : Outcome :=
  let b := body req in
  if negb (Js.truthy (Body.email b))
     || negb (Js.truthy_value (Body.password b))
  then Respond (fail 400 (Text "Please provide email and password"))
  else
    match findOne_email true db (Body.email b) with
    | None => Respond (fail 401 (Text "Incorrect email or password"))
    | Some d =>
        match correctPassword (Body.password b) (password (fields d)) with
        | Throw e => Rejected e
        | Ok false => Respond (fail 401 (Text "Incorrect email or password"))
        | Ok true => Respond (createSendToken now (fields d) 200)
        end
    end.

Definition isLoggedIn (now : Z) (req : Request) (db : list User) : Outcome :=
  match Js.as_truthy (cookies_jwt req) with
  | Some token =>
      match jwt_verify token now with
      | None => Forward None None
      | Some decoded =>
          match findById false db (jwt_id decoded) with
          | None => Forward None None
          | Some currentUser =>
              if changedPasswordAfter (fields currentUser) (jwt_iat decoded)
              then Forward None None
              else Forward (Some (fields currentUser)) None
          end
      end
  | None => Forward None None
  end.

(** The token [protect] reads: the second word of an [Authorization]
    header that starts with "Bearer", else the cookie. *)
Definition bearer_token (req : Request) : option string :=
  match Js.as_truthy (authorization req) with
  | Some a =>
      if Js.startsWith "Bearer" a then Js.index (Js.split " " a) 1
      else Js.as_truthy (cookies_jwt req)
  | None => Js.as_truthy (cookies_jwt req)
  end.

Definition protect (now : Z) (req : Request) (db : list User) : Outcome :=
  match Js.as_truthy (bearer_token req) with
  | None =>
      Respond (fail 401
        (Text "You are not logged in! Please log in to get access."))
  | Some token =>
      match jwt_verify token now with
      | None => Respond (fail 401 (Text "Invalid token. Please log in again!"))
      | Some decoded =>
          match findById false db (jwt_id decoded) with
          | None =>
              Respond (fail 401
                (Text "The user belonging to this token no longer exists."))
          | Some currentUser =>
              if changedPasswordAfter (fields currentUser) (jwt_iat decoded)
              then
                Respond (fail 401
                  (Text "User recently changed password! Please log in again."))
              else Forward (Some (fields currentUser)) None
          end
      end
  end.

Definition clear_reset (u : User) : User :=
  with_passwordResetExpires None (with_passwordResetToken None u).

(** [deliver] is the outcome of [sendEmail] for a message: [false] when it
    throws.  Neither [save] of this handler hashes, so no salt is drawn. *)
Definition forgotPassword (deliver : EmailMessage -> bool)
  (draw : nat -> byte) (now : Z) (req : Request) (db : list User)
  : Outcome * list User :=
  match findOne_email false db (Body.email (body req)) with
  | None =>
      (Respond (fail 404 (Text "There is no user with email address.")), db)
  | Some found =>
      let (resetToken, u1) := createPasswordResetToken draw now (fields found) in
      match save false "" now (map_fields (fun _ => u1) found) db with
      | Throw e => (Respond (fail 400 (ErrMessage e)), db)
      | Ok (doc, db1) =>
          let resetURL :=
            FRONTEND_URL cfg ++ "/change-password?token=" ++ resetToken in
          if deliver
               {| mail_to := email (fields doc);
                  mail_subject := "Your password reset token (valid for 10 min)";
                  mail_message := resetURL |}
          then
            (Respond {| status := 200; cookie := None;
                        json := Success "Token sent to email!" |}, db1)
          else
            match save false "" now (map_fields clear_reset doc) db1 with
            | Throw e => (Respond (fail 400 (ErrMessage e)), db1)
            | Ok (_, db2) =>
                (Respond (fail 500
                   (Text "There was an error sending the email. Try again later!")),
                 db2)
            end
      end
  end.

Definition invalid_or_expired : Response :=
  fail 400 (Text "Token is invalid or has expired").

Definition resetPassword (salt : string) (now : Z) (req : Request)
  (db : list User) : Outcome * list User :=
  let hashedToken := sha256_hex (params_token req) in
  match findOne_reset db hashedToken now with
  | None => (Respond invalid_or_expired, db)
  | Some found =>
      let d1 := set_password (Body.password (body req)) found in
      let d2 := set_passwordConfirm (Body.passwordConfirm (body req)) d1 in
      let d3 := map_fields clear_reset d2 in
      match save true salt now d3 db with
      | Throw e => (Respond (fail 400 (ErrMessage e)), db)
      | Ok (doc, db') => (Respond (createSendToken now (fields doc) 200), db')
      end
  end.

Definition updatePassword (salt : string) (now : Z) (req : Request)
  (db : list User) : Outcome * list User :=
  match user req with
  | None => (Respond (fail 400 (ErrMessage TypeError)), db)
  | Some me =>
      match findById true db (_id me) with
      | None => (Respond (fail 404 (Text "User not found")), db)
      | Some found =>
          match correctPassword (Body.passwordCurrent (body req))
                  (password (fields found)) with
          | Throw e => (Respond (fail 400 (ErrMessage e)), db)
          | Ok false =>
              (Respond (fail 401 (Text "Your current password is wrong.")), db)
          | Ok true =>
              let d1 := set_password (Body.password (body req)) found in
              let d2 := set_passwordConfirm
                          (Body.passwordConfirm (body req)) d1 in
              match save true salt now d2 db with
              | Throw e => (Respond (fail 400 (ErrMessage e)), db)
              | Ok (doc, db') =>
                  (Respond (createSendToken now (fields doc) 200), db')
              end
          end
      end
  end.

Definition adminProtection (req : Request) (db : list User) : Outcome :=
  match findById false db (params_id req) with
  | Some found =>
      if Js.strict_eq (role (fields found)) (Some "Admin") then
        Forward None
          (Some {| err_message := "admin acc can't be changed";
                   statusCode := 401 |})
      else Forward None None
  | None => Forward None None
  end.

End Controller.

(** ** Predicates used in the statements *)

(** The store keeps [_id] unique. *)
Fixpoint unique_ids (db : list User) : bool :=
  match db with
  | [] => true
  | u :: rest => negb (existsb (has_id (_id u)) rest) && unique_ids rest
  end.

(** The records of the store that hold a given reset-token digest. *)
Definition holds_reset (hashedToken : string) (u : User) : bool :=
  Js.strict_eq (passwordResetToken u) (Some hashedToken).

Definition reset_holders (hashedToken : string) (db : list User) : list User :=
  filter (holds_reset hashedToken) db.

(** A stored user whose reset-token digest is [hashedToken] and whose expiry
    is strictly after [now]. *)
Definition live_reset_user (db : list User) (hashedToken : string) (now : Z)
  (u : User) : Prop :=
  In u db /\ passwordResetToken u = Some hashedToken
  /\ exists e, passwordResetExpires u = Some e /\ now < e.

(** Freshness as the specification words it: every grant of [protect] to a
    user with [passwordChangedAt] set has the token's [iat] strictly after
    that instant, in whole seconds. *)
Definition grants_only_strictly_after (P : Platform) : Prop :=
  forall now req db token decoded found t,
    Js.as_truthy (bearer_token req) = Some token ->
    jwt_verify token now = Some decoded ->
    findById false db (jwt_id decoded) = Some found ->
    passwordChangedAt (fields found) = Some t ->
    protect now req db = Forward (Some (fields found)) None ->
    Js.parseInt_div1000 t < jwt_iat decoded.

(** Single use as the specification words it: once [resetPassword] has
    succeeded with a raw token, every later submission of the same raw
    token on the resulting store is turned down. *)
Definition spends_reset_token (P : Platform) : Prop :=
  forall cfg salt now req db r db',
    resetPassword cfg salt now req db = (Respond r, db') ->
    status r = 200 ->
    forall salt2 now2 req2,
      params_token req2 = params_token req ->
      fst (resetPassword cfg salt2 now2 req2 db') = Respond invalid_or_expired.

(** No signal as the specification words it: with both fields present, a
    login for an email no record has and a login for a stored email with a
    password that does not verify get the same answer. *)
Definition login_gives_no_signal (P : Platform) : Prop :=
  forall cfg now req1 req2 db u,
    Js.truthy (Body.email (body req1)) = true ->
    Js.truthy_value (Body.password (body req1)) = true ->
    Js.truthy (Body.email (body req2)) = true ->
    Js.truthy_value (Body.password (body req2)) = true ->
    find (has_email (Body.email (body req1))) db = None ->
    find (has_email (Body.email (body req2))) db = Some u ->
    correctPassword (Body.password (body req2)) (password u) <> Ok true ->
    login cfg now req1 db = login cfg now req2 db.

(** The answer to a wrong current password as the specification words it:
    whenever the supplied [passwordCurrent] does not verify against the
    stored hash, [updatePassword] answers 401. *)
Definition wrong_current_gets_401 (P : Platform) : Prop :=
  forall cfg salt now req db me u,
    user req = Some me ->
    find (has_id (_id me)) db = Some u ->
    correctPassword (Body.passwordCurrent (body req)) (password u)
    <> Ok true ->
    exists r,
      fst (updatePassword cfg salt now req db) = Respond r /\ status r = 401.

(** The properties of bcrypt that the statements about stored digests rely
    on: [compare] accepts the plaintext a digest was made from, the salt is
    part of the digest, and a digest is not its own plaintext. *)
Class BcryptContract (P : Platform) : Prop := {
  compare_hash : forall salt plain rounds,
    bcrypt_compare plain (bcrypt_hash salt plain rounds) = true;
  salted : forall salt1 salt2 plain rounds,
    salt1 <> salt2 ->
    bcrypt_hash salt1 plain rounds <> bcrypt_hash salt2 plain rounds;
  one_way : forall salt plain rounds, bcrypt_hash salt plain rounds <> plain
}.

(** ** A small platform and store to run the model on *)

Module Sample.

Definition digest (salt plain : string) : string :=
  String "$" (plain ++ String "$" salt).

#[local] Instance platform : Platform := {|
  sha256_hex := fun s => "sha256:" ++ s;
  bcrypt_hash := fun salt plain _ => digest salt plain;
  bcrypt_compare := fun plain h => String.prefix (String "$" (plain ++ "$")) h;
  jwt_sign := fun id _ => "jwt." ++ id;
  jwt_verify := fun token _ =>
    if String.eqb token "jwt.u1.1700000000"
    then Some {| jwt_id := "u1"; jwt_iat := 1700000000 |}
    else if String.eqb token "jwt.u1.1700000005"
    then Some {| jwt_id := "u1"; jwt_iat := 1700000005 |}
    else if String.eqb token "jwt.u1.1699999999"
    then Some {| jwt_id := "u1"; jwt_iat := 1699999999 |}
    else if String.eqb token "jwt.u9.1700000005"
    then Some {| jwt_id := "u9"; jwt_iat := 1700000005 |}
    else None;
  email_pattern := fun _ => true;
  uk_phone_pattern := fun _ => true;
  uk_postcode_pattern := fun _ => true
|}.

Definition cfg : Config :=
  {| JWT_COOKIE_EXPIRES_IN := 90;
     NODE_ENV_production := false;
     FRONTEND_URL := "https://app.example" |}.

Definition home : Location :=
  {| address := Some "1 High Street"; city := Some "Leeds";
     zipCode := Some "LS1 1AA"; country := Some "United Kingdom" |}.

(** Ada changed her password at 1700000000000 ms and has a reset pending
    until 1700000600000 ms. *)
Definition ada : User :=
  {| _id := "u1"; username := Some "ada"; email := Some "ada@example.com";
     password := Some (digest "s1" "correct horse");
     passwordConfirm := None; role := Some "customer";
     phoneNumber := Some "07123456789"; location := home;
     passwordChangedAt := Some 1700000000000;
     passwordResetToken := Some "sha256:abc123";
     passwordResetExpires := Some 1700000600000 |}.

Definition bob : User :=
  {| _id := "u2"; username := Some "bob"; email := Some "bob@example.com";
     password := Some (digest "s2" "battery staple");
     passwordConfirm := None; role := Some "admin";
     phoneNumber := Some "07987654321"; location := home;
     passwordChangedAt := None;
     passwordResetToken := None;
     passwordResetExpires := None |}.

Definition db : list User := [ada; bob].

Definition no_body : Body.t :=
  {| Body.email := None; Body.password := None;
     Body.passwordConfirm := None; Body.passwordCurrent := None;
     Body.username := None; Body.role := None; Body.phoneNumber := None;
     Body.location := {| address := None; city := None; zipCode := None;
                         country := None |};
     Body._id := None; Body.passwordChangedAt := None;
     Body.passwordResetToken := None; Body.passwordResetExpires := None |}.

Definition request (auth jwt : option string) (token id : string)
  (b : Body.t) (me : option User) : Request :=
  {| authorization := auth; cookies_jwt := jwt; params_token := token;
     params_id := id; body := b; user := me |}.

(** A body whose password is the value [p]. *)
Definition credentials_of (e : string) (p : Js.value) : Body.t :=
  {| Body.email := Some e; Body.password := Some p;
     Body.passwordConfirm := None; Body.passwordCurrent := None;
     Body.username := None; Body.role := None; Body.phoneNumber := None;
     Body.location := Body.location no_body;
     Body._id := None; Body.passwordChangedAt := None;
     Body.passwordResetToken := None; Body.passwordResetExpires := None |}.

Definition credentials (e p : string) : Body.t := credentials_of e (Js.Str p).

(** A body whose current password is the value [current]. *)
Definition new_password_of (current : option Js.value) (p c : string)
  : Body.t :=
  {| Body.email := None; Body.password := Some (Js.Str p);
     Body.passwordConfirm := Some (Js.Str c); Body.passwordCurrent := current;
     Body.username := None; Body.role := None; Body.phoneNumber := None;
     Body.location := Body.location no_body;
     Body._id := None; Body.passwordChangedAt := None;
     Body.passwordResetToken := None; Body.passwordResetExpires := None |}.

Definition new_password (current : option string) (p c : string) : Body.t :=
  new_password_of (option_map Js.Str current) p c.

Definition registration (e p : string) : Body.t :=
  {| Body.email := Some e; Body.password := Some (Js.Str p);
     Body.passwordConfirm := Some (Js.Str p); Body.passwordCurrent := None;
     Body.username := Some "carol"; Body.role := None;
     Body.phoneNumber := Some "07000000000";
     Body.location := home;
     Body._id := None; Body.passwordChangedAt := None;
     Body.passwordResetToken := None; Body.passwordResetExpires := None |}.

(** The number 123 as a body value: truthy, and cast to its text. *)
Definition number_123 : Js.value := Js.Other true (Some "123").

(** A registration that names the reset fields itself: the digest of the
    raw token "abc123", alive until 1700000600000 ms. *)
Definition claiming (name e p : string) : Body.t :=
  {| Body.email := Some e; Body.password := Some (Js.Str p);
     Body.passwordConfirm := Some (Js.Str p); Body.passwordCurrent := None;
     Body.username := Some name; Body.role := None;
     Body.phoneNumber := Some "07000000000";
     Body.location := home;
     Body._id := None; Body.passwordChangedAt := None;
     Body.passwordResetToken := Some "sha256:abc123";
     Body.passwordResetExpires := Some 1700000600000 |}.

Definition zeros : nat -> byte := fun _ => x00.

(** The store two signups leave on an empty collection when both bodies
    name the reset fields of [claiming]. *)
Definition claimed_twice : list User :=
  let db1 :=
    snd (signupUser cfg "s1" "u1" 1700000000000
           (request None None "" ""
              (claiming "carol" "carol@example.com" "tr0ub4dor&3") None)
           []) in
  snd (signupUser cfg "s2" "u2" 1700000001000
         (request None None "" ""
            (claiming "dave" "dave@example.com" "hunter2hunter2") None)
         db1).

End Sample.

(** ** The remaining handlers of the controller *)

(** [String(n)] for an integer. *)
Definition string_of_Z (n : Z) : string := NilZero.string_of_int (Z.to_int n).

(** Bodies of the answers that carry no session. *)
Inductive info :=
| InfoFail (m : message)               (* { status: "fail", message } *)
| InfoSuccess                          (* { status: "success" } *)
| InfoUser (u : User)                  (* { status: "success", user } *)
| InfoUpdated (m : string) (u : User). (* { status: "success", message, user } *)

Record Reply := {
  reply_status : Z;
  reply_cookie : option Cookie;
  reply_json : info
}.

(** An answer to a routed request: a middleware stopped it, or the handler
    at the end of the chain served it. *)
Inductive Routed :=
| Stopped (o : Outcome)
| Served (r : Reply).

(** How [findByIdAndUpdate] treats the [location] key of an update: the
    errors of the update validators for it, and the location written for a
    stored one. *)
Class LocationUpdate := {
  locationErrors : Body.t -> list (string * string);
  writeLocation : Body.t -> Location -> Location
}.

Definition with_profile (name phone : option string) (l : Location) (u : User)
  : User :=
  {| _id := _id u; username := name; email := email u;
     password := password u; passwordConfirm := passwordConfirm u;
     role := role u; phoneNumber := phone; location := l;
     passwordChangedAt := passwordChangedAt u;
     passwordResetToken := passwordResetToken u;
     passwordResetExpires := passwordResetExpires u |}.

Definition with_user (u : User) (req : Request) : Request :=
  {| authorization := authorization req; cookies_jwt := cookies_jwt req;
     params_token := params_token req; params_id := params_id req;
     body := body req; user := Some u |}.

Section Profile.

Context {P : Platform}.
Variable cfg : Config.

Definition logout (now : Z) : Reply :=
  {| reply_status := 200;
     reply_cookie :=
       Some {| cookie_name := "jwt"; cookie_value := "loggedout";
               expires := now + 10 * 1000; httpOnly := true;
               secure := false |};
     reply_json := InfoSuccess |}.

(** [roles.includes(role)] *)
Definition includes (roles : list string) (r : option string) : bool :=
  match r with
  | Some s => existsb (String.eqb s) roles
  | None => false
  end.

(** [restrictTo(...roles)]; reading [req.user.role] throws when no
    middleware set [req.user]. *)
Definition restrictTo (roles : list string) (req : Request) : Outcome :=
  match user req with
  | None => Rejected TypeError
  | Some me =>
      if negb (includes roles (role me)) then
        Forward None
          (Some {| err_message :=
                     "You do not have permission to perform this action";
                   statusCode := 403 |})
      else Forward None None
  end.

Definition info_fail (code : Z) (m : message) : Reply :=
  {| reply_status := code; reply_cookie := None; reply_json := InfoFail m |}.

Definition getMe (req : Request) (db : list User) : Reply :=
  match user req with
  | None => info_fail 400 (ErrMessage TypeError)
  | Some me =>
      match findById false db (_id me) with
      | None => info_fail 404 (Text "User not found")
      | Some found =>
          {| reply_status := 200; reply_cookie := None;
             reply_json := InfoUser (fields found) |}
      end
  end.

(** The update validators of [updateMe] run on the keys the filtered body
    has. *)
Definition updateErrors {L : LocationUpdate} (b : Body.t)
  : list (string * string) :=
  ((match Body.username b with
    | Some s =>
        first_failure "username"
          [(Js.truthy (Some (Js.trim s)), "Please provide a username");
           (minlength 1 (Some (Js.trim s)), "Username cannot be empty")]
    | None => []
    end)
   ++ (match Body.phoneNumber b with
       | Some s =>
           first_failure "phoneNumber"
             [(Js.truthy (Some s), "Please provide a phone number");
              (uk_phone_pattern s, "Please provide a valid UK phone number")]
       | None => []
       end)
   ++ locationErrors b)%list.

(** [$set] of the filtered body on a stored record. *)
Definition applyUpdate {L : LocationUpdate} (b : Body.t) (stored : User)
  : User :=
  with_profile
    (match Body.username b with
     | Some s => Some (Js.trim s)
     | None => username stored
     end)
    (match Body.phoneNumber b with
     | Some s => Some s
     | None => phoneNumber stored
     end)
    (writeLocation b (location stored))
    stored.

Definition updateMe {L : LocationUpdate} (req : Request) (db : list User)
  : Reply * list User :=
  let b := body req in
  if Js.truthy_value (Body.password b)
     || Js.truthy_value (Body.passwordConfirm b) then
    (info_fail 400
       (Text "This route is not for password updates. Please use /updateMyPassword."),
     db)
  else
    match user req with
    | None => (info_fail 400 (ErrMessage TypeError), db)
    | Some me =>
        match updateErrors b with
        | e :: errs =>
            (info_fail 400 (ErrMessage (ValidationError [] (e :: errs))), db)
        | [] =>
            match find (has_id (_id me)) db with
            | None => (info_fail 404 (Text "User not found"), db)
            | Some stored =>
                ({| reply_status := 200; reply_cookie := None;
                    reply_json :=
                      InfoUpdated "Profile updated successfully"
                        (with_password None (applyUpdate b stored)) |},
                 updateOne (_id me) (applyUpdate b) db)
            end
        end
    end.

(** *** Routes: [router.use(protect)] in front of the handlers *)

Definition route_updateMyPassword (salt : string) (now : Z) (req : Request)
  (db : list User) : Outcome * list User :=
  match protect now req db with
  | Forward (Some u) None => updatePassword cfg salt now (with_user u req) db
  | stopped => (stopped, db)
  end.

Definition route_me (now : Z) (req : Request) (db : list User) : Routed :=
  match protect now req db with
  | Forward (Some u) None =>
      match protect now (with_user u req) db with
      | Forward (Some u2) None => Served (getMe (with_user u2 req) db)
      | stopped => Stopped stopped
      end
  | stopped => Stopped stopped
  end.

Definition route_updateMe {L : LocationUpdate} (now : Z) (req : Request)
  (db : list User) : Routed * list User :=
  match protect now req db with
  | Forward (Some u) None =>
      match protect now (with_user u req) db with
      | Forward (Some u2) None =>
          let (r, db') := updateMe (with_user u2 req) db in (Served r, db')
      | stopped => (Stopped stopped, db)
      end
  | stopped => (Stopped stopped, db)
  end.

End Profile.

(** ** Store predicates for the statements about handlers *)

(** A request that carries a token in the cookie only. *)
Definition cookie_request (token : string) (b : Body.t) : Request :=
  {| authorization := None; cookies_jwt := Some token; params_token := "";
     params_id := ""; body := b; user := None |}.

(** The reset fields of a record are both set or both unset. *)
Definition paired_reset (u : User) : bool :=
  match passwordResetToken u, passwordResetExpires u with
  | Some _, Some _ => true
  | None, None => true
  | _, _ => false
  end.

(** The part of a record that is not a credential. *)
Definition profile_of (u : User)
  : string * option string * option string * option string * option string
    * Location :=
  (_id u, username u, email u, role u, phoneNumber u, location u).

(** The part of a record [updateMe] has no business with. *)
Definition account_of (u : User)
  : string * option string * option string * option string * option string
    * option Z * option string * option Z :=
  (_id u, email u, password u, passwordConfirm u, role u,
   passwordChangedAt u, passwordResetToken u, passwordResetExpires u).

(** The paths of a record other than the two reset fields. *)
Definition other_paths (u : User)
  : string * option string * option string * option string * option string
    * option string * option string * Location * option Z :=
  (_id u, username u, email u, password u, passwordConfirm u, role u,
   phoneNumber u, location u, passwordChangedAt u).

(** The body names both reset fields or neither. *)
Definition paired_body (b : Body.t) : bool :=
  match Body.passwordResetToken b, Body.passwordResetExpires b with
  | Some _, Some _ => true
  | None, None => true
  | _, _ => false
  end.

Fixpoint unique_emails (db : list User) : bool :=
  match db with
  | [] => true
  | u :: rest =>
      negb (existsb (fun v => Js.strict_eq (email v) (email u)) rest)
      && unique_emails rest
  end.

(** What a successful change of password leaves on the record. *)
Definition with_new_password (digest : string) (now : Z) (u : User) : User :=
  with_passwordChangedAt (Some (now - 1000))
    (with_passwordConfirm None (with_password (Some digest) u)).

(** The body carries a password that casts to a string of eight characters
    or more and a confirmation that casts to the same string. *)
Definition confirmed_password (b : Body.t) : Prop :=
  exists plain,
    Js.cast (Body.password b) = Some plain
    /\ Js.cast (Body.passwordConfirm b) = Some plain
    /\ (8 <= String.length plain)%nat.

(** ** A platform whose tokens carry their issue time *)

Module Issuer.

Definition sign (id : string) (now : Z) : string :=
  id ++ "@" ++ string_of_Z (now / 1000).

Definition verify (token : string) (now : Z) : option JwtPayload :=
  match Js.split "@" token with
  | [id; seconds] =>
      match NilZero.int_of_string seconds with
      | Some i => Some {| jwt_id := id; jwt_iat := Z.of_int i |}
      | None => None
      end
  | _ => None
  end.

#[local] Instance platform : Platform := {|
  sha256_hex := fun s => "sha256:" ++ s;
  bcrypt_hash := fun salt plain _ => Sample.digest salt plain;
  bcrypt_compare := fun plain h => String.prefix (String "$" (plain ++ "$")) h;
  jwt_sign := sign;
  jwt_verify := verify;
  email_pattern := fun _ => true;
  uk_phone_pattern := fun _ => true;
  uk_postcode_pattern := fun _ => true
|}.

(** Locations are replaced as a whole by the object of the body. *)
#[local] Instance replace_location : LocationUpdate := {|
  locationErrors := fun _ => [];
  writeLocation := fun b _ => Body.location b
|}.

Definition rename (name : string) : Body.t :=
  {| Body.email := Some "mallory@example.com"; Body.password := None;
     Body.passwordConfirm := None; Body.passwordCurrent := None;
     Body.username := Some name; Body.role := Some "admin";
     Body.phoneNumber := None; Body.location := Sample.home;
     Body._id := None; Body.passwordChangedAt := None;
     Body.passwordResetToken := None; Body.passwordResetExpires := None |}.

End Issuer.

(** ** Regular expressions of the schemas

    A pattern is kept as its syntax tree and run by derivatives;
    [RegExp.prototype.test] answers whether the text (for a pattern between
    [^] and [$]) or some part of it (for a pattern free to float) belongs
    to the language, which [Re.Matches] spells out.  Texts are ASCII. *)

Module Re.

Inductive t :=
| Void                       (* no text *)
| Eps                        (* the empty text *)
| Cls (p : ascii -> bool)    (* one character of a class *)
| Cat (r1 r2 : t)
| Alt (r1 r2 : t)
| Star (r : t).

Fixpoint nullable (r : t) : bool :=
  match r with
  | Void => false
  | Eps => true
  | Cls _ => false
  | Cat r1 r2 => nullable r1 && nullable r2
  | Alt r1 r2 => nullable r1 || nullable r2
  | Star _ => true
  end.

Fixpoint deriv (a : ascii) (r : t) : t :=
  match r with
  | Void => Void
  | Eps => Void
  | Cls p => if p a then Eps else Void
  | Cat r1 r2 =>
      if nullable r1 then Alt (Cat (deriv a r1) r2) (deriv a r2)
      else Cat (deriv a r1) r2
  | Alt r1 r2 => Alt (deriv a r1) (deriv a r2)
  | Star r1 => Cat (deriv a r1) (Star r1)
  end.

Fixpoint accepts (r : t) (s : string) : bool :=
  match s with
  | EmptyString => nullable r
  | String a rest => accepts (deriv a r) rest
  end.

Inductive Matches : t -> string -> Prop :=
| MEps : Matches Eps ""
| MCls p a : p a = true -> Matches (Cls p) (String a "")
| MCat r1 r2 s1 s2 :
    Matches r1 s1 -> Matches r2 s2 -> Matches (Cat r1 r2) (s1 ++ s2)
| MAltL r1 r2 s : Matches r1 s -> Matches (Alt r1 r2) s
| MAltR r1 r2 s : Matches r2 s -> Matches (Alt r1 r2) s
| MStarNil r : Matches (Star r) ""
| MStarCons r s1 s2 :
    Matches r s1 -> Matches (Star r) s2 -> Matches (Star r) (s1 ++ s2).

Definition Chr (c : ascii) : t := Cls (Ascii.eqb c).

Fixpoint Str (s : string) : t :=
  match s with
  | EmptyString => Eps
  | String a rest => Cat (Chr a) (Str rest)
  end.

(** [r?], [r+], [r{n}], [r{n,}] *)
Definition Opt (r : t) : t := Alt r Eps.
Definition Plus (r : t) : t := Cat r (Star r).

Fixpoint Rep (n : nat) (r : t) : t :=
  match n with
  | O => Eps
  | S k => Cat r (Rep k r)
  end.

Definition AtLeast (n : nat) (r : t) : t := Cat (Rep n r) (Star r).

Definition any : t := Cls (fun _ => true).

(** A pattern that may match anywhere in the text. *)
Definition somewhere (r : t) : t := Cat (Star any) (Cat r (Star any)).

(** A pattern that must match at the start of the text. *)
Definition at_start (r : t) : t := Cat r (Star any).

Definition between (lo hi : ascii) (a : ascii) : bool :=
  (Nat.leb (nat_of_ascii lo) (nat_of_ascii a)
   && Nat.leb (nat_of_ascii a) (nat_of_ascii hi))%bool.

Definition digit : ascii -> bool := between "0" "9".

(** [\w] *)
Definition word (a : ascii) : bool :=
  (between "a" "z" a || between "A" "Z" a || digit a || Ascii.eqb a "_")%bool.

(** [[A-Z]] under the [i] flag *)
Definition letter (a : ascii) : bool :=
  (between "a" "z" a || between "A" "Z" a)%bool.

(** The number a decimal digit stands for. *)
Definition digit_value (a : ascii) : Z := Z.of_nat (nat_of_ascii a) - 48.

Fixpoint all_in (p : ascii -> bool) (s : string) : bool :=
  match s with
  | EmptyString => true
  | String a rest => p a && all_in p rest
  end.

(** Every character class of the pattern lies inside [q]. *)
Fixpoint within (q : ascii -> bool) (r : t) : Prop :=
  match r with
  | Void | Eps => True
  | Cls p => forall a, p a = true -> q a = true
  | Cat r1 r2 | Alt r1 r2 => within q r1 /\ within q r2
  | Star r1 => within q r1
  end.

(** [s] has [x] somewhere inside. *)
Definition contains (x s : string) : Prop :=
  exists before after, s = before ++ x ++ after.

End Re.

(** *** The patterns of the user schema *)

(** [/^\w+([\.-]?\w+)*@\w+([\.-]?\w+)*(\.\w{2,3})+$/] *)
Definition email_regex : Re.t :=
  let w := Re.Cls Re.word in
  let sep := Re.Cls (fun a => Ascii.eqb a "." || Ascii.eqb a "-") in
  let more := Re.Star (Re.Cat (Re.Opt sep) (Re.Plus w)) in
  let tld := Re.Cat (Re.Chr ".") (Re.Cat w (Re.Cat w (Re.Opt w))) in
  Re.Cat (Re.Plus w)
    (Re.Cat more
       (Re.Cat (Re.Chr "@")
          (Re.Cat (Re.Plus w) (Re.Cat more (Re.Plus tld))))).

(** The characters an accepted address is made of, the [@] apart. *)
Definition address_char (a : ascii) : bool :=
  (Re.word a || Ascii.eqb a "." || Ascii.eqb a "-")%bool.

(** The characters [[0-9\s\-]] *)
Definition phone_char (a : ascii) : bool :=
  (Re.digit a || Js.is_space a || Ascii.eqb a "-")%bool.

(** [/^(\+44\s?|0)[0-9\s\-]{9,}$/] *)
Definition uk_phone_regex : Re.t :=
  Re.Cat
    (Re.Alt (Re.Cat (Re.Str "+44") (Re.Opt (Re.Cls Js.is_space)))
       (Re.Chr "0"))
    (Re.AtLeast 9 (Re.Cls phone_char)).

(** [/^[A-Z]{1,2}[0-9][A-Z0-9]?\s?[0-9][A-Z]{2}$/i] *)
Definition uk_postcode_regex : Re.t :=
  let l := Re.Cls Re.letter in
  let d := Re.Cls Re.digit in
  let ld := Re.Cls (fun a => Re.letter a || Re.digit a) in
  Re.Cat l
    (Re.Cat (Re.Opt l)
       (Re.Cat d
          (Re.Cat (Re.Opt ld)
             (Re.Cat (Re.Opt (Re.Cls Js.is_space))
                (Re.Cat d (Re.Cat l l)))))).

(** The validators: [pattern.test(value)]. *)
Definition email_validator (s : string) : bool := Re.accepts email_regex s.
Definition phone_validator (s : string) : bool := Re.accepts uk_phone_regex s.
Definition postcode_validator (s : string) : bool :=
  Re.accepts uk_postcode_regex s.

(** The platform whose three patterns are the ones of the schema. *)
Definition with_schema_patterns (P : Platform) : Platform :=
  {| sha256_hex := @sha256_hex P;
     bcrypt_hash := @bcrypt_hash P;
     bcrypt_compare := @bcrypt_compare P;
     jwt_sign := @jwt_sign P;
     jwt_verify := @jwt_verify P;
     email_pattern := email_validator;
     uk_phone_pattern := phone_validator;
     uk_postcode_pattern := postcode_validator |}.

(** ** The emergency request model *)

Module EmergencyRequest.

(** [/^([0-1]?[0-9]|2[0-3]):[0-5][0-9]$/] of [preferredTime.startTime] and
    [preferredTime.endTime] *)
Definition time_regex : Re.t :=
  let d := Re.Cls Re.digit in
  Re.Cat
    (Re.Alt (Re.Cat (Re.Opt (Re.Cls (Re.between "0" "1"))) d)
       (Re.Cat (Re.Chr "2") (Re.Cls (Re.between "0" "3"))))
    (Re.Cat (Re.Chr ":") (Re.Cat (Re.Cls (Re.between "0" "5")) d)).

Definition time_validator (v : string) : bool := Re.accepts time_regex v.

(** [/^(https?:\/\/)|(\/uploads\/)|(data:image\/)/]: the [^] belongs to the
    first alternative only. *)
Definition image_regex : Re.t :=
  Re.Alt
    (Re.at_start
       (Re.Cat (Re.Str "http") (Re.Cat (Re.Opt (Re.Chr "s")) (Re.Str "://"))))
    (Re.Alt (Re.somewhere (Re.Str "/uploads/"))
       (Re.somewhere (Re.Str "data:image/"))).

(** The validator of [images]: [v.every(image => pattern.test(image))] *)
Definition images_validator (v : list string) : bool :=
  forallb (Re.accepts image_regex) v.

(** Two decimal digits. *)
Definition two_digits (n : Z) : string :=
  if n <? 10 then "0" ++ string_of_Z n else string_of_Z n.

Definition plural (n : Z) : string := if 1 <? n then "s" else "".

(** The virtual [requestAgeFormatted] at an instant, for a request created
    at [createdAt]; the quotients are whole numbers well inside the range
    where the division of doubles and [Math.floor] are exact. *)
Definition requestAgeFormatted (now createdAt : Z) : string :=
  let ageMs := now - createdAt in
  let ageHours := ageMs / (1000 * 60 * 60) in
  let ageDays := ageHours / 24 in
  if 0 <? ageDays then
    string_of_Z ageDays ++ " day" ++ plural ageDays ++ " ago"
  else if 0 <? ageHours then
    string_of_Z ageHours ++ " hour" ++ plural ageHours ++ " ago"
  else
    let ageMinutes := ageMs / (1000 * 60) in
    string_of_Z ageMinutes ++ " minute" ++ plural ageMinutes ++ " ago".

(** [getDashboardStats] reads the status of each request.  The first
    [$group] keeps one counter per status, here in the order in which the
    statuses first occur; the second folds the counters into one document,
    and gives no document when there is no counter. *)
Fixpoint bump (key : string) (groups : list (string * Z))
  : list (string * Z) :=
  match groups with
  | [] => [(key, 1)]
  | (k, n) :: rest =>
      if String.eqb k key then (k, n + 1) :: rest
      else (k, n) :: bump key rest
  end.

Definition group_by_status (statuses : list string) : list (string * Z) :=
  fold_left (fun groups s => bump s groups) statuses [].

Record Stats := {
  total : Z;
  statusCounts : list (string * Z)
}.

Definition getDashboardStats (statuses : list string) : list Stats :=
  match group_by_status statuses with
  | [] => []
  | groups =>
      [{| total := fold_left Z.add (map snd groups) 0;
          statusCounts := groups |}]
  end.

(** The count recorded for a status, 0 when there is none. *)
Fixpoint counted (key : string) (groups : list (string * Z)) : Z :=
  match groups with
  | [] => 0
  | (k, n) :: rest => if String.eqb k key then n else counted key rest
  end.

End EmergencyRequest.

(** ** Proof steps for finite character classes *)

(** Settle a statement about one character by running through the 256
    characters. *)
Ltac ascii_cases a :=
  destruct a as [[|] [|] [|] [|] [|] [|] [|] [|]]; vm_compute;
  intro; try discriminate;
  repeat (first [left; reflexivity | right]).

(** Split a membership in an explicit list into its cases. *)
Ltac in_cases H :=
  repeat (destruct H as [H|H]; [subst|]); try contradiction.

(** ** Basic facts about the collection *)

Lemma strict_eq_true (a b : option string) :
  Js.strict_eq a b = true <-> a = b.
Proof.
  destruct a as [x|], b as [y|]; simpl; split; intro H;
    try discriminate; try reflexivity.
  - apply String.eqb_eq in H. now subst.
  - inversion H. apply String.eqb_refl.
Qed.

Lemma has_id_true id u : has_id id u = true <-> _id u = id.
Proof. unfold has_id. apply String.eqb_eq. Qed.

Lemma as_truthy_some v s : Js.as_truthy v = Some s -> v = Some s /\ s <> "".
Proof.
  unfold Js.as_truthy. destruct v as [[|a r]|]; simpl; intro H;
    try discriminate.
  inversion H. split; [reflexivity | discriminate].
Qed.

Lemma as_truthy_intro s : s <> "" -> Js.as_truthy (Some s) = Some s.
Proof. destruct s; [congruence | reflexivity]. Qed.

(** ** The model at work *)

Example split_bearer : Js.split " " "Bearer abc.def" = ["Bearer"; "abc.def"].
Proof. reflexivity. Qed.

Example split_without_space : Js.split " " "Bearer" = ["Bearer"].
Proof. reflexivity. Qed.

Example split_double_space : Js.split " " "Bearer  x" = ["Bearer"; ""; "x"].
Proof. reflexivity. Qed.

Example toHex_bytes : Js.toHex [x00; x0f; xa5; xff] = "000fa5ff".
Proof. reflexivity. Qed.

Example trim_both_ends : Js.trim "  1 High Street " = "1 High Street".
Proof. reflexivity. Qed.

Example toLowerCase_email : Js.toLowerCase "Ada@Example.COM" = "ada@example.com".
Proof. reflexivity. Qed.

Example parseInt_truncates : Js.parseInt_div1000 1700000000999 = 1700000000.
Proof. reflexivity. Qed.

Example protect_without_token :
  protect (P := Sample.platform) 1700000100000
    (Sample.request None None "" "" Sample.no_body None) Sample.db
  = Respond (fail 401
      (Text "You are not logged in! Please log in to get access.")).
Proof. reflexivity. Qed.

(** A header that is just "Bearer" hides the cookie. *)
Example protect_header_without_token :
  protect (P := Sample.platform) 1700000100000
    (Sample.request (Some "Bearer") (Some "jwt.u1.1700000005") "" ""
       Sample.no_body None) Sample.db
  = Respond (fail 401
      (Text "You are not logged in! Please log in to get access.")).
Proof. reflexivity. Qed.

Example protect_cookie_token :
  protect (P := Sample.platform) 1700000100000
    (Sample.request None (Some "jwt.u1.1700000005") "" "" Sample.no_body None)
    Sample.db
  = Forward (Some (with_password None Sample.ada)) None.
Proof. reflexivity. Qed.

Example protect_bad_token :
  protect (P := Sample.platform) 1700000100000
    (Sample.request (Some "Bearer loggedout") None "" "" Sample.no_body None)
    Sample.db
  = Respond (fail 401 (Text "Invalid token. Please log in again!")).
Proof. reflexivity. Qed.

Example protect_unknown_user :
  protect (P := Sample.platform) 1700000100000
    (Sample.request (Some "Bearer jwt.u9.1700000005") None "" ""
       Sample.no_body None) Sample.db
  = Respond (fail 401
      (Text "The user belonging to this token no longer exists.")).
Proof. reflexivity. Qed.

Example protect_stale_token :
  protect (P := Sample.platform) 1700000100000
    (Sample.request (Some "Bearer jwt.u1.1699999999") None "" ""
       Sample.no_body None) Sample.db
  = Respond (fail 401
      (Text "User recently changed password! Please log in again.")).
Proof. reflexivity. Qed.

Example login_succeeds :
  login (P := Sample.platform) Sample.cfg 1700000100000
    (Sample.request None None "" ""
       (Sample.credentials "ada@example.com" "correct horse") None) Sample.db
  = Respond (createSendToken (P := Sample.platform) Sample.cfg 1700000100000
               Sample.ada 200).
Proof. reflexivity. Qed.

Example login_missing_password :
  login (P := Sample.platform) Sample.cfg 1700000100000
    (Sample.request None None "" ""
       (Sample.credentials "ada@example.com" "") None) Sample.db
  = Respond (fail 400 (Text "Please provide email and password")).
Proof. reflexivity. Qed.

(** A delivered forgot-password request leaves the digest of the raw token
    and an expiry ten minutes ahead on the record. *)
Example forgotPassword_delivered :
  forgotPassword (P := Sample.platform) Sample.cfg (fun _ => true)
    Sample.zeros 1700000100000
    (Sample.request None None "" ""
       (Sample.credentials "bob@example.com" "") None) Sample.db
  = (Respond {| status := 200; cookie := None;
                json := Success "Token sent to email!" |},
     [Sample.ada;
      with_passwordResetExpires (Some 1700000700000)
        (with_passwordResetToken
           (Some ("sha256:" ++ Js.toHex (randomBytes Sample.zeros 32)))
           Sample.bob)]).
Proof. reflexivity. Qed.

Example forgotPassword_unknown_email :
  forgotPassword (P := Sample.platform) Sample.cfg (fun _ => true)
    Sample.zeros 1700000100000
    (Sample.request None None "" ""
       (Sample.credentials "nobody@example.com" "") None) Sample.db
  = (Respond (fail 404 (Text "There is no user with email address.")),
     Sample.db).
Proof. reflexivity. Qed.

(** A reset whose confirmation differs does not pass validation. *)
Example resetPassword_mismatch :
  resetPassword (P := Sample.platform) Sample.cfg "s9" 1700000100000
    (Sample.request None None "abc123" ""
       (Sample.new_password None "new password 1" "new password 2") None)
    Sample.db
  = (Respond (fail 400
       (ErrMessage (ValidationError []
          [("passwordConfirm", "Passwords are not the same")]))),
     Sample.db).
Proof. reflexivity. Qed.

(** A reset whose password is an array: the String type cannot cast it,
    the path is reported and the record stays as it was. *)
Example resetPassword_array_password :
  let b := {| Body.email := None;
              Body.password := Some (Js.Other true None);
              Body.passwordConfirm := Some (Js.Str "new password 1");
              Body.passwordCurrent := None;
              Body.username := None; Body.role := None;
              Body.phoneNumber := None;
              Body.location := Body.location Sample.no_body;
              Body._id := None; Body.passwordChangedAt := None;
              Body.passwordResetToken := None;
              Body.passwordResetExpires := None |} in
  resetPassword (P := Sample.platform) Sample.cfg "s9" 1700000100000
    (Sample.request None None "abc123" "" b None) Sample.db
  = (Respond (fail 400
       (ErrMessage (ValidationError ["password"]
          [("passwordConfirm", "Passwords are not the same")]))),
     Sample.db).
Proof. reflexivity. Qed.

(** ** Freshness of bearer tokens *)

Section Freshness.

Context {P : Platform}.

Lemma changedPasswordAfter_spec u iat t :
  passwordChangedAt u = Some t ->
  changedPasswordAfter u iat = false <-> Js.parseInt_div1000 t <= iat.
Proof.
  intro Ht. unfold changedPasswordAfter. rewrite Ht. cbv zeta.
  rewrite Z.ltb_ge. reflexivity.
Qed.

Lemma changedPasswordAfter_unset u iat :
  passwordChangedAt u = None -> changedPasswordAfter u iat = false.
Proof. intro H. unfold changedPasswordAfter. now rewrite H. Qed.

End Freshness.

(** C1 (amended).  For a user record with [passwordChangedAt] set and a
    verified bearer token of that user, [protect] grants access exactly when
    the token's [iat] is not before [passwordChangedAt] truncated to whole
    seconds; a token issued in the very second of the change is accepted. *)
Theorem protect_grants_iff_not_before {P : Platform} now req db token decoded
  found t :
  Js.as_truthy (bearer_token req) = Some token ->
  jwt_verify token now = Some decoded ->
  findById false db (jwt_id decoded) = Some found ->
  passwordChangedAt (fields found) = Some t ->
  protect now req db = Forward (Some (fields found)) None
  <-> Js.parseInt_div1000 t <= jwt_iat decoded.
Proof.
  intros Htok Hver Hfind Ht. unfold protect.
  rewrite Htok, Hver, Hfind.
  rewrite <- (changedPasswordAfter_spec _ (jwt_iat decoded) _ Ht).
  destruct (changedPasswordAfter (fields found) (jwt_iat decoded));
    split; intro H; try reflexivity; discriminate.
Qed.

Lemma protect_grants_iff_not_before_witness :
  let P := Sample.platform in
  let req := Sample.request (Some "Bearer jwt.u1.1700000005") None "" ""
               Sample.no_body None in
  let decoded := {| jwt_id := "u1"; jwt_iat := 1700000005 |} in
  let found := hydrate false Sample.ada in
  Js.as_truthy (bearer_token req) = Some "jwt.u1.1700000005"
  /\ jwt_verify "jwt.u1.1700000005" 1700000100000 = Some decoded
  /\ findById false Sample.db "u1" = Some found
  /\ passwordChangedAt (fields found) = Some 1700000000000
  /\ (protect 1700000100000 req Sample.db = Forward (Some (fields found)) None
      <-> Js.parseInt_div1000 1700000000000 <= 1700000005).
Proof.
  cbv zeta.
  repeat split; try reflexivity;
    apply (protect_grants_iff_not_before (P := Sample.platform)
             1700000100000 _ Sample.db "jwt.u1.1700000005"
             {| jwt_id := "u1"; jwt_iat := 1700000005 |}
             (hydrate false Sample.ada) 1700000000000);
    reflexivity.
Defined.

(** C1 (as stated) fails: Ada's password changed at 1700000000000 ms, the
    token was issued at second 1700000000, and [protect] lets it through. *)
Lemma protect_accepts_iat_equal_to_change :
  ~ grants_only_strictly_after Sample.platform.
Proof.
  intro H.
  specialize (H 1700000100000
                (Sample.request (Some "Bearer jwt.u1.1700000000") None "" ""
                   Sample.no_body None)
                Sample.db "jwt.u1.1700000000"
                {| jwt_id := "u1"; jwt_iat := 1700000000 |}
                (hydrate false Sample.ada) 1700000000000
                eq_refl eq_refl eq_refl eq_refl eq_refl).
  vm_compute in H. discriminate.
Qed.


(** ** The soft variant of the access check *)

(** C9.  [isLoggedIn] always calls [next] without an error and never
    answers.  It attaches a user exactly when the cookie holds a non-empty
    token that verifies, a record with the token's subject as id is stored,
    and the [passwordChangedAt] of that record, if set, is not after the
    token's [iat] in whole seconds; the user attached is that record
    without its password. *)
Theorem isLoggedIn_never_rejects {P : Platform} now req db :
  exists attached,
    isLoggedIn now req db = Forward attached None
    /\ forall u,
         attached = Some u <->
         exists token decoded stored,
           cookies_jwt req = Some token /\ token <> ""
           /\ jwt_verify token now = Some decoded
           /\ find (has_id (jwt_id decoded)) db = Some stored
           /\ (forall t, passwordChangedAt stored = Some t ->
                 Z.quot t 1000 <= jwt_iat decoded)
           /\ u = with_password None stored.
Proof.
  assert (Hfresh : forall stored iat,
             changedPasswordAfter (with_password None stored) iat = false
             <-> forall t, passwordChangedAt stored = Some t ->
                           Z.quot t 1000 <= iat).
  { intros stored iat. unfold changedPasswordAfter. simpl.
    destruct (passwordChangedAt stored) as [t|].
    - cbv zeta. unfold Js.parseInt_div1000. rewrite Z.ltb_ge. split.
      + intros H t' Ht'. now inversion Ht'; subst t'.
      + intro H. now apply H.
    - split; [intros _ t Ht; discriminate | reflexivity]. }
  unfold isLoggedIn, findById.
  destruct (Js.as_truthy (cookies_jwt req)) as [token|] eqn:Hc.
  - apply as_truthy_some in Hc. destruct Hc as [Hc Hne].
    destruct (jwt_verify token now) as [decoded|] eqn:Hv.
    + destruct (find (has_id (jwt_id decoded)) db) as [stored|] eqn:Hf;
        cbn [option_map hydrate fields].
      * destruct (changedPasswordAfter (with_password None stored)
                    (jwt_iat decoded)) eqn:Hch.
        -- exists None. split; [reflexivity|]. intro u. split; [discriminate|].
           intros (tk & dc & st & H1 & _ & H3 & H4 & H5 & _).
           rewrite Hc in H1. inversion H1; subst tk.
           rewrite Hv in H3. inversion H3; subst dc.
           rewrite Hf in H4. inversion H4; subst st.
           apply Hfresh in H5. congruence.
        -- exists (Some (with_password None stored)).
           split; [reflexivity|]. intro u. split.
           ++ intro H. inversion H; subst u.
              exists token, decoded, stored.
              repeat split; try assumption. now apply Hfresh.
           ++ intros (tk & dc & st & H1 & _ & H3 & H4 & _ & H6).
              rewrite Hc in H1. inversion H1; subst tk.
              rewrite Hv in H3. inversion H3; subst dc.
              rewrite Hf in H4. inversion H4; subst st. now subst u.
      * exists None. split; [reflexivity|]. intro u. split; [discriminate|].
        intros (tk & dc & st & H1 & _ & H3 & H4 & _).
        rewrite Hc in H1. inversion H1; subst tk.
        rewrite Hv in H3. inversion H3; subst dc. congruence.
    + exists None. split; [reflexivity|]. intro u. split; [discriminate|].
      intros (tk & dc & st & H1 & _ & H3 & _).
      rewrite Hc in H1. inversion H1; subst tk. congruence.
  - exists None. split; [reflexivity|]. intro u. split; [discriminate|].
    intros (tk & dc & st & H1 & Hne & _).
    rewrite H1, (as_truthy_intro _ Hne) in Hc. discriminate.
Qed.

(** ** The administrator guard *)

Lemma Admin_not_a_role r : In r role_values -> String.eqb r "Admin" = false.
Proof.
  unfold role_values. simpl.
  intros [H|[H|[H|[]]]]; subst r; reflexivity.
Qed.

(** C10.  When the record addressed by the request has a role of the
    schema's enumeration, [adminProtection] calls [next] without an error:
    the guard compares with "Admin", which the enumeration does not
    contain. *)
Theorem adminProtection_forwards_enum_roles {P : Platform} req db found r :
  findById false db (params_id req) = Some found ->
  role (fields found) = Some r ->
  In r role_values ->
  adminProtection req db = Forward None None.
Proof.
  intros Hf Hr Hin. unfold adminProtection. rewrite Hf, Hr. simpl.
  now rewrite (Admin_not_a_role _ Hin).
Qed.

Lemma adminProtection_forwards_enum_roles_witness :
  let P := Sample.platform in
  let req := Sample.request None None "" "u2" Sample.no_body None in
  findById false Sample.db (params_id req) = Some (hydrate false Sample.bob)
  /\ role (fields (hydrate false Sample.bob)) = Some "admin"
  /\ In "admin" role_values
  /\ adminProtection req Sample.db = Forward None None.
Proof.
  cbv zeta. split; [reflexivity|]. split; [reflexivity|].
  split; [simpl; tauto|].
  apply (adminProtection_forwards_enum_roles (P := Sample.platform)
           _ Sample.db (hydrate false Sample.bob) "admin");
    [reflexivity | reflexivity | simpl; tauto].
Defined.

(** ** Reset-token generation *)

Lemma toHex_length buf :
  String.length (Js.toHex buf) = (2 * List.length buf)%nat.
Proof.
  induction buf as [|b r IH]; simpl; [reflexivity|].
  rewrite IH. lia.
Qed.

Lemma randomBytes_length draw n : List.length (randomBytes draw n) = n.
Proof. unfold randomBytes. now rewrite length_map, length_seq. Qed.

(** C4.  [createPasswordResetToken] draws 32 random bytes, returns their
    hex form (64 characters) as the raw token, and changes the record in
    two fields only: [passwordResetToken] becomes the SHA-256 hex digest of
    the raw token and [passwordResetExpires] becomes now + 10 minutes. *)
Theorem createPasswordResetToken_spec {P : Platform} draw now u :
  let raw := Js.toHex (randomBytes draw 32) in
  let u' := snd (createPasswordResetToken draw now u) in
  List.length (randomBytes draw 32) = 32%nat
  /\ String.length raw = 64%nat
  /\ fst (createPasswordResetToken draw now u) = raw
  /\ passwordResetToken u' = Some (sha256_hex raw)
  /\ passwordResetExpires u' = Some (now + 600000)
  /\ u' = with_passwordResetExpires (Some (now + 600000))
            (with_passwordResetToken (Some (sha256_hex raw)) u).
Proof.
  cbv zeta. split; [apply randomBytes_length|].
  split; [rewrite toHex_length, randomBytes_length; reflexivity|].
  unfold createPasswordResetToken. cbv zeta.
  replace (10 * 60 * 1000) with 600000 by reflexivity.
  repeat split; reflexivity.
Qed.

(** ** Login *)

(** C6 (amended).  With both fields present and a string as the password
    sent with the stored email, a login for an email that no record has and
    a login for a stored email whose hash the password does not match get
    the same answer: 401 and the one message. *)
Theorem login_no_enumeration {P : Platform} cfg now req1 req2 db u p h :
  Js.truthy (Body.email (body req1)) = true ->
  Js.truthy_value (Body.password (body req1)) = true ->
  Js.truthy (Body.email (body req2)) = true ->
  Body.password (body req2) = Some (Js.Str p) ->
  p <> "" ->
  find (has_email (Body.email (body req1))) db = None ->
  find (has_email (Body.email (body req2))) db = Some u ->
  password u = Some h ->
  bcrypt_compare p h = false ->
  login cfg now req1 db = login cfg now req2 db
  /\ login cfg now req1 db
     = Respond {| status := 401; cookie := None;
                  json := Fail (Text "Incorrect email or password") |}.
Proof.
  intros He1 Hp1 He2 Hp2 Hne Hnone Hsome Hh Hwrong.
  unfold login, findOne_email.
  rewrite He1, Hp1, He2, Hp2, Hnone, Hsome. simpl.
  destruct p as [|a p']; [congruence|]. simpl.
  rewrite Hh, Hwrong. split; reflexivity.
Qed.

Lemma login_no_enumeration_witness :
  let P := Sample.platform in
  let req1 := Sample.request None None "" ""
                (Sample.credentials "nobody@example.com" "correct horse") None in
  let req2 := Sample.request None None "" ""
                (Sample.credentials "ada@example.com" "wrong guess") None in
  login Sample.cfg 1700000100000 req1 Sample.db
  = login Sample.cfg 1700000100000 req2 Sample.db
  /\ login Sample.cfg 1700000100000 req1 Sample.db
     = Respond {| status := 401; cookie := None;
                  json := Fail (Text "Incorrect email or password") |}.
Proof.
  cbv zeta.
  apply (login_no_enumeration (P := Sample.platform) Sample.cfg 1700000100000
           _ _ Sample.db Sample.ada "wrong guess"
           (Sample.digest "s1" "correct horse"));
    try reflexivity; discriminate.
Defined.

(** The number 123 sent as the password: the promise of [login] rejects
    for a stored email, and an unknown email is answered 401. *)
Example login_number_for_stored_email :
  login (P := Sample.platform) Sample.cfg 1700000100000
    (Sample.request None None "" ""
       (Sample.credentials_of "ada@example.com" Sample.number_123) None)
    Sample.db
  = Rejected IllegalArguments.
Proof. reflexivity. Qed.

Example login_number_for_unknown_email :
  login (P := Sample.platform) Sample.cfg 1700000100000
    (Sample.request None None "" ""
       (Sample.credentials_of "nobody@example.com" Sample.number_123) None)
    Sample.db
  = Respond (fail 401 (Text "Incorrect email or password")).
Proof. reflexivity. Qed.

(** C6 (as stated) fails: with the number 123 as the password, the answer
    tells a stored email from an unknown one. *)
Lemma login_signals_stored_email :
  ~ login_gives_no_signal Sample.platform.
Proof.
  intro H.
  specialize (H Sample.cfg 1700000100000
                (Sample.request None None "" ""
                   (Sample.credentials_of "nobody@example.com"
                      Sample.number_123) None)
                (Sample.request None None "" ""
                   (Sample.credentials_of "ada@example.com"
                      Sample.number_123) None)
                Sample.db Sample.ada
                eq_refl eq_refl eq_refl eq_refl eq_refl eq_refl).
  assert (Hwrong : correctPassword (P := Sample.platform)
                     (Some Sample.number_123) (password Sample.ada)
                   <> Ok true) by discriminate.
  specialize (H Hwrong). vm_compute in H. discriminate.
Qed.

(** ** Update password *)

(** C7 (amended).  When the current password supplied to [updatePassword]
    is a string that the stored hash does not match, the answer is 401;
    when it is absent or not a string, the comparison throws and the answer
    is 400; in both cases the store is unchanged.  And whenever
    [updatePassword] changes the store, the current password was a string
    that the stored hash matches. *)
Theorem updatePassword_requires_current {P : Platform} cfg salt now req db :
  (forall me u c h,
      user req = Some me ->
      find (has_id (_id me)) db = Some u ->
      Body.passwordCurrent (body req) = Some (Js.Str c) ->
      password u = Some h ->
      bcrypt_compare c h = false ->
      updatePassword cfg salt now req db
      = (Respond {| status := 401; cookie := None;
                    json := Fail (Text "Your current password is wrong.") |},
         db))
  /\ (forall me u,
         user req = Some me ->
         find (has_id (_id me)) db = Some u ->
         (forall c, Body.passwordCurrent (body req) <> Some (Js.Str c)) ->
         updatePassword cfg salt now req db
         = (Respond {| status := 400; cookie := None;
                       json := Fail (ErrMessage IllegalArguments) |},
            db))
  /\ (snd (updatePassword cfg salt now req db) <> db ->
      exists me u c h,
        user req = Some me
        /\ find (has_id (_id me)) db = Some u
        /\ Body.passwordCurrent (body req) = Some (Js.Str c)
        /\ password u = Some h
        /\ bcrypt_compare c h = true).
Proof.
  split; [|split].
  - intros me u c h Hme Hu Hc Hh Hwrong. unfold updatePassword, findById.
    rewrite Hme, Hu. simpl. rewrite Hc, Hh. simpl. now rewrite Hwrong.
  - intros me u Hme Hu Hno. unfold updatePassword, findById.
    rewrite Hme, Hu. simpl.
    destruct (Body.passwordCurrent (body req)) as [[c|t x]|]; simpl;
      try reflexivity.
    exfalso. now apply (Hno c).
  - unfold updatePassword, findById.
    destruct (user req) as [me|]; [|simpl; congruence].
    destruct (find (has_id (_id me)) db) as [u|] eqn:Hu; [|simpl; congruence].
    simpl.
    destruct (Body.passwordCurrent (body req)) as [[c|t x]|] eqn:Hc; simpl;
      try congruence.
    destruct (password u) as [h|] eqn:Hh; simpl; [|congruence].
    destruct (bcrypt_compare c h) eqn:Hcmp; [|simpl; congruence].
    intros _. exists me, u, c, h. repeat split; assumption.
Qed.

Lemma updatePassword_requires_current_witness :
  let P := Sample.platform in
  let req := Sample.request None None "" ""
               (Sample.new_password (Some "wrong guess")
                  "new password 1" "new password 1")
               (Some (with_password None Sample.ada)) in
  user req = Some (with_password None Sample.ada)
  /\ find (has_id "u1") Sample.db = Some Sample.ada
  /\ Body.passwordCurrent (body req) = Some (Js.Str "wrong guess")
  /\ password Sample.ada = Some (Sample.digest "s1" "correct horse")
  /\ bcrypt_compare "wrong guess" (Sample.digest "s1" "correct horse") = false
  /\ updatePassword Sample.cfg "s9" 1700000100000 req Sample.db
     = (Respond {| status := 401; cookie := None;
                   json := Fail (Text "Your current password is wrong.") |},
        Sample.db).
Proof.
  cbv zeta. repeat (split; [reflexivity|]).
  apply (proj1 (updatePassword_requires_current (P := Sample.platform)
                  Sample.cfg "s9" 1700000100000 _ Sample.db)
           (with_password None Sample.ada) Sample.ada "wrong guess"
           (Sample.digest "s1" "correct horse"));
    reflexivity.
Defined.

(** The number 123 sent as the current password is answered 400 with the
    message of the error [bcrypt.compare] threw. *)
Example updatePassword_number_as_current :
  updatePassword (P := Sample.platform) Sample.cfg "s9" 1700000100000
    (Sample.request None None "" ""
       (Sample.new_password_of (Some Sample.number_123)
          "new password 1" "new password 1")
       (Some (with_password None Sample.ada)))
    Sample.db
  = (Respond (fail 400 (ErrMessage IllegalArguments)), Sample.db).
Proof. reflexivity. Qed.

(** C7 (as stated) fails: the number 123 does not verify as Ada's current
    password, and the answer is 400, not 401. *)
Lemma updatePassword_answers_400_to_a_number :
  ~ wrong_current_gets_401 Sample.platform.
Proof.
  intro H.
  assert (Hwrong : correctPassword (P := Sample.platform)
                     (Some Sample.number_123) (password Sample.ada)
                   <> Ok true) by discriminate.
  destruct (H Sample.cfg "s9" 1700000100000
              (Sample.request None None "" ""
                 (Sample.new_password_of (Some Sample.number_123)
                    "new password 1" "new password 1")
                 (Some (with_password None Sample.ada)))
              Sample.db (with_password None Sample.ada) Sample.ada
              eq_refl eq_refl Hwrong)
    as (r & Hr & Hs).
  vm_compute in Hr. inversion Hr; subst r. vm_compute in Hs. discriminate.
Qed.

(** ** Reset password *)

Lemma has_live_reset_true {P : Platform} h now u :
  has_live_reset h now u = true <->
  passwordResetToken u = Some h
  /\ exists e, passwordResetExpires u = Some e /\ now < e.
Proof.
  unfold has_live_reset. rewrite andb_true_iff, strict_eq_true.
  destruct (passwordResetExpires u) as [e|].
  - rewrite Z.ltb_lt. split.
    + intros [H1 H2]. split; [assumption|]. now exists e.
    + intros [H1 (e' & He & Hlt)]. inversion He; subst. now split.
  - split.
    + intros [_ H]. discriminate.
    + intros [_ (e' & He & _)]. discriminate.
Qed.

Lemma find_live_reset_none {P : Platform} db h now :
  (~ exists u, live_reset_user db h now u) ->
  find (has_live_reset h now) db = None.
Proof.
  intro Hno. destruct (find (has_live_reset h now) db) as [u|] eqn:Hf;
    [|reflexivity].
  exfalso. apply Hno. exists u. apply find_some in Hf. destruct Hf as [Hin Hl].
  apply has_live_reset_true in Hl. unfold live_reset_user. tauto.
Qed.

(** C2.  [resetPassword] changes the store only when some stored user has
    the SHA-256 hex digest of the supplied raw token as its
    [passwordResetToken] and an expiry strictly after now; when there is no
    such user (a wrong token, or a right one past its expiry), the answer is
    400 "Token is invalid or has expired" and the store is unchanged. *)
Theorem resetPassword_requires_live_token {P : Platform} cfg salt now req db :
  (snd (resetPassword cfg salt now req db) <> db ->
   exists u, live_reset_user db (sha256_hex (params_token req)) now u)
  /\ ((~ exists u, live_reset_user db (sha256_hex (params_token req)) now u) ->
      resetPassword cfg salt now req db
      = (Respond {| status := 400; cookie := None;
                    json := Fail (Text "Token is invalid or has expired") |},
         db)).
Proof.
  split.
  - unfold resetPassword, findOne_reset. cbv zeta.
    destruct (find (has_live_reset (sha256_hex (params_token req)) now) db)
      as [u|] eqn:Hf; [|simpl; congruence].
    intros _. exists u. apply find_some in Hf. destruct Hf as [Hin Hl].
    apply has_live_reset_true in Hl. unfold live_reset_user. tauto.
  - intro Hno. unfold resetPassword, findOne_reset. cbv zeta.
    rewrite (find_live_reset_none _ _ _ Hno). reflexivity.
Qed.

(** Ada's token "abc123" expired at 1700000600000 ms; it is submitted one
    millisecond later. *)
Lemma resetPassword_requires_live_token_witness :
  let P := Sample.platform in
  let req := Sample.request None None "abc123" ""
               (Sample.new_password None "new password 1" "new password 1")
               None in
  (~ exists u, live_reset_user Sample.db (sha256_hex (params_token req))
                 1700000600001 u)
  /\ resetPassword Sample.cfg "s9" 1700000600001 req Sample.db
     = (Respond {| status := 400; cookie := None;
                   json := Fail (Text "Token is invalid or has expired") |},
        Sample.db).
Proof.
  cbv zeta.
  assert (Hno : ~ exists u,
             live_reset_user Sample.db
               (@sha256_hex Sample.platform "abc123") 1700000600001 u).
  { intros (u & Hin & Htok & e & He & Hlt).
    simpl in Hin. destruct Hin as [H|[H|[]]]; subst u; simpl in *.
    - inversion He; subst e. lia.
    - discriminate. }
  split; [exact Hno|].
  apply (proj2 (resetPassword_requires_live_token (P := Sample.platform)
                  Sample.cfg "s9" 1700000600001
                  (Sample.request None None "abc123" ""
                     (Sample.new_password None "new password 1"
                        "new password 1") None)
                  Sample.db)).
  exact Hno.
Defined.

(** ** Writes to the collection *)

Section Writes.

Context {P : Platform}.

Lemma updateOne_first id f db u :
  find (has_id id) db = Some u ->
  updateOne id f db = updateOne id (fun _ => f u) db.
Proof.
  induction db as [|x rest IH]; simpl; [discriminate|].
  destruct (has_id id x) eqn:Hx.
  - intro H. inversion H; subst. reflexivity.
  - intro H. now rewrite (IH H).
Qed.

Lemma updateOne_twice id g a db :
  has_id id a = true ->
  updateOne id g (updateOne id (fun _ => a) db) = updateOne id (fun _ => g a) db.
Proof.
  intro Ha. induction db as [|x rest IH]; simpl; [reflexivity|].
  destruct (has_id id x) eqn:Hx; simpl.
  - now rewrite Ha.
  - now rewrite Hx, IH.
Qed.

Lemma find_updateOne id f db u :
  find (has_id id) db = Some u ->
  has_id id (f u) = true ->
  find (has_id id) (updateOne id f db) = Some (f u).
Proof.
  induction db as [|x rest IH]; simpl; [discriminate|].
  destruct (has_id id x) eqn:Hx.
  - intros H Hf. inversion H; subst. simpl. now rewrite Hf.
  - intros H Hf. simpl. rewrite Hx. now apply IH.
Qed.

Lemma find_by_own_id db u :
  unique_ids db = true -> In u db -> find (has_id (_id u)) db = Some u.
Proof.
  induction db as [|x rest IH]; simpl; [tauto|].
  rewrite andb_true_iff, negb_true_iff. intros [Hx Hrest] [Heq|Hin].
  - subst x. unfold has_id at 1. now rewrite String.eqb_refl.
  - destruct (has_id (_id u) x) eqn:Hux.
    + exfalso. apply has_id_true in Hux.
      assert (existsb (has_id (_id x)) rest = true).
      { apply existsb_exists. exists u. split; [assumption|].
        apply has_id_true. congruence. }
      congruence.
    + now apply IH.
Qed.

Lemma find_all_false {A} (p : A -> bool) l :
  (forall x, In x l -> p x = false) -> find p l = None.
Proof.
  induction l as [|x rest IH]; simpl; [reflexivity|].
  intro H. rewrite (H x (or_introl eq_refl)). apply IH.
  intros y Hy. apply H. now right.
Qed.

Lemma filter_at_most_one {A} (p : A -> bool) l a b :
  (List.length (filter p l) <= 1)%nat ->
  In a l -> In b l -> p a = true -> p b = true -> a = b.
Proof.
  intros Hlen Ha Hb Hpa Hpb.
  assert (Ia : In a (filter p l)) by (apply filter_In; tauto).
  assert (Ib : In b (filter p l)) by (apply filter_In; tauto).
  destruct (filter p l) as [|x [|y t]]; simpl in *.
  - tauto.
  - destruct Ia as [<-|[]], Ib as [<-|[]]. reflexivity.
  - lia.
Qed.

Lemma no_holder_after_update h id u' db :
  unique_ids db = true ->
  (forall v, In v db -> holds_reset h v = true -> has_id id v = true) ->
  holds_reset h u' = false ->
  forall v, In v (updateOne id (fun _ => u') db) -> holds_reset h v = false.
Proof.
  induction db as [|x rest IH]; simpl; [tauto|].
  rewrite andb_true_iff, negb_true_iff.
  intros [Hx Hrest] Hsole Hu' v.
  destruct (has_id id x) eqn:Hidx; simpl.
  - intros [<-|Hin]; [assumption|].
    destruct (holds_reset h v) eqn:Hv; [|reflexivity].
    exfalso.
    assert (Hidv : has_id id v = true) by (apply Hsole; tauto).
    assert (existsb (has_id (_id x)) rest = true).
    { apply existsb_exists. exists v. split; [assumption|].
      apply has_id_true in Hidx, Hidv. apply has_id_true. congruence. }
    congruence.
  - intros [<-|Hin].
    + destruct (holds_reset h x) eqn:Hv; [|reflexivity].
      rewrite (Hsole x (or_introl eq_refl) Hv) in Hidx. discriminate.
    + apply IH; try assumption.
      intros w Hw. apply Hsole. now right.
Qed.

Lemma isNew_stamp now d : isNew (stampPasswordChange now d) = isNew d.
Proof. unfold stampPasswordChange. now destruct (_ || _). Qed.

Lemma validate_needs_casts d : validate d = Ok tt -> castErrors d = [].
Proof.
  unfold validate. destruct (castErrors d); [reflexivity|].
  destruct (validationErrors d); discriminate.
Qed.

Lemma validate_errors d : validate d = Ok tt -> validationErrors d = [].
Proof.
  unfold validate.
  destruct (castErrors d), (validationErrors d);
    (reflexivity || discriminate).
Qed.

Lemma save_needs_casts salt now d db x :
  save true salt now d db = Ok x -> castErrors d = [].
Proof.
  unfold save. destruct (validate d) as [[]|e] eqn:Hv; [|discriminate].
  intros _. now apply validate_needs_casts.
Qed.

Lemma id_stamp now d :
  _id (fields (stampPasswordChange now d)) = _id (fields d).
Proof. unfold stampPasswordChange. now destruct (_ || _). Qed.

Lemma hashPassword_keeps salt d d1 :
  hashPassword salt d = Ok d1 ->
  isNew d1 = isNew d /\ _id (fields d1) = _id (fields d).
Proof.
  unfold hashPassword. destruct (negb (passwordModified d)).
  - intro H. inversion H. now split.
  - destruct (password (fields d)); [|discriminate].
    intro H. inversion H. now split.
Qed.

(** The steps of a [save] that went through. *)
Lemma save_ok v salt now d db d' db' :
  save v salt now d db = Ok (d', db') ->
  (v = true -> validate d = Ok tt)
  /\ exists d1,
       hashPassword salt d = Ok d1
       /\ isNew d && existsb (has_id (_id (fields d))) db = false
       /\ d' = saved (stampPasswordChange now d1)
       /\ db' = persist (stampPasswordChange now d1) db.
Proof.
  unfold save. intro H.
  assert (Hval : v = true -> validate d = Ok tt).
  { intros ->. destruct (validate d) as [[]|e]; [reflexivity|discriminate]. }
  split; [exact Hval|].
  assert (H' : bind (hashPassword salt d)
                 (fun d1 =>
                    if isNew (stampPasswordChange now d1)
                       && existsb
                            (has_id (_id (fields (stampPasswordChange now d1))))
                            db
                    then Throw DuplicateKey
                    else Ok (saved (stampPasswordChange now d1),
                             persist (stampPasswordChange now d1) db))
               = Ok (d', db')).
  { destruct v; [|exact H].
    destruct (validate d) as [[]|e]; [exact H | discriminate]. }
  clear H Hval.
  destruct (hashPassword salt d) as [d1|e] eqn:Hh; simpl in H';
    [|discriminate].
  rewrite isNew_stamp, id_stamp in H'.
  destruct (hashPassword_keeps _ _ _ Hh) as [Hn Hi]. rewrite Hn, Hi in H'.
  destruct (isNew d && existsb (has_id (_id (fields d))) db) eqn:Hdup;
    [discriminate|].
  inversion H'. exists d1. repeat split.
Qed.

(** Two assignments that left no cast error behind stored the strings the
    values cast to. *)
Lemma assignments_cast p c d :
  castErrors (set_passwordConfirm c (set_password p d)) = [] ->
  castErrors d = [] ->
  set_passwordConfirm c (set_password p d)
  = map_fields (with_passwordConfirm (Js.cast c))
      (assign_password (Js.cast p) d).
Proof.
  intros H Hd. revert H. unfold set_passwordConfirm, set_password.
  destruct (Js.uncastable p), (Js.uncastable c); simpl; rewrite ?Hd;
    try discriminate.
  reflexivity.
Qed.

(** What a validating [save] of a stored document with a modified password
    writes. *)
Lemma save_modified_password salt now d db d' db' :
  isNew d = false ->
  passwordModified d = true ->
  save true salt now d db = Ok (d', db') ->
  exists plain,
    password (fields d) = Some plain
    /\ fields d' =
         with_passwordChangedAt (Some (now - 1000))
           (with_passwordConfirm None
              (with_password (Some (bcrypt_hash salt plain 12)) (fields d)))
    /\ db' = updateOne (_id (fields d)) (fun _ => fields d') db.
Proof.
  intros Hnew Hmod. unfold save.
  destruct (validate d) as [[]|e]; simpl; [|discriminate].
  unfold hashPassword. rewrite Hmod. simpl.
  destruct (password (fields d)) as [plain|] eqn:Hpw; simpl; [|discriminate].
  unfold stampPasswordChange, persist, written. simpl.
  rewrite ?Hmod, ?Hnew. simpl. rewrite ?Hmod, ?Hnew. simpl.
  intro H. inversion H; subst. exists plain. simpl. repeat split.
Qed.

End Writes.

(** ** Forgot password *)

(** C5.  When the email of a forgot-password request belongs to a stored
    user and the delivery fails, the answer is 500 and the store ends as it
    was except that this user's [passwordResetToken] and
    [passwordResetExpires] are both unset. *)
Theorem forgotPassword_rolls_back {P : Platform} cfg deliver draw now req db u :
  unique_ids db = true ->
  find (has_email (Body.email (body req))) db = Some u ->
  (forall m, deliver m = false) ->
  forgotPassword cfg deliver draw now req db
  = (Respond {| status := 500; cookie := None;
                json := Fail (Text
                  "There was an error sending the email. Try again later!") |},
     updateOne (_id u) clear_reset db)
  /\ find (has_id (_id u)) (updateOne (_id u) clear_reset db)
     = Some (clear_reset u)
  /\ passwordResetToken (clear_reset u) = None
  /\ passwordResetExpires (clear_reset u) = None.
Proof.
  intros Huniq Hfind Hfail.
  assert (Hown : find (has_id (_id u)) db = Some u).
  { apply find_by_own_id; [assumption|]. now apply find_some in Hfind. }
  split; [|split; [|split; reflexivity]].
  - unfold forgotPassword, findOne_email. rewrite Hfind. simpl.
    rewrite Hfail. unfold persist, written; simpl.
    rewrite (updateOne_first _ _ db u Hown).
    rewrite updateOne_twice by (unfold has_id; simpl; apply String.eqb_refl).
    rewrite (updateOne_first _ clear_reset db u Hown).
    destruct u; reflexivity.
  - apply find_updateOne; [assumption|].
    unfold has_id; simpl; apply String.eqb_refl.
Qed.

Lemma forgotPassword_rolls_back_witness :
  let P := Sample.platform in
  let req := Sample.request None None "" ""
               (Sample.credentials "ada@example.com" "") None in
  let down : EmailMessage -> bool := fun _ => false in
  unique_ids Sample.db = true
  /\ find (has_email (Body.email (body req))) Sample.db = Some Sample.ada
  /\ (forall m, down m = false)
  /\ forgotPassword Sample.cfg down Sample.zeros 1700000100000 req Sample.db
     = (Respond {| status := 500; cookie := None;
                   json := Fail (Text
                     "There was an error sending the email. Try again later!") |},
        [clear_reset Sample.ada; Sample.bob]).
Proof.
  cbv zeta. split; [reflexivity|]. split; [reflexivity|].
  split; [reflexivity|].
  apply (proj1 (forgotPassword_rolls_back (P := Sample.platform) Sample.cfg
                  (fun _ => false) Sample.zeros 1700000100000
                  (Sample.request None None "" ""
                     (Sample.credentials "ada@example.com" "") None)
                  Sample.db Sample.ada eq_refl eq_refl (fun _ => eq_refl))).
Defined.

(** ** A reset token is spent by a successful reset *)

Lemma has_live_reset_holds {P : Platform} h now u :
  holds_reset h u = false -> has_live_reset h now u = false.
Proof. unfold has_live_reset, holds_reset. now intros ->. Qed.

(** C3 (amended).  Take a store with unique ids in which at most one record
    holds the digest of the raw token [t].  If [resetPassword] succeeds with [t], the
    record it changed ends with [passwordResetToken] and
    [passwordResetExpires] unset, and every later [resetPassword] with the
    same raw token on the resulting store answers 400 "Token is invalid or
    has expired" and changes nothing. *)
Theorem reset_token_single_use {P : Platform} cfg salt now req db r db' :
  unique_ids db = true ->
  (List.length (reset_holders (sha256_hex (params_token req)) db) <= 1)%nat ->
  resetPassword cfg salt now req db = (Respond r, db') ->
  status r = 200 ->
  (exists u u',
      find (has_live_reset (sha256_hex (params_token req)) now) db = Some u
      /\ find (has_id (_id u)) db' = Some u'
      /\ passwordResetToken u' = None
      /\ passwordResetExpires u' = None)
  /\ forall salt2 now2 req2,
      params_token req2 = params_token req ->
      resetPassword cfg salt2 now2 req2 db'
      = (Respond {| status := 400; cookie := None;
                    json := Fail (Text "Token is invalid or has expired") |},
         db').
Proof.
  intros Huniq Hsole Hrun Hok.
  unfold resetPassword, findOne_reset in Hrun. cbv zeta in Hrun.
  destruct (find (has_live_reset (sha256_hex (params_token req)) now) db)
    as [u|] eqn:Hf; simpl in Hrun.
  2:{ inversion Hrun; subst r. discriminate. }
  match type of Hrun with
  | context [save true salt now ?d db] =>
      destruct (save true salt now d db) as [[doc db2]|e] eqn:Hs
  end.
  2:{ inversion Hrun; subst r. discriminate. }
  inversion Hrun; subst r db2. clear Hrun Hok.
  pose proof (save_needs_casts _ _ _ _ _ Hs) as Hce.
  cbn [castErrors map_fields] in Hce.
  rewrite (assignments_cast _ _ _ Hce eq_refl) in Hs. clear Hce.
  apply save_modified_password in Hs; [|reflexivity|reflexivity].
  destruct Hs as (plain & Hplain & Hdoc & Hdb). simpl in Hdoc, Hdb.
  pose proof (find_some _ _ Hf) as [Hin Hlive].
  assert (Hu : holds_reset (sha256_hex (params_token req)) u = true).
  { unfold has_live_reset in Hlive. apply andb_true_iff in Hlive.
    now destruct Hlive. }
  assert (Hown : find (has_id (_id u)) db = Some u)
    by (now apply find_by_own_id).
  split.
  - exists u, (fields doc). split; [reflexivity|]. rewrite Hdb.
    split; [|rewrite Hdoc; split; reflexivity].
    apply (find_updateOne (_id u) (fun _ => fields doc) db u Hown).
    rewrite Hdoc. unfold has_id; simpl. apply String.eqb_refl.
  - intros salt2 now2 req2 Htok.
    unfold resetPassword, findOne_reset. cbv zeta. rewrite Htok.
    rewrite find_all_false; [reflexivity|].
    intros v Hv. apply has_live_reset_holds.
    rewrite Hdb in Hv.
    apply (no_holder_after_update _ (_id u) (fields doc) db); try assumption.
    + intros w Hw Hhw. apply has_id_true.
      f_equal. symmetry.
      apply (filter_at_most_one
               (holds_reset (sha256_hex (params_token req))) db u w);
        assumption.
    + rewrite Hdoc. reflexivity.
Qed.

(** Ada resets her password with "abc123" in time; the same token a second
    later is turned down. *)
Lemma reset_token_single_use_witness :
  let P := Sample.platform in
  let req := Sample.request None None "abc123" ""
               (Sample.new_password None "new password 1" "new password 1")
               None in
  let ada' :=
    {| _id := "u1"; username := Some "ada"; email := Some "ada@example.com";
       password := Some (Sample.digest "s9" "new password 1");
       passwordConfirm := None; role := Some "customer";
       phoneNumber := Some "07123456789"; location := Sample.home;
       passwordChangedAt := Some 1700000099000;
       passwordResetToken := None;
       passwordResetExpires := None |} in
  let r := createSendToken Sample.cfg 1700000100000 ada' 200 in
  unique_ids Sample.db = true
  /\ (List.length (reset_holders (sha256_hex "abc123") Sample.db) <= 1)%nat
  /\ resetPassword Sample.cfg "s9" 1700000100000 req Sample.db
     = (Respond r, [ada'; Sample.bob])
  /\ status r = 200
  /\ resetPassword Sample.cfg "s10" 1700000101000 req [ada'; Sample.bob]
     = (Respond {| status := 400; cookie := None;
                   json := Fail (Text "Token is invalid or has expired") |},
        [ada'; Sample.bob]).
Proof.
  cbv zeta. split; [reflexivity|]. split; [vm_compute; lia|].
  split; [reflexivity|]. split; [reflexivity|].
  refine (proj2 (reset_token_single_use (P := Sample.platform) Sample.cfg "s9"
                   1700000100000
                   (Sample.request None None "abc123" ""
                      (Sample.new_password None "new password 1"
                         "new password 1") None)
                   Sample.db _ _ eq_refl _ eq_refl eq_refl)
            "s10" 1700000101000 _ eq_refl).
  vm_compute. lia.
Defined.

(** Two signups that named the same reset token left two records with
    different ids that hold its digest. *)
Example claimed_twice_holders :
  unique_ids Sample.claimed_twice = true
  /\ map _id (reset_holders "sha256:abc123" Sample.claimed_twice)
     = ["u1"; "u2"].
Proof. split; reflexivity. Qed.

(** C3 (as stated) fails: on that store the raw token "abc123" resets the
    password of the first holder, whose reset fields are cleared, and a
    second submission a second later resets the password of the other
    holder instead of being turned down. *)
Lemma reset_token_works_twice :
  ~ spends_reset_token Sample.platform.
Proof.
  intro H.
  set (req := Sample.request None None "abc123" ""
                (Sample.new_password None "new password 1" "new password 1")
                None).
  set (out := resetPassword (P := Sample.platform) Sample.cfg "s9"
                1700000100000 req Sample.claimed_twice).
  assert (Hout : exists r, out = (Respond r, snd out) /\ status r = 200)
    by (eexists; split; reflexivity).
  destruct Hout as (r & Hr & Hs).
  specialize (H Sample.cfg "s9" 1700000100000 req Sample.claimed_twice r
                (snd out) Hr Hs "s10" 1700000101000 req eq_refl).
  vm_compute in H. discriminate.
Qed.

(** ** Signup stores a salted digest *)

Section Signup.

Context {P : Platform}.

Lemma first_failure_nil path c rest :
  first_failure path (c :: rest) = [] -> fst c = true.
Proof.
  unfold first_failure. simpl. destruct c as [[|] m]; simpl;
    [reflexivity | discriminate].
Qed.

Lemma validate_password_present d :
  validate d = Ok tt ->
  passwordSelected d = true ->
  exists plain, password (fields d) = Some plain.
Proof.
  intros Hv Hsel. pose proof (validate_errors _ Hv) as He.
  unfold validationErrors in He. cbv zeta in He. rewrite Hsel in He.
  simpl orb in He. cbv iota in He.
  apply app_eq_nil in He. destruct He as [_ He].
  apply app_eq_nil in He. destruct He as [_ He].
  apply app_eq_nil in He. destruct He as [He _].
  apply first_failure_nil in He. simpl in He.
  destruct (password (fields d)) as [plain|]; [now exists plain | discriminate].
Qed.

(** A signup answered with 201 appended one record: the new document with
    its password replaced by the cost-12 digest and without the
    confirmation. *)
Lemma signupUser_created cfg salt newId now req db r db' :
  signupUser cfg salt newId now req db = (Respond r, db') ->
  status r = 201 ->
  exists plain,
    Js.cast (Body.password (body req)) = Some plain
    /\ db' = (db ++ [with_passwordConfirm None
                       (with_password (Some (bcrypt_hash salt plain 12))
                          (fields (new_document newId (body req))))])%list.
Proof.
  unfold signupUser. cbv zeta.
  destruct (negb (Js.truthy (Body.email (body req)))).
  { intros H Hs. inversion H; subst r. discriminate. }
  destruct (findOne_email false db (Body.email (body req))).
  { intros H Hs. inversion H; subst r. discriminate. }
  destruct (save true salt now (new_document newId (body req)) db)
    as [[doc db2]|e] eqn:Hsave.
  2:{ intros H Hs. inversion H; subst r. discriminate. }
  intros H _. inversion H; subst r db2. clear H.
  unfold save in Hsave.
  destruct (validate (new_document newId (body req))) as [[]|e] eqn:Hval;
    simpl in Hsave; [|discriminate].
  destruct (validate_password_present _ Hval eq_refl) as [plain Hplain].
  simpl in Hplain. exists plain. split; [assumption|].
  unfold hashPassword in Hsave. simpl in Hsave. rewrite Hplain in Hsave.
  simpl in Hsave.
  destruct (_ && _) in Hsave; [discriminate|]. inversion Hsave.
  unfold persist, stampPasswordChange. simpl. rewrite Hplain. reflexivity.
Qed.

End Signup.

(** C8.  Under the bcrypt contract, a signup answered with 201 stores as
    the password the cost-12 bcrypt digest of the submitted plaintext (the
    string the submitted value casts to), which differs from the plaintext
    and which [correctPassword] accepts for the plaintext; the confirmation is not stored; and hashing the same document
    again with another salt gives a different digest that [correctPassword]
    accepts as well. *)
Theorem signup_stores_salted_digest {P : Platform} {B : BcryptContract P}
  cfg salt newId now req db r db' :
  signupUser cfg salt newId now req db = (Respond r, db') ->
  status r = 201 ->
  exists plain u,
    Js.cast (Body.password (body req)) = Some plain
    /\ db' = (db ++ [u])%list
    /\ password u = Some (bcrypt_hash salt plain 12)
    /\ password u <> Some plain
    /\ passwordConfirm u = None
    /\ correctPassword (Some (Js.Str plain)) (password u) = Ok true
    /\ forall salt2,
        salt2 <> salt ->
        exists d2,
          hashPassword salt2 (new_document newId (body req)) = Ok d2
          /\ password (fields d2) = Some (bcrypt_hash salt2 plain 12)
          /\ password (fields d2) <> password u
          /\ correctPassword (Some (Js.Str plain)) (password (fields d2))
             = Ok true.
Proof.
  intros Hrun Hok.
  destruct (signupUser_created _ _ _ _ _ _ _ _ Hrun Hok) as (plain & Hpw & Hdb).
  exists plain. eexists. split; [exact Hpw|]. split; [exact Hdb|].
  simpl. split; [reflexivity|].
  split; [intro H; inversion H; now apply one_way in H1|].
  split; [reflexivity|].
  split; [now rewrite compare_hash|].
  intros salt2 Hne. unfold hashPassword. simpl. rewrite Hpw. simpl.
  eexists. split; [reflexivity|]. simpl. split; [reflexivity|].
  split; [intro H; inversion H; now apply salted in H1|].
  now rewrite compare_hash.
Qed.

(** The sample platform meets the bcrypt contract. *)
Lemma prefix_append s t : String.prefix s (s ++ t) = true.
Proof.
  induction s as [|a s IH]; simpl; [destruct t; reflexivity|].
  destruct (ascii_dec a a); [assumption | congruence].
Qed.

Lemma append_cancel_l s t1 t2 : s ++ t1 = s ++ t2 -> t1 = t2.
Proof.
  induction s as [|a s IH]; simpl; [trivial|].
  intro H. inversion H. now apply IH.
Qed.

Lemma string_length_append s t :
  String.length (s ++ t) = (String.length s + String.length t)%nat.
Proof. induction s as [|a s IH]; simpl; [reflexivity | now rewrite IH]. Qed.

Lemma append_assoc_one s a t : (s ++ String a "") ++ t = s ++ String a t.
Proof. induction s as [|b s IH]; simpl; [reflexivity | now rewrite IH]. Qed.

Lemma sample_bcrypt_contract : BcryptContract Sample.platform.
Proof.
  constructor; simpl.
  - intros salt plain _. unfold Sample.digest.
    destruct (ascii_dec "$" "$"); [|congruence].
    rewrite <- (append_assoc_one plain "$" salt). apply prefix_append.
  - intros salt1 salt2 plain _ Hne H. unfold Sample.digest in H.
    inversion H as [H1]. apply append_cancel_l in H1. inversion H1.
    contradiction.
  - intros salt plain _ H. apply (f_equal String.length) in H.
    unfold Sample.digest in H. simpl in H.
    rewrite string_length_append in H. simpl in H. lia.
Qed.

Lemma signup_stores_salted_digest_witness :
  let P := Sample.platform in
  let req := Sample.request None None "" ""
               (Sample.registration "Carol@Example.com" "tr0ub4dor&3") None in
  let carol :=
    {| _id := "u3"; username := Some "carol";
       email := Some "carol@example.com";
       password := Some (Sample.digest "s3" "tr0ub4dor&3");
       passwordConfirm := None; role := Some "customer";
       phoneNumber := Some "07000000000"; location := Sample.home;
       passwordChangedAt := None;
       passwordResetToken := None;
       passwordResetExpires := None |} in
  let r := createSendToken Sample.cfg 1700000100000 carol 201 in
  signupUser Sample.cfg "s3" "u3" 1700000100000 req Sample.db
  = (Respond r, [Sample.ada; Sample.bob; carol])
  /\ status r = 201
  /\ exists plain u,
       Js.cast (Body.password (body req)) = Some plain
       /\ [Sample.ada; Sample.bob; carol] = (Sample.db ++ [u])%list
       /\ password u = Some (bcrypt_hash "s3" plain 12)
       /\ password u <> Some plain.
Proof.
  cbv zeta. split; [reflexivity|]. split; [reflexivity|].
  destruct (signup_stores_salted_digest (P := Sample.platform)
              (B := sample_bcrypt_contract)
              Sample.cfg "s3" "u3" 1700000100000
              (Sample.request None None "" ""
                 (Sample.registration "Carol@Example.com" "tr0ub4dor&3") None)
              Sample.db _ _ eq_refl eq_refl)
    as (plain & u & H1 & H2 & H3 & H4 & _).
  exists plain, u. repeat split; assumption.
Defined.


(** ** More facts about writes *)

Section MoreWrites.

Context {P : Platform}.

Lemma map_updateOne_first {A} (g : User -> A) id f db u :
  find (has_id id) db = Some u ->
  g (f u) = g u ->
  map g (updateOne id f db) = map g db.
Proof.
  induction db as [|x rest IH]; simpl; [discriminate|].
  destruct (has_id id x) eqn:Hx; simpl.
  - intros H Hg. inversion H; subst. now rewrite Hg.
  - intros H Hg. now rewrite IH.
Qed.

Lemma updateOne_missing id f db :
  find (has_id id) db = None -> updateOne id f db = db.
Proof.
  induction db as [|x rest IH]; simpl; [reflexivity|].
  destruct (has_id id x); [discriminate|]. intro H. now rewrite IH.
Qed.

Lemma forallb_updateOne (q : User -> bool) id f db :
  forallb q db = true ->
  (forall v, In v db -> q (f v) = true) ->
  forallb q (updateOne id f db) = true.
Proof.
  induction db as [|x rest IH]; simpl; [trivial|].
  rewrite andb_true_iff. intros [Hx Hrest] Hf.
  destruct (has_id id x); simpl; rewrite andb_true_iff; split.
  - apply Hf. now left.
  - assumption.
  - assumption.
  - apply IH; [assumption|]. intros v Hv. apply Hf. now right.
Qed.

Lemma find_updateOne_in_place (p : User -> bool) f db u :
  unique_ids db = true ->
  find p db = Some u ->
  p (f u) = true ->
  find p (updateOne (_id u) f db) = Some (f u).
Proof.
  induction db as [|x rest IH]; simpl; [discriminate|].
  rewrite andb_true_iff, negb_true_iff. intros [Hx Hrest].
  destruct (p x) eqn:Hpx.
  - intros H Hf. inversion H; subst x.
    unfold has_id at 1. rewrite String.eqb_refl. simpl. now rewrite Hf.
  - intros H Hf.
    destruct (has_id (_id u) x) eqn:Hux.
    + exfalso. apply find_some in H. destruct H as [Hin _].
      assert (existsb (has_id (_id x)) rest = true).
      { apply existsb_exists. exists u. split; [assumption|].
        apply has_id_true in Hux. apply has_id_true. congruence. }
      congruence.
    + simpl. rewrite Hpx. now apply IH.
Qed.

Lemma protect_with_user now u req db :
  protect now (with_user u req) db = protect now req db.
Proof. reflexivity. Qed.

Lemma changedPasswordAfter_deselect u iat :
  changedPasswordAfter (with_password None u) iat = changedPasswordAfter u iat.
Proof. reflexivity. Qed.

Lemma protect_cookie now token b db c u :
  token <> "" ->
  jwt_verify token now = Some c ->
  find (has_id (jwt_id c)) db = Some u ->
  protect now (cookie_request token b) db
  = if changedPasswordAfter u (jwt_iat c)
    then Respond (fail 401
           (Text "User recently changed password! Please log in again."))
    else Forward (Some (with_password None u)) None.
Proof.
  intros Hne Hv Hf. unfold protect, bearer_token. simpl.
  rewrite (as_truthy_intro _ Hne). rewrite (as_truthy_intro _ Hne).
  rewrite Hv. unfold findById. rewrite Hf. simpl. reflexivity.
Qed.

(** The second shifted back by the hook is never after the second of the
    clock. *)
Lemma stamp_not_after_issue now :
  Js.parseInt_div1000 (now - 1000) <= now / 1000.
Proof.
  unfold Js.parseInt_div1000.
  destruct (Z_le_gt_dec 1000 now) as [Hge|Hlt].
  - rewrite Z.quot_div_nonneg by lia.
    replace (now - 1000) with (now + (-1) * 1000) by lia.
    rewrite Z.div_add by lia. lia.
  - assert (H1 : Z.quot (now - 1000) 1000 <= 0).
    { apply Z.quot_le_upper_bound; lia. }
    assert (H2 : Z.quot (now - 1000) 1000 = - Z.quot (1000 - now) 1000).
    { replace (now - 1000) with (- (1000 - now)) by lia.
      now rewrite Z.quot_opp_l by lia. }
    rewrite H2. rewrite Z.quot_div_nonneg by lia.
    assert (H3 : now / 1000 + 1 = (now + 1 * 1000) / 1000)
      by (now rewrite Z.div_add by lia).
    assert (H4 : (1000 - now) / 1000 >= 0 - now / 1000 - 0).
    { pose proof (Z.div_mod now 1000 ltac:(lia)) as Hd.
      pose proof (Z.mod_pos_bound now 1000 ltac:(lia)) as Hm.
      assert (1000 - now = (- (now / 1000)) * 1000 + (1000 - now mod 1000)) by lia.
      assert (Hq : (- (now / 1000)) <= (1000 - now) / 1000).
      { apply Z.div_le_lower_bound; lia. }
      lia. }
    lia.
Qed.

Lemma stamp_after_older now iat :
  1000 <= now -> iat <= now / 1000 - 2 ->
  iat < Js.parseInt_div1000 (now - 1000).
Proof.
  intros Hnow Hiat. unfold Js.parseInt_div1000.
  rewrite Z.quot_div_nonneg by lia.
  replace (now - 1000) with (now + (-1) * 1000) by lia.
  rewrite Z.div_add by lia. lia.
Qed.

Lemma past_stamp_not_after t now :
  0 <= t <= now -> Js.parseInt_div1000 t <= now / 1000.
Proof.
  intros [H0 Hle]. unfold Js.parseInt_div1000.
  rewrite Z.quot_div_nonneg by lia. apply Z.div_le_mono; lia.
Qed.

(** The shape of the three successful password flows. *)
Lemma record_after_reset u bp bc digest now :
  with_passwordChangedAt (Some (now - 1000))
    (with_passwordConfirm None
       (with_password (Some digest)
          (clear_reset (with_passwordConfirm bc
                          (with_password bp (with_password None u))))))
  = with_new_password digest now (clear_reset u).
Proof. destruct u; reflexivity. Qed.

Lemma resetPassword_success cfg salt now req db r db' token v :
  resetPassword cfg salt now req db = (Respond r, db') ->
  json r = Session token v ->
  exists u plain,
    find (has_live_reset (sha256_hex (params_token req)) now) db = Some u
    /\ Js.cast (Body.password (body req)) = Some plain
    /\ db' = updateOne (_id u)
               (fun _ => with_new_password (bcrypt_hash salt plain 12) now
                           (clear_reset u)) db
    /\ v = with_password None
             (with_new_password (bcrypt_hash salt plain 12) now (clear_reset u))
    /\ token = jwt_sign (_id u) now.
Proof.
  unfold resetPassword, findOne_reset. cbv zeta.
  destruct (find (has_live_reset (sha256_hex (params_token req)) now) db)
    as [u|] eqn:Hf; simpl.
  2:{ intros H Hj. inversion H; subst r. discriminate. }
  match goal with
  | |- context [save true salt now ?d db] =>
      destruct (save true salt now d db) as [[doc db2]|e] eqn:Hs
  end.
  2:{ intros H Hj. inversion H; subst r. discriminate. }
  intros H Hj. inversion H; subst r db2. clear H.
  pose proof (save_needs_casts _ _ _ _ _ Hs) as Hce.
  cbn [castErrors map_fields] in Hce.
  rewrite (assignments_cast _ _ _ Hce eq_refl) in Hs. clear Hce.
  apply save_modified_password in Hs; [|reflexivity|reflexivity].
  destruct Hs as (plain & Hplain & Hdoc & Hdb). simpl in Hplain, Hdoc, Hdb.
  rewrite record_after_reset in Hdoc.
  exists u, plain. split; [reflexivity|]. split; [assumption|].
  rewrite Hdoc in Hdb. split; [assumption|].
  simpl in Hj. inversion Hj. rewrite Hdoc. simpl. split; reflexivity.
Qed.

End MoreWrites.

(** ** Tokens across a change of password *)

Section Rotation.

Context {P : Platform}.

Lemma changed_after_new_password digest now u iat :
  changedPasswordAfter (with_new_password digest now u) iat
  = (iat <? Js.parseInt_div1000 (now - 1000)).
Proof. reflexivity. Qed.

Lemma updatePassword_success cfg salt now req db r db' token v :
  updatePassword cfg salt now req db = (Respond r, db') ->
  json r = Session token v ->
  exists me u,
    user req = Some me
    /\ find (has_id (_id me)) db = Some u
    /\ correctPassword (Body.passwordCurrent (body req)) (password u) = Ok true
    /\ token = jwt_sign (_id u) now
    /\ (Js.cast (Body.password (body req)) <> password u ->
        exists plain,
          Js.cast (Body.password (body req)) = Some plain
          /\ db' = updateOne (_id u)
                     (fun _ => with_new_password (bcrypt_hash salt plain 12)
                                 now u) db
          /\ v = with_password None
                   (with_new_password (bcrypt_hash salt plain 12) now u)).
Proof.
  unfold updatePassword, findById.
  destruct (user req) as [me|].
  2:{ intros H Hj. inversion H; subst r. discriminate. }
  destruct (find (has_id (_id me)) db) as [u|] eqn:Hu; simpl.
  2:{ intros H Hj. inversion H; subst r. discriminate. }
  destruct (correctPassword (Body.passwordCurrent (body req)) (password u))
    as [[|]|e] eqn:Hc.
  2,3: intros H Hj; inversion H; subst r; discriminate.
  match goal with
  | |- context [save true salt now ?d db] =>
      destruct (save true salt now d db) as [[doc db2]|e] eqn:Hs
  end.
  2:{ intros H Hj. inversion H; subst r. discriminate. }
  intros H Hj. inversion H; subst r db2. clear H.
  simpl in Hj. inversion Hj; subst token v. clear Hj.
  assert (Hid : _id u = _id me) by (apply find_some in Hu; now apply has_id_true).
  exists me, u. split; [reflexivity|]. split; [exact Hu|].
  split; [exact Hc|].
  pose proof (save_needs_casts _ _ _ _ _ Hs) as Hce.
  rewrite (assignments_cast _ _ _ Hce eq_refl) in Hs. clear Hce.
  assert (Hdocid : _id (fields doc) = _id u).
  { destruct (save_ok _ _ _ _ _ _ _ Hs) as (_ & d1 & Hh & _ & -> & _).
    simpl. rewrite id_stamp.
    destruct (hashPassword_keeps _ _ _ Hh) as [_ ->]. reflexivity. }
  split; [now rewrite Hdocid|].
  intro Hne.
  apply save_modified_password in Hs; [|reflexivity|].
  2:{ simpl. apply negb_true_iff.
      destruct (Js.strict_eq (Js.cast (Body.password (body req))) (password u)) eqn:He;
        [|reflexivity].
      apply strict_eq_true in He. contradiction. }
  destruct Hs as (plain & Hplain & Hdoc & Hdb). simpl in Hplain, Hdoc, Hdb.
  exists plain. split; [assumption|].
  assert (Hrec : fields doc
                 = with_new_password (bcrypt_hash salt plain 12) now u).
  { rewrite Hdoc. destruct u; reflexivity. }
  rewrite Hrec in *. split; [assumption|reflexivity].
Qed.

End Rotation.

(** X1.  After a reset answered with a session, the cookie of the answer
    carries the new token; [protect] accepts that token on the resulting
    store for the same user, and turns down every token of that user issued
    two seconds or more before the reset. *)
Theorem resetPassword_rotates_tokens {P : Platform} cfg salt now req db r db'
  token v :
  unique_ids db = true ->
  resetPassword cfg salt now req db = (Respond r, db') ->
  json r = Session token v ->
  (exists c, cookie r = Some c /\ cookie_name c = "jwt"
             /\ cookie_value c = token)
  /\ (forall now2 b,
         token <> "" ->
         jwt_verify token now2
         = Some {| jwt_id := _id v; jwt_iat := now / 1000 |} ->
         protect now2 (cookie_request token b) db' = Forward (Some v) None)
  /\ (forall now2 old c b,
         1000 <= now -> old <> "" ->
         jwt_verify old now2 = Some c ->
         jwt_id c = _id v ->
         jwt_iat c <= now / 1000 - 2 ->
         protect now2 (cookie_request old b) db'
         = Respond (fail 401
             (Text "User recently changed password! Please log in again."))).
Proof.
  intros Huniq Hrun Hj.
  assert (Hcookie : exists c, cookie r = Some c /\ cookie_name c = "jwt"
                              /\ cookie_value c = token).
  { unfold resetPassword in Hrun. cbv zeta in Hrun.
    destruct (findOne_reset _ _ _); [|inversion Hrun; subst r; discriminate].
    destruct (save _ _ _ _ _) as [[doc db2]|e];
      [|inversion Hrun; subst r; discriminate].
    inversion Hrun; subst r. simpl in Hj. inversion Hj; subst.
    eexists. repeat split. }
  destruct (resetPassword_success _ _ _ _ _ _ _ _ _ Hrun Hj)
    as (u & plain & Hf & Hplain & Hdb & Hv & Htok).
  pose proof (find_some _ _ Hf) as [Hin _].
  pose proof (find_by_own_id db u Huniq Hin) as Hown.
  set (u' := with_new_password (bcrypt_hash salt plain 12) now (clear_reset u))
    in *.
  assert (Hown' : find (has_id (_id u)) db' = Some u').
  { rewrite Hdb. apply (find_updateOne (_id u) (fun _ => u') db u Hown).
    unfold has_id. simpl. apply String.eqb_refl. }
  assert (Hidv : _id v = _id u) by (rewrite Hv; reflexivity).
  split; [exact Hcookie|]. split.
  - intros now2 b Hne Hver. rewrite Hidv in Hver.
    rewrite (protect_cookie now2 token b db' _ u' Hne Hver Hown').
    simpl jwt_iat. unfold u'. rewrite changed_after_new_password.
    pose proof (stamp_not_after_issue now) as Hle.
    apply Z.ltb_ge in Hle. rewrite Hle. now rewrite Hv.
  - intros now2 old c b Hnow Hne Hver Hid Hiat.
    assert (Hfc : find (has_id (jwt_id c)) db' = Some u')
      by (rewrite Hid, Hidv; exact Hown').
    rewrite (protect_cookie now2 old b db' c u' Hne Hver Hfc).
    unfold u'. rewrite changed_after_new_password.
    pose proof (stamp_after_older now (jwt_iat c) Hnow Hiat) as Hlt.
    apply Z.ltb_lt in Hlt. now rewrite Hlt.
Qed.

Lemma resetPassword_rotates_tokens_witness :
  let P := Issuer.platform in
  let req := Sample.request None None "abc123" ""
               (Sample.new_password None "new password 1" "new password 1")
               None in
  let out := resetPassword Sample.cfg "s9" 1700000100000 req Sample.db in
  let v := with_password None
             (with_new_password (Sample.digest "s9" "new password 1")
                1700000100000 (clear_reset Sample.ada)) in
  unique_ids Sample.db = true
  /\ (exists r, out = (Respond r, snd out)
                /\ json r = Session "u1@1700000100" v)
  /\ protect 1700000200000
       (cookie_request "u1@1700000100" Sample.no_body) (snd out)
     = Forward (Some v) None
  /\ protect 1700000200000
       (cookie_request "u1@1700000098" Sample.no_body) (snd out)
     = Respond (fail 401
         (Text "User recently changed password! Please log in again.")).
Proof.
  cbv zeta. split; [reflexivity|].
  split; [eexists; split; reflexivity|].
  pose proof (resetPassword_rotates_tokens (P := Issuer.platform) Sample.cfg
                "s9" 1700000100000
                (Sample.request None None "abc123" ""
                   (Sample.new_password None "new password 1"
                      "new password 1") None)
                Sample.db _ _ "u1@1700000100" _ eq_refl eq_refl eq_refl)
    as (_ & Hnew & Hold).
  split.
  - apply Hnew; [discriminate | reflexivity].
  - apply (Hold 1700000200000 "u1@1700000098"
             {| jwt_id := "u1"; jwt_iat := 1700000098 |});
      [lia | discriminate | reflexivity | reflexivity | vm_compute; discriminate].
Defined.

(** X2.  After an update of the password that is answered with a session
    (the new password not being a stored hash), [protect] accepts the token
    of the answer on the resulting store and turns down every token of that
    user issued two seconds or more before the update. *)
Theorem updatePassword_rotates_tokens {P : Platform} cfg salt now req db r db'
  token v :
  (forall u, In u db -> Js.cast (Body.password (body req)) <> password u) ->
  updatePassword cfg salt now req db = (Respond r, db') ->
  json r = Session token v ->
  (forall now2 b,
      token <> "" ->
      jwt_verify token now2
      = Some {| jwt_id := _id v; jwt_iat := now / 1000 |} ->
      protect now2 (cookie_request token b) db' = Forward (Some v) None)
  /\ (forall now2 old c b,
         1000 <= now -> old <> "" ->
         jwt_verify old now2 = Some c ->
         jwt_id c = _id v ->
         jwt_iat c <= now / 1000 - 2 ->
         protect now2 (cookie_request old b) db'
         = Respond (fail 401
             (Text "User recently changed password! Please log in again."))).
Proof.
  intros Hnew Hrun Hj.
  destruct (updatePassword_success _ _ _ _ _ _ _ _ _ Hrun Hj)
    as (me & u & Hme & Hu & _ & Htok & Hmod).
  pose proof (find_some _ _ Hu) as [Hin Hidb].
  apply has_id_true in Hidb.
  destruct (Hmod (Hnew u Hin)) as (plain & Hplain & Hdb & Hv).
  set (u' := with_new_password (bcrypt_hash salt plain 12) now u) in *.
  assert (Hown : find (has_id (_id u)) db = Some u) by (now rewrite Hidb).
  assert (Hown' : find (has_id (_id u)) db' = Some u').
  { rewrite Hdb. apply (find_updateOne (_id u) (fun _ => u') db u Hown).
    unfold has_id. simpl. apply String.eqb_refl. }
  assert (Hidv : _id v = _id u) by (rewrite Hv; reflexivity).
  split.
  - intros now2 b Hne Hver. rewrite Hidv in Hver.
    rewrite (protect_cookie now2 token b db' _ u' Hne Hver Hown').
    simpl jwt_iat. unfold u'. rewrite changed_after_new_password.
    pose proof (stamp_not_after_issue now) as Hle.
    apply Z.ltb_ge in Hle. rewrite Hle. now rewrite Hv.
  - intros now2 old c b Hnow Hne Hver Hid Hiat.
    assert (Hfc : find (has_id (jwt_id c)) db' = Some u')
      by (rewrite Hid, Hidv; exact Hown').
    rewrite (protect_cookie now2 old b db' c u' Hne Hver Hfc).
    unfold u'. rewrite changed_after_new_password.
    pose proof (stamp_after_older now (jwt_iat c) Hnow Hiat) as Hlt.
    apply Z.ltb_lt in Hlt. now rewrite Hlt.
Qed.

Lemma updatePassword_rotates_tokens_witness :
  let P := Issuer.platform in
  let req := Sample.request None None "" ""
               (Sample.new_password (Some "battery staple")
                  "new password 2" "new password 2")
               (Some (with_password None Sample.bob)) in
  let out := updatePassword Sample.cfg "s7" 1700000100000 req Sample.db in
  let v := with_password None
             (with_new_password (Sample.digest "s7" "new password 2")
                1700000100000 Sample.bob) in
  (forall u, In u Sample.db -> Js.cast (Body.password (body req)) <> password u)
  /\ (exists r, out = (Respond r, snd out)
                /\ json r = Session "u2@1700000100" v)
  /\ protect 1700000200000
       (cookie_request "u2@1700000100" Sample.no_body) (snd out)
     = Forward (Some v) None.
Proof.
  cbv zeta.
  assert (Hnew : forall u, In u Sample.db ->
                           Some "new password 2" <> password u).
  { intros u [<-|[<-|[]]]; discriminate. }
  split; [exact Hnew|].
  split; [eexists; split; reflexivity|].
  pose proof (updatePassword_rotates_tokens (P := Issuer.platform) Sample.cfg
                "s7" 1700000100000
                (Sample.request None None "" ""
                   (Sample.new_password (Some "battery staple")
                      "new password 2" "new password 2")
                   (Some (with_password None Sample.bob)))
                Sample.db _ _ "u2@1700000100" _ Hnew eq_refl eq_refl)
    as (Hnewtok & _).
  apply Hnewtok; [discriminate | reflexivity].
Defined.

(** X3.  The cookie token of a successful login is accepted by [protect]
    on the same store for the user that logged in, provided the record's
    [passwordChangedAt], if set, is not in the future. *)
Theorem login_token_is_accepted {P : Platform} cfg now req db r token v :
  unique_ids db = true ->
  login cfg now req db = Respond r ->
  json r = Session token v ->
  (forall t, passwordChangedAt v = Some t -> 0 <= t <= now) ->
  forall now2 b,
    token <> "" ->
    jwt_verify token now2 = Some {| jwt_id := _id v; jwt_iat := now / 1000 |} ->
    protect now2 (cookie_request token b) db = Forward (Some v) None.
Proof.
  intros Huniq Hrun Hj Hpast now2 b Hne Hver.
  unfold login, findOne_email in Hrun. cbv zeta in Hrun.
  destruct (_ || _) in Hrun; [inversion Hrun; subst r; discriminate|].
  destruct (find (has_email (Body.email (body req))) db) as [u|] eqn:Hf;
    simpl in Hrun; [|inversion Hrun; subst r; discriminate].
  destruct (correctPassword _ _) as [[|]|e]; try discriminate;
    [|inversion Hrun; subst r; discriminate].
  inversion Hrun; subst r. simpl in Hj. inversion Hj; subst token v. clear Hj.
  pose proof (find_some _ _ Hf) as [Hin _].
  pose proof (find_by_own_id db u Huniq Hin) as Hown.
  simpl in Hver.
  rewrite (protect_cookie now2 _ b db _ u Hne Hver Hown). simpl jwt_iat.
  destruct (passwordChangedAt u) as [t|] eqn:Ht.
  - assert (Hc : changedPasswordAfter u (now / 1000) = false).
    { apply (changedPasswordAfter_spec u _ t Ht).
      apply past_stamp_not_after. apply Hpast. exact Ht. }
    now rewrite Hc.
  - now rewrite (changedPasswordAfter_unset u _ Ht).
Qed.

Lemma login_token_is_accepted_witness :
  let P := Issuer.platform in
  let req := Sample.request None None "" ""
               (Sample.credentials "ada@example.com" "correct horse") None in
  let v := with_password None Sample.ada in
  unique_ids Sample.db = true
  /\ (exists r, login Sample.cfg 1700000100000 req Sample.db = Respond r
                /\ json r = Session "u1@1700000100" v)
  /\ (forall t, passwordChangedAt v = Some t -> 0 <= t <= 1700000100000)
  /\ protect 1700000200000 (cookie_request "u1@1700000100" Sample.no_body)
       Sample.db
     = Forward (Some v) None.
Proof.
  cbv zeta.
  assert (Hpast : forall t, passwordChangedAt (with_password None Sample.ada)
                            = Some t -> 0 <= t <= 1700000100000).
  { intros t H. inversion H. lia. }
  split; [reflexivity|]. split; [eexists; split; reflexivity|].
  split; [exact Hpast|].
  apply (login_token_is_accepted (P := Issuer.platform) Sample.cfg
           1700000100000
           (Sample.request None None "" ""
              (Sample.credentials "ada@example.com" "correct horse") None)
           Sample.db _ "u1@1700000100" _ eq_refl eq_refl eq_refl Hpast);
    [discriminate | reflexivity].
Defined.

(** ** The reset flow end to end *)

Section ResetFlow.

Context {P : Platform}.

Lemma issued_record draw now u :
  snd (createPasswordResetToken draw now u)
  = with_passwordResetExpires (Some (now + 600000))
      (with_passwordResetToken
         (Some (sha256_hex (Js.toHex (randomBytes draw 32)))) u).
Proof. reflexivity. Qed.

(** The store a forgot-password request leaves when the record found by
    email is also the one stored under its id. *)
Lemma forgotPassword_store cfg deliver draw now req db u :
  find (has_email (Body.email (body req))) db = Some u ->
  find (has_id (_id u)) db = Some u ->
  exists w,
    snd (forgotPassword cfg deliver draw now req db)
    = updateOne (_id u) (fun _ => w) db
    /\ (w = snd (createPasswordResetToken draw now u) \/ w = clear_reset u)
    /\ ((forall m, deliver m = true) ->
        w = snd (createPasswordResetToken draw now u)).
Proof.
  intros Hfind Hown. unfold forgotPassword, findOne_email.
  rewrite Hfind. simpl.
  match goal with |- context [deliver ?m] => destruct (deliver m) eqn:Hd end.
  - exists (snd (createPasswordResetToken draw now u)). simpl.
    split; [|split; [now left | reflexivity]].
    unfold persist, written; simpl.
    rewrite (updateOne_first _ _ db u Hown). reflexivity.
  - exists (clear_reset u). simpl.
    split; [|split; [now right|]].
    + unfold persist, written; simpl.
      rewrite (updateOne_first _ _ db u Hown).
      rewrite updateOne_twice by (unfold has_id; simpl; apply String.eqb_refl).
      destruct u; reflexivity.
    + intro Hall. rewrite Hall in Hd. discriminate.
Qed.

Lemma updateOne_members id w db u v :
  unique_ids db = true ->
  find (has_id id) db = Some u ->
  In v (updateOne id (fun _ => w) db) ->
  v = w \/ (In v db /\ v <> u).
Proof.
  induction db as [|x rest IH]; simpl; [discriminate|].
  rewrite andb_true_iff, negb_true_iff. intros [Hx Hrest].
  destruct (has_id id x) eqn:Hidx; simpl.
  - intros H [Hw|Hin]; [now left|]. inversion H as [Hxu]. right.
    split; [now right|]. intro Heq.
    assert (existsb (has_id (_id x)) rest = true).
    { apply existsb_exists. exists v. split; [assumption|].
      rewrite Heq, Hxu. unfold has_id. apply String.eqb_refl. }
    congruence.
  - intros H [Hxv|Hin].
    + right. split; [now left|]. intro Heq.
      apply find_some in H. destruct H as [_ H].
      rewrite <- Heq, <- Hxv in H. congruence.
    + destruct (IH Hrest H Hin) as [->|[Hin' Hne]]; [now left|].
      right. split; [now right | assumption].
Qed.

End ResetFlow.

(** X4.  The raw token of a delivered forgot-password request resets the
    password for ten minutes: on the store the request leaves, and with no
    other record holding the same digest, [resetPassword] with that token
    answers "Token is invalid or has expired" exactly when it is called
    600000 ms or more after the request. *)
Theorem reset_token_lives_ten_minutes {P : Platform} cfg deliver draw salt
  now now2 req reqR db u :
  unique_ids db = true ->
  find (has_email (Body.email (body req))) db = Some u ->
  (forall m, deliver m = true) ->
  (forall v, In v db ->
     holds_reset (sha256_hex (Js.toHex (randomBytes draw 32))) v = true ->
     v = u) ->
  params_token reqR = Js.toHex (randomBytes draw 32) ->
  fst (resetPassword cfg salt now2 reqR
         (snd (forgotPassword cfg deliver draw now req db)))
  = Respond {| status := 400; cookie := None;
               json := Fail (Text "Token is invalid or has expired") |}
  <-> now + 600000 <= now2.
Proof.
  intros Huniq Hfind Hdel Hsole Htok.
  pose proof (find_some _ _ Hfind) as [Hin _].
  pose proof (find_by_own_id db u Huniq Hin) as Hown.
  destruct (forgotPassword_store cfg deliver draw now req db u Hfind Hown)
    as (w & Hdb & _ & Hw).
  specialize (Hw Hdel). rewrite Hdb. clear Hdb.
  rewrite issued_record in Hw.
  set (h := sha256_hex (Js.toHex (randomBytes draw 32))) in *.
  assert (Hinw : In w (updateOne (_id u) (fun _ => w) db)).
  { assert (Hf : find (has_id (_id u)) (updateOne (_id u) (fun _ => w) db)
                 = Some w).
    { apply (find_updateOne (_id u) (fun _ => w) db u Hown).
      rewrite Hw. unfold has_id. simpl. apply String.eqb_refl. }
    now apply find_some in Hf. }
  unfold resetPassword, findOne_reset. cbv zeta. rewrite Htok. fold h.
  split.
  - intro Hans.
    destruct (Z_le_gt_dec (now + 600000) now2) as [Hle|Hgt]; [assumption|].
    exfalso.
    destruct (find (has_live_reset h now2) (updateOne (_id u) (fun _ => w) db))
      as [x|] eqn:Hx.
    + simpl in Hans.
      destruct (save _ _ _ _ _) as [[doc db2]|e]; simpl in Hans;
        inversion Hans.
    + pose proof (find_none _ _ Hx w Hinw) as Hfalse.
      rewrite Hw in Hfalse. unfold has_live_reset in Hfalse. simpl in Hfalse.
      rewrite String.eqb_refl in Hfalse. simpl in Hfalse.
      apply Z.ltb_ge in Hfalse. lia.
  - intro Hle.
    rewrite find_all_false; [reflexivity|].
    intros v Hv.
    destruct (updateOne_members _ _ _ _ _ Huniq Hown Hv) as [->|[Hvin Hne]].
    + rewrite Hw. unfold has_live_reset. simpl.
      rewrite String.eqb_refl. simpl. apply Z.ltb_ge. lia.
    + apply has_live_reset_holds.
      destruct (holds_reset h v) eqn:Hh; [|reflexivity].
      exfalso. apply Hne. now apply Hsole.
Qed.

Lemma reset_token_lives_ten_minutes_witness :
  let P := Sample.platform in
  let req := Sample.request None None "" ""
               (Sample.credentials "bob@example.com" "") None in
  let raw := Js.toHex (randomBytes Sample.zeros 32) in
  let reqR := Sample.request None None raw ""
                (Sample.new_password None "new password 3" "new password 3")
                None in
  let db1 := snd (forgotPassword Sample.cfg (fun _ => true) Sample.zeros
                    1700000100000 req Sample.db) in
  unique_ids Sample.db = true
  /\ find (has_email (Body.email (body req))) Sample.db = Some Sample.bob
  /\ (forall v, In v Sample.db -> holds_reset (sha256_hex raw) v = true ->
        v = Sample.bob)
  /\ fst (resetPassword Sample.cfg "s4" 1700000700000 reqR db1)
     = Respond {| status := 400; cookie := None;
                  json := Fail (Text "Token is invalid or has expired") |}
  /\ (exists r, fst (resetPassword Sample.cfg "s4" 1700000699999 reqR db1)
                = Respond r /\ status r = 200).
Proof.
  cbv zeta.
  assert (Hsole : forall v, In v Sample.db ->
            holds_reset
              (@sha256_hex Sample.platform
                 (Js.toHex (randomBytes Sample.zeros 32))) v = true ->
            v = Sample.bob).
  { intros v [<-|[<-|[]]] H; [vm_compute in H; discriminate | reflexivity]. }
  split; [reflexivity|]. split; [reflexivity|]. split; [exact Hsole|].
  split.
  - apply (proj2 (reset_token_lives_ten_minutes (P := Sample.platform)
                    Sample.cfg (fun _ => true) Sample.zeros "s4"
                    1700000100000 1700000700000
                    (Sample.request None None "" ""
                       (Sample.credentials "bob@example.com" "") None)
                    (Sample.request None None
                       (Js.toHex (randomBytes Sample.zeros 32)) ""
                       (Sample.new_password None "new password 3"
                          "new password 3") None)
                    Sample.db Sample.bob eq_refl eq_refl (fun _ => eq_refl)
                    Hsole eq_refl)).
    lia.
  - eexists. split; reflexivity.
Defined.

(** X5.  A second delivered forgot-password request for the same email
    replaces the first token: when the two digests differ and no other
    record holds the first one, [resetPassword] with the first raw token
    answers "Token is invalid or has expired" at any time and changes
    nothing. *)
Theorem newer_reset_token_replaces_older {P : Platform} cfg deliver draw1
  draw2 now1 now2 req db u :
  unique_ids db = true ->
  find (has_email (Body.email (body req))) db = Some u ->
  (forall m, deliver m = true) ->
  sha256_hex (Js.toHex (randomBytes draw1 32))
  <> sha256_hex (Js.toHex (randomBytes draw2 32)) ->
  (forall v, In v db ->
     holds_reset (sha256_hex (Js.toHex (randomBytes draw1 32))) v = true ->
     v = u) ->
  forall salt now3 reqR,
    params_token reqR = Js.toHex (randomBytes draw1 32) ->
    let db1 := snd (forgotPassword cfg deliver draw1 now1 req db) in
    let db2 := snd (forgotPassword cfg deliver draw2 now2 req db1) in
    resetPassword cfg salt now3 reqR db2
    = (Respond {| status := 400; cookie := None;
                  json := Fail (Text "Token is invalid or has expired") |},
       db2).
Proof.
  intros Huniq Hfind Hdel Hdiff Hsole salt now3 reqR Htok. cbv zeta.
  pose proof (find_some _ _ Hfind) as [Hin Hmail].
  pose proof (find_by_own_id db u Huniq Hin) as Hown.
  destruct (forgotPassword_store cfg deliver draw1 now1 req db u Hfind Hown)
    as (w1 & Hdb1 & _ & Hw1).
  specialize (Hw1 Hdel). rewrite Hdb1. rewrite issued_record in Hw1.
  assert (Hid1 : _id w1 = _id u) by (rewrite Hw1; reflexivity).
  assert (Hfind1 : find (has_email (Body.email (body req)))
                     (updateOne (_id u) (fun _ => w1) db) = Some w1).
  { apply (find_updateOne_in_place _ (fun _ => w1) db u Huniq Hfind).
    rewrite Hw1. exact Hmail. }
  assert (Hown1 : find (has_id (_id w1)) (updateOne (_id u) (fun _ => w1) db)
                  = Some w1).
  { rewrite Hid1. apply (find_updateOne (_id u) (fun _ => w1) db u Hown).
    apply has_id_true. exact Hid1. }
  destruct (forgotPassword_store cfg deliver draw2 now2 req _ w1 Hfind1 Hown1)
    as (w2 & Hdb2 & _ & Hw2).
  specialize (Hw2 Hdel). rewrite Hdb2. rewrite issued_record in Hw2.
  rewrite Hid1.
  rewrite updateOne_twice by (apply has_id_true; exact Hid1).
  unfold resetPassword, findOne_reset. cbv zeta. rewrite Htok.
  rewrite find_all_false; [reflexivity|].
  intros v Hv. apply has_live_reset_holds.
  destruct (updateOne_members _ _ _ _ _ Huniq Hown Hv) as [->|[Hvin Hne]].
  - rewrite Hw2. unfold holds_reset. simpl.
    apply String.eqb_neq. intro Heq. apply Hdiff. symmetry. exact Heq.
  - destruct (holds_reset _ v) eqn:Hh; [|reflexivity].
    exfalso. apply Hne. now apply Hsole.
Qed.

Lemma newer_reset_token_replaces_older_witness :
  let P := Sample.platform in
  let req := Sample.request None None "" ""
               (Sample.credentials "bob@example.com" "") None in
  let ones : nat -> byte := fun _ => x01 in
  let raw1 := Js.toHex (randomBytes Sample.zeros 32) in
  let reqR := Sample.request None None raw1 ""
                (Sample.new_password None "new password 3" "new password 3")
                None in
  let db1 := snd (forgotPassword Sample.cfg (fun _ => true) Sample.zeros
                    1700000100000 req Sample.db) in
  let db2 := snd (forgotPassword Sample.cfg (fun _ => true) ones
                    1700000160000 req db1) in
  unique_ids Sample.db = true
  /\ find (has_email (Body.email (body req))) Sample.db = Some Sample.bob
  /\ sha256_hex raw1 <> sha256_hex (Js.toHex (randomBytes ones 32))
  /\ resetPassword Sample.cfg "s4" 1700000200000 reqR db2
     = (Respond {| status := 400; cookie := None;
                   json := Fail (Text "Token is invalid or has expired") |},
        db2).
Proof.
  cbv zeta.
  assert (Hdiff : @sha256_hex Sample.platform
                    (Js.toHex (randomBytes Sample.zeros 32))
                  <> @sha256_hex Sample.platform
                       (Js.toHex (randomBytes (fun _ => x01) 32))).
  { vm_compute. discriminate. }
  assert (Hsole : forall v, In v Sample.db ->
            holds_reset
              (@sha256_hex Sample.platform
                 (Js.toHex (randomBytes Sample.zeros 32))) v = true ->
            v = Sample.bob).
  { intros v [<-|[<-|[]]] H; [vm_compute in H; discriminate | reflexivity]. }
  split; [reflexivity|]. split; [reflexivity|]. split; [exact Hdiff|].
  apply (newer_reset_token_replaces_older (P := Sample.platform) Sample.cfg
           (fun _ => true) Sample.zeros (fun _ => x01) 1700000100000
           1700000160000
           (Sample.request None None "" ""
              (Sample.credentials "bob@example.com" "") None)
           Sample.db Sample.bob eq_refl eq_refl (fun _ => eq_refl) Hdiff Hsole
           "s4" 1700000200000
           (Sample.request None None
              (Js.toHex (randomBytes Sample.zeros 32)) ""
              (Sample.new_password None "new password 3" "new password 3")
              None)
           eq_refl).
Defined.

(** ** What [save] keeps *)

Section SaveFacts.

Context {P : Platform}.

Lemma first_failure_all path checks :
  first_failure path checks = [] -> forallb fst checks = true.
Proof.
  unfold first_failure. induction checks as [|[b m] rest IH]; simpl;
    [reflexivity|].
  destruct b; simpl; [exact IH | discriminate].
Qed.

(** A document that passes validation with its password path validated has
    a password of eight characters or more and the same confirmation, and a
    role of the enumeration if it has one. *)
Lemma validate_ok d :
  validate d = Ok tt ->
  (passwordSelected d || passwordModified d = true ->
   exists plain,
     password (fields d) = Some plain
     /\ passwordConfirm (fields d) = Some plain
     /\ (8 <= String.length plain)%nat)
  /\ (forall r, role (fields d) = Some r -> In r role_values).
Proof.
  intro Hv. pose proof (validate_errors _ Hv) as He.
  unfold validationErrors in He. cbv zeta in He.
  apply app_eq_nil in He. destruct He as [_ He].
  apply app_eq_nil in He. destruct He as [_ He].
  apply app_eq_nil in He. destruct He as [Hpw He].
  apply app_eq_nil in He. destruct He as [Hpc He].
  apply app_eq_nil in He. destruct He as [Hrole _].
  split.
  - intro Hsel. rewrite Hsel in Hpw.
    apply first_failure_all in Hpw. apply first_failure_all in Hpc.
    simpl in Hpw, Hpc.
    destruct (password (fields d)) as [plain|]; [|discriminate].
    destruct (passwordConfirm (fields d)) as [conf|]; [|discriminate].
    exists plain. split; [reflexivity|].
    repeat rewrite andb_true_iff in *.
    destruct Hpw as (_ & Hlen & _). destruct Hpc as (_ & _ & Heq & _).
    simpl in Heq. apply String.eqb_eq in Heq. subst conf.
    split; [reflexivity|]. simpl in Hlen. now apply Nat.leb_le.
  - intros r Hr. apply first_failure_all in Hrole. rewrite Hr in Hrole.
    unfold forallb in Hrole. cbn [fst] in Hrole. rewrite andb_true_r in Hrole.
    apply existsb_exists in Hrole. destruct Hrole as (x & Hin & Hx).
    apply String.eqb_eq in Hx. now subst x.
Qed.

(** [save] leaves the profile and the reset fields of the document as they
    are and writes the document it was given, hashed and stamped. *)
Lemma save_inv v salt now d db d' db' :
  save v salt now d db = Ok (d', db') ->
  (v = true -> validate d = Ok tt)
  /\ exists d2,
       db' = persist d2 db
       /\ fields d' = fields d2
       /\ isNew d2 = isNew d
       /\ passwordModified d2 = passwordModified d
       /\ profile_of (fields d2) = profile_of (fields d)
       /\ passwordResetToken (fields d2) = passwordResetToken (fields d)
       /\ passwordResetExpires (fields d2) = passwordResetExpires (fields d)
       /\ (passwordModified d = false -> fields d2 = fields d)
       /\ (passwordModified d = true ->
           exists plain,
             password (fields d) = Some plain
             /\ password (fields d2) = Some (bcrypt_hash salt plain 12)
             /\ passwordConfirm (fields d2) = None).
Proof.
  intro H.
  destruct (save_ok _ _ _ _ _ _ _ H) as (Hval & d1 & Hh & _ & -> & ->).
  split; [exact Hval|]. clear H Hval. unfold hashPassword in Hh.
  destruct (passwordModified d) eqn:Hmod; simpl in Hh.
  - destruct (password (fields d)) as [plain|] eqn:Hpw; [|discriminate].
    inversion Hh. eexists. split; [reflexivity|].
    unfold stampPasswordChange. simpl. rewrite Hmod. simpl.
    destruct (isNew d) eqn:Hn; simpl; repeat split; try discriminate;
      try assumption; intros _; exists plain; repeat split.
  - injection Hh as <-. eexists. split; [reflexivity|].
    unfold stampPasswordChange. rewrite Hmod. simpl.
    repeat split; try discriminate; try reflexivity; try assumption.
Qed.

Lemma profile_of_written d stored :
  _id stored = _id (fields d) ->
  profile_of (written d stored) = profile_of (fields d).
Proof. intros _. unfold written. destruct (passwordModified d); reflexivity. Qed.

Lemma paired_written d stored :
  paired_reset (written d stored) = paired_reset (fields d).
Proof. unfold written. destruct (passwordModified d); reflexivity. Qed.

Lemma paired_of_fields u v :
  passwordResetToken u = passwordResetToken v ->
  passwordResetExpires u = passwordResetExpires v ->
  paired_reset u = paired_reset v.
Proof. unfold paired_reset. now intros -> ->. Qed.

(** Saving a document whose reset fields are paired keeps every record of
    the store paired. *)
Lemma save_paired v salt now d db d' db' :
  save v salt now d db = Ok (d', db') ->
  forallb paired_reset db = true ->
  paired_reset (fields d) = true ->
  forallb paired_reset db' = true /\ paired_reset (fields d') = true.
Proof.
  intros Hs Hdb Hd. apply save_inv in Hs.
  destruct Hs as (_ & d2 & -> & Hf & _ & _ & _ & Ht & He & _).
  assert (Hp2 : paired_reset (fields d2) = true)
    by (now rewrite (paired_of_fields _ _ Ht He)).
  split; [|now rewrite Hf].
  unfold persist. destruct (isNew d2).
  - rewrite forallb_app. simpl. now rewrite Hdb, Hp2.
  - apply forallb_updateOne; [assumption|].
    intros x _. now rewrite paired_written.
Qed.

(** Saving a stored document keeps the profiles of the store. *)
Lemma save_profiles v salt now d db d' db' u :
  save v salt now d db = Ok (d', db') ->
  isNew d = false ->
  find (has_id (_id (fields d))) db = Some u ->
  profile_of (fields d) = profile_of u ->
  map profile_of db' = map profile_of db.
Proof.
  intros Hs Hnew Hu Hprof. apply save_inv in Hs.
  destruct Hs as (_ & d2 & -> & _ & Hn2 & _ & Hp2 & _).
  unfold persist. rewrite Hn2, Hnew.
  assert (Hid : _id (fields d2) = _id (fields d)).
  { unfold profile_of in Hp2. now inversion Hp2. }
  rewrite Hid.
  apply (map_updateOne_first profile_of _ _ db u Hu).
  rewrite profile_of_written.
  - now rewrite Hp2.
  - apply find_some in Hu. destruct Hu as [_ Hu]. apply has_id_true in Hu.
    congruence.
Qed.

End SaveFacts.

(** ** Frames and invariants of the handlers *)

Lemma forgotPassword_frame {P : Platform} cfg deliver draw now req db :
  unique_ids db = true ->
  map clear_reset (snd (forgotPassword cfg deliver draw now req db))
  = map clear_reset db.
Proof.
  intro Huniq.
  destruct (find (has_email (Body.email (body req))) db) as [u|] eqn:Hfind.
  - pose proof (find_some _ _ Hfind) as [Hin _].
    pose proof (find_by_own_id db u Huniq Hin) as Hown.
    destruct (forgotPassword_store cfg deliver draw now req db u Hfind Hown)
      as (w & -> & Hw & _).
    apply (map_updateOne_first clear_reset _ _ db u Hown).
    destruct Hw as [->| ->]; reflexivity.
  - unfold forgotPassword, findOne_email. now rewrite Hfind.
Qed.

Lemma nth_error_updateOne id f db i v :
  nth_error db i = Some v ->
  has_id id v = false ->
  nth_error (updateOne id f db) i = Some v.
Proof.
  revert i. induction db as [|x rest IH]; intros [|i]; simpl;
    try discriminate.
  - intros H Hv. inversion H; subst x. now rewrite Hv.
  - intros H Hv. destruct (has_id id x); simpl; [assumption|].
    now apply IH.
Qed.

(** X6.  On a store with unique ids a forgot-password request writes to
    no declared path but the two reset fields of the record it found by
    email: every record keeps its id, username, email, password,
    confirmation, role, phone number, location and [passwordChangedAt], in
    the same order, whatever the outcome of the delivery; every record with
    another id stays as it was; and when no record has the email the store
    stays as it was. *)
Theorem forgotPassword_keeps_other_paths {P : Platform} cfg deliver draw now
  req db :
  unique_ids db = true ->
  map other_paths (snd (forgotPassword cfg deliver draw now req db))
  = map other_paths db
  /\ (forall u i v,
         find (has_email (Body.email (body req))) db = Some u ->
         nth_error db i = Some v ->
         _id v <> _id u ->
         nth_error (snd (forgotPassword cfg deliver draw now req db)) i
         = Some v)
  /\ (find (has_email (Body.email (body req))) db = None ->
      snd (forgotPassword cfg deliver draw now req db) = db).
Proof.
  intro Huniq. split; [|split].
  - pose proof (forgotPassword_frame cfg deliver draw now req db Huniq) as H.
    apply (f_equal (map other_paths)) in H. rewrite !map_map in H.
    exact H.
  - intros u i v Hfind Hi Hne.
    pose proof (find_some _ _ Hfind) as [Hin _].
    pose proof (find_by_own_id db u Huniq Hin) as Hown.
    destruct (forgotPassword_store cfg deliver draw now req db u Hfind Hown)
      as (w & -> & _).
    apply nth_error_updateOne; [assumption|].
    destruct (has_id (_id u) v) eqn:Hv; [|reflexivity].
    apply has_id_true in Hv. contradiction.
  - intro Hnone. unfold forgotPassword, findOne_email. now rewrite Hnone.
Qed.

Lemma forgotPassword_keeps_other_paths_witness :
  let P := Sample.platform in
  let req := Sample.request None None "" ""
               (Sample.credentials "bob@example.com" "") None in
  let db' := snd (forgotPassword Sample.cfg (fun _ => true) Sample.zeros
                    1700000100000 req Sample.db) in
  unique_ids Sample.db = true
  /\ find (has_email (Body.email (body req))) Sample.db = Some Sample.bob
  /\ map other_paths db' = map other_paths Sample.db
  /\ nth_error db' 0 = Some Sample.ada
  /\ db' <> Sample.db.
Proof.
  cbv zeta. split; [reflexivity|]. split; [reflexivity|].
  destruct (forgotPassword_keeps_other_paths (P := Sample.platform)
              Sample.cfg (fun _ => true) Sample.zeros 1700000100000
              (Sample.request None None "" ""
                 (Sample.credentials "bob@example.com" "") None)
              Sample.db eq_refl)
    as (Hkeep & Hother & _).
  split; [exact Hkeep|]. split.
  - apply (Hother Sample.bob 0%nat Sample.ada); [reflexivity | reflexivity|].
    discriminate.
  - vm_compute. discriminate.
Defined.

Section Invariants.

Context {P : Platform}.

Lemma paired_in db u :
  forallb paired_reset db = true -> In u db -> paired_reset u = true.
Proof. intros H Hin. rewrite forallb_forall in H. now apply H. Qed.

Lemma paired_assignments p c d :
  paired_reset (fields (set_passwordConfirm c (set_password p d)))
  = paired_reset (fields d).
Proof.
  unfold set_passwordConfirm, set_password.
  destruct (Js.uncastable p), (Js.uncastable c); reflexivity.
Qed.

Lemma forgotPassword_paired cfg deliver draw now req db :
  forallb paired_reset db = true ->
  forallb paired_reset (snd (forgotPassword cfg deliver draw now req db)) = true.
Proof.
  intro Hdb. unfold forgotPassword, findOne_email.
  destruct (find (has_email (Body.email (body req))) db) as [u|];
    [|assumption].
  simpl option_map. cbv iota beta.
  destruct (createPasswordResetToken draw now (fields (hydrate false u)))
    as [raw u1] eqn:Hc.
  assert (Hu1 : paired_reset u1 = true).
  { unfold createPasswordResetToken in Hc. inversion Hc. reflexivity. }
  match goal with
  | |- context [save false "" now ?d db] =>
      destruct (save false "" now d db) as [[doc db1]|e] eqn:Hs1
  end; [|assumption].
  destruct (save_paired _ _ _ _ _ _ _ Hs1 Hdb Hu1) as [Hdb1 Hdoc].
  destruct (deliver _); [assumption|].
  match goal with
  | |- context [save false "" now ?d db1] =>
      destruct (save false "" now d db1) as [[doc2 db2]|e] eqn:Hs2
  end; [|assumption].
  simpl.
  now destruct (save_paired _ _ _ _ _ _ _ Hs2 Hdb1 eq_refl).
Qed.

Lemma resetPassword_paired cfg salt now req db :
  forallb paired_reset db = true ->
  forallb paired_reset (snd (resetPassword cfg salt now req db)) = true.
Proof.
  intro Hdb. unfold resetPassword, findOne_reset. cbv zeta.
  destruct (find _ db) as [u|]; [|assumption]. simpl option_map. cbv iota beta.
  match goal with
  | |- context [save true salt now ?d db] =>
      destruct (save true salt now d db) as [[doc db1]|e] eqn:Hs
  end; [|assumption].
  simpl. now destruct (save_paired _ _ _ _ _ _ _ Hs Hdb eq_refl).
Qed.

Lemma updatePassword_paired cfg salt now req db :
  forallb paired_reset db = true ->
  forallb paired_reset (snd (updatePassword cfg salt now req db)) = true.
Proof.
  intro Hdb. unfold updatePassword, findById.
  destruct (user req) as [me|]; [|assumption].
  destruct (find (has_id (_id me)) db) as [u|] eqn:Hu; [|assumption].
  simpl option_map. cbv iota beta.
  destruct (correctPassword _ _) as [[|]|e]; try assumption.
  match goal with
  | |- context [save true salt now ?d db] =>
      destruct (save true salt now d db) as [[doc db1]|e] eqn:Hs
  end; [|assumption].
  simpl.
  assert (Hpu : paired_reset u = true).
  { apply (paired_in db); [assumption|]. now apply find_some in Hu. }
  assert (Hpd : paired_reset
                  (fields (set_passwordConfirm
                             (Body.passwordConfirm (body req))
                             (set_password (Body.password (body req))
                                (hydrate true u)))) = true)
    by (rewrite paired_assignments; exact Hpu).
  now destruct (save_paired _ _ _ _ _ _ _ Hs Hdb Hpd).
Qed.

(** The store after a signup: the one before it, or that one with a record
    appended that has the reset fields of the body. *)
Lemma signupUser_appends cfg salt newId now req db :
  snd (signupUser cfg salt newId now req db) = db
  \/ exists u,
       snd (signupUser cfg salt newId now req db) = (db ++ [u])%list
       /\ passwordResetToken u = Body.passwordResetToken (body req)
       /\ passwordResetExpires u = Body.passwordResetExpires (body req).
Proof.
  unfold signupUser. cbv zeta.
  destruct (negb _); [now left|].
  destruct (findOne_email _ _ _); [now left|].
  destruct (save true salt now (new_document newId (body req)) db)
    as [[doc db1]|e] eqn:Hs; [|now left].
  right. apply save_inv in Hs.
  destruct Hs as (_ & d2 & -> & _ & Hnew & _ & _ & Ht & He & _).
  unfold persist. rewrite Hnew. simpl. exists (fields d2).
  split; [reflexivity|]. split; assumption.
Qed.

End Invariants.

(** X7.  The handlers themselves set and clear the reset fields together:
    if every record of the store has [passwordResetToken] and
    [passwordResetExpires] both set or both unset, the same holds after
    [forgotPassword], [resetPassword] and [updatePassword], whatever they
    answer.  [signupUser] takes the two fields from the body: it keeps the
    property exactly when it stores nothing or the body names both fields
    or neither. *)
Theorem reset_fields_stay_paired {P : Platform} cfg db :
  forallb paired_reset db = true ->
  (forall deliver draw now req,
      forallb paired_reset
        (snd (forgotPassword cfg deliver draw now req db)) = true)
  /\ (forall salt now req,
         forallb paired_reset (snd (resetPassword cfg salt now req db)) = true)
  /\ (forall salt now req,
         forallb paired_reset (snd (updatePassword cfg salt now req db)) = true)
  /\ (forall salt newId now req,
         forallb paired_reset (snd (signupUser cfg salt newId now req db))
         = true
         <-> (snd (signupUser cfg salt newId now req db) = db
              \/ paired_body (body req) = true)).
Proof.
  intro Hdb. split; [|split; [|split]]; intros.
  - now apply forgotPassword_paired.
  - now apply resetPassword_paired.
  - now apply updatePassword_paired.
  - destruct (signupUser_appends cfg salt newId now req db)
      as [Hsame|(u & Happ & Ht & He)].
    + rewrite Hsame. split; [now left | intros _; exact Hdb].
    + rewrite Happ, forallb_app. simpl. rewrite Hdb, andb_true_r. simpl.
      assert (Hu : paired_reset u = paired_body (body req)).
      { unfold paired_reset, paired_body. now rewrite Ht, He. }
      rewrite Hu. split.
      * intro H. now right.
      * intros [Hsame|H]; [|exact H].
        exfalso. apply (f_equal (@List.length User)) in Hsame.
        rewrite length_app in Hsame. simpl in Hsame. lia.
Qed.

Lemma reset_fields_stay_paired_witness :
  let P := Sample.platform in
  let req := Sample.request None None "" ""
               (Sample.credentials "bob@example.com" "") None in
  forallb paired_reset Sample.db = true
  /\ forallb paired_reset
       (snd (forgotPassword Sample.cfg (fun _ => false) Sample.zeros
               1700000100000 req Sample.db)) = true.
Proof.
  cbv zeta. split; [reflexivity|].
  apply (proj1 (reset_fields_stay_paired (P := Sample.platform)
                  Sample.cfg Sample.db eq_refl)).
Defined.

(** A signup whose body names a reset token and no expiry is answered 201
    and stores the token without an expiry. *)
Example signupUser_stores_unpaired_reset :
  let b := {| Body.email := Some "eve@example.com";
              Body.password := Some (Js.Str "open sesame");
              Body.passwordConfirm := Some (Js.Str "open sesame");
              Body.passwordCurrent := None;
              Body.username := Some "eve"; Body.role := None;
              Body.phoneNumber := Some "07111111111";
              Body.location := Sample.home;
              Body._id := None; Body.passwordChangedAt := None;
              Body.passwordResetToken := Some "sha256:abc123";
              Body.passwordResetExpires := None |} in
  let out := signupUser (P := Sample.platform) Sample.cfg "s5" "u5"
               1700000100000 (Sample.request None None "" "" b None)
               Sample.db in
  (exists r, fst out = Respond r /\ status r = 201)
  /\ forallb paired_reset (snd out) = false.
Proof. cbv zeta. split; [eexists; split; reflexivity | reflexivity]. Qed.

(** X8.  No answer carries a password: the user in every session answer of
    [signupUser], [login], [resetPassword] and [updatePassword], and the
    user in every answer of [getMe] and [updateMe], has no [password]
    field. *)
Theorem answers_never_carry_the_password {P : Platform} {L : LocationUpdate}
  cfg db :
  (forall salt newId now req r db' token v,
      signupUser cfg salt newId now req db = (Respond r, db') ->
      json r = Session token v -> password v = None)
  /\ (forall now req r token v,
         login cfg now req db = Respond r ->
         json r = Session token v -> password v = None)
  /\ (forall salt now req r db' token v,
         resetPassword cfg salt now req db = (Respond r, db') ->
         json r = Session token v -> password v = None)
  /\ (forall salt now req r db' token v,
         updatePassword cfg salt now req db = (Respond r, db') ->
         json r = Session token v -> password v = None)
  /\ (forall req v,
         reply_json (getMe req db) = InfoUser v -> password v = None)
  /\ (forall req m v,
         reply_json (fst (updateMe req db)) = InfoUpdated m v ->
         password v = None).
Proof.
  repeat split.
  - intros salt newId now req r db' token v. unfold signupUser. cbv zeta.
    destruct (negb _); [intros H Hj; inversion H; subst r; discriminate|].
    destruct (findOne_email _ _ _);
      [intros H Hj; inversion H; subst r; discriminate|].
    destruct (save _ _ _ _ _) as [[doc db1]|e];
      intros H Hj; inversion H; subst r; [|discriminate].
    simpl in Hj. inversion Hj. reflexivity.
  - intros now req r token v. unfold login. cbv zeta.
    destruct (_ || _); [intros H Hj; inversion H; subst r; discriminate|].
    destruct (findOne_email _ _ _);
      [|intros H Hj; inversion H; subst r; discriminate].
    destruct (correctPassword _ _) as [[|]|e];
      intros H Hj; inversion H; subst r; [|discriminate].
    simpl in Hj. inversion Hj. reflexivity.
  - intros salt now req r db' token v Hrun Hj.
    destruct (resetPassword_success _ _ _ _ _ _ _ _ _ Hrun Hj)
      as (u & plain & _ & _ & _ & -> & _).
    reflexivity.
  - intros salt now req r db' token v. unfold updatePassword.
    destruct (user req); [|intros H Hj; inversion H; subst r; discriminate].
    destruct (findById _ _ _);
      [|intros H Hj; inversion H; subst r; discriminate].
    destruct (correctPassword _ _) as [[|]|e];
      try (intros H Hj; inversion H; subst r; discriminate).
    destruct (save _ _ _ _ _) as [[doc db1]|e];
      intros H Hj; inversion H; subst r; [|discriminate].
    simpl in Hj. inversion Hj. reflexivity.
  - intros req v. unfold getMe, findById.
    destruct (user req); [|discriminate].
    destruct (find _ db); simpl; [|discriminate].
    intro H. inversion H. reflexivity.
  - intros req m v. unfold updateMe. cbv zeta.
    destruct (_ || _); [discriminate|].
    destruct (user req); [|discriminate].
    destruct (updateErrors _); [|discriminate].
    destruct (find _ db); simpl; [|discriminate].
    intro H. inversion H. reflexivity.
Qed.

Lemma answers_never_carry_the_password_witness :
  let P := Sample.platform in
  let L := Issuer.replace_location in
  let req := Sample.request None None "" ""
               (Sample.credentials "ada@example.com" "correct horse") None in
  exists r token v,
    login Sample.cfg 1700000100000 req Sample.db = Respond r
    /\ json r = Session token v
    /\ password v = None.
Proof.
  cbv zeta. do 3 eexists. split; [reflexivity|]. split; [reflexivity|].
  apply (proj1 (proj2 (answers_never_carry_the_password
                         (P := Sample.platform) (L := Issuer.replace_location)
                         Sample.cfg Sample.db))
           1700000100000
           (Sample.request None None "" ""
              (Sample.credentials "ada@example.com" "correct horse") None)
           _ _ _ eq_refl eq_refl).
Defined.

(** ** Signup *)

Section SignupFacts.

Context {P : Platform}.

Lemma strict_eq_sym a b : Js.strict_eq a b = Js.strict_eq b a.
Proof.
  destruct a as [x|], b as [y|]; simpl; try reflexivity.
  apply String.eqb_sym.
Qed.

Lemma unique_emails_snoc db x :
  unique_emails db = true ->
  (forall u, In u db -> Js.strict_eq (email u) (email x) = false) ->
  unique_emails (db ++ [x]) = true.
Proof.
  induction db as [|u rest IH]; simpl; [reflexivity|].
  rewrite !andb_true_iff, !negb_true_iff. intros [Hu Hrest] Hx. split.
  - rewrite existsb_app. rewrite Hu. simpl.
    rewrite strict_eq_sym. rewrite (Hx u (or_introl eq_refl)). reflexivity.
  - apply IH; [assumption|]. intros v Hv. apply Hx. now right.
Qed.

(** The store a signup leaves: the one it found, or that one with a
    record appended whose email is the lower-cased email of the body, which
    no record had. *)
Lemma signupUser_store cfg salt newId now req db :
  snd (signupUser cfg salt newId now req db) = db
  \/ exists doc u,
       save true salt now (new_document newId (body req)) db
       = Ok (doc, (db ++ [u])%list)
       /\ fst (signupUser cfg salt newId now req db)
          = Respond (createSendToken cfg now (fields doc) 201)
       /\ snd (signupUser cfg salt newId now req db) = (db ++ [u])%list
       /\ fields doc = u
       /\ profile_of u = profile_of (fields (new_document newId (body req)))
       /\ find (has_email (Body.email (body req))) db = None.
Proof.
  unfold signupUser, findOne_email. cbv zeta.
  destruct (negb _); [now left|].
  destruct (find (has_email (Body.email (body req))) db) eqn:Hf;
    [now left|].
  simpl option_map. cbv iota.
  destruct (save true salt now (new_document newId (body req)) db)
    as [[doc db1]|e] eqn:Hs; [|now left].
  right. pose proof Hs as Hs'. apply save_inv in Hs'.
  destruct Hs' as (_ & d2 & Hdb & Hfields & Hnew & _ & Hprof & _).
  unfold persist in Hdb. rewrite Hnew in Hdb. simpl in Hdb.
  exists doc, (fields d2). subst db1. simpl.
  repeat split; try assumption; reflexivity.
Qed.

Lemma signupUser_validated cfg salt newId now req db r db' :
  signupUser cfg salt newId now req db = (Respond r, db') ->
  status r = 201 ->
  validate (new_document newId (body req)) = Ok tt.
Proof.
  unfold signupUser. cbv zeta.
  destruct (negb _); [intros H Hs; inversion H; subst r; discriminate|].
  destruct (findOne_email _ _ _);
    [intros H Hs; inversion H; subst r; discriminate|].
  destruct (save true salt now (new_document newId (body req)) db)
    as [[doc db1]|e] eqn:Hsave;
    [|intros H Hs; inversion H; subst r; discriminate].
  intros _ _. apply save_inv in Hsave. destruct Hsave as [Hval _].
  now apply Hval.
Qed.

(** The id of a record that a 201 signup appended was free. *)
Lemma signupUser_fresh_id cfg salt newId now req db r db' :
  signupUser cfg salt newId now req db = (Respond r, db') ->
  status r = 201 ->
  existsb (has_id (_id (fields (new_document newId (body req))))) db = false.
Proof.
  unfold signupUser. cbv zeta.
  destruct (negb _); [intros H Hs; inversion H; subst r; discriminate|].
  destruct (findOne_email _ _ _);
    [intros H Hs; inversion H; subst r; discriminate|].
  destruct (save true salt now (new_document newId (body req)) db)
    as [[doc db1]|e] eqn:Hsave;
    [|intros H Hs; inversion H; subst r; discriminate].
  intros _ _. apply save_ok in Hsave.
  destruct Hsave as (_ & d1 & _ & Hfree & _). exact Hfree.
Qed.

End SignupFacts.

(** X9.  Signup keeps emails unique without regard to case: on a store
    whose emails are pairwise different, the store after [signupUser] has
    pairwise different emails too, and a signup whose lower-cased email is
    already stored is answered 400 "User with this email already exists"
    and changes nothing. *)
Theorem signupUser_keeps_emails_unique {P : Platform} cfg salt newId now req
  db :
  unique_emails db = true ->
  unique_emails (snd (signupUser cfg salt newId now req db)) = true
  /\ (forall u e,
         In u db -> Body.email (body req) = Some e -> e <> "" ->
         email u = Some (Js.toLowerCase e) ->
         signupUser cfg salt newId now req db
         = (Respond {| status := 400; cookie := None;
                       json := Fail (Text "User with this email already exists") |},
            db)).
Proof.
  intro Huniq. split.
  - destruct (signupUser_store cfg salt newId now req db)
      as [->|(doc & u & _ & _ & -> & _ & Hprof & Hnone)]; [assumption|].
    apply unique_emails_snoc; [assumption|].
    intros v Hv. pose proof (find_none _ _ Hnone v Hv) as Hne.
    unfold has_email in Hne.
    assert (He : email u = option_map Js.toLowerCase (Body.email (body req))).
    { unfold profile_of in Hprof. inversion Hprof. reflexivity. }
    now rewrite He.
  - intros u e Hin He Hne Hu. unfold signupUser, findOne_email. cbv zeta.
    rewrite He. destruct e as [|a e']; [congruence|]. simpl negb. cbv iota.
    destruct (find (has_email (Some (String a e'))) db) eqn:Hf; [reflexivity|].
    exfalso. pose proof (find_none _ _ Hf u Hin) as Hfalse.
    unfold has_email in Hfalse. rewrite Hu in Hfalse.
    assert (Ht : Js.strict_eq (Some (Js.toLowerCase (String a e')))
                   (option_map Js.toLowerCase (Some (String a e'))) = true)
      by (apply strict_eq_true; reflexivity).
    congruence.
Qed.

Lemma signupUser_keeps_emails_unique_witness :
  let P := Sample.platform in
  let req := Sample.request None None "" ""
               (Sample.registration "ADA@Example.com" "tr0ub4dor&3") None in
  unique_emails Sample.db = true
  /\ In Sample.ada Sample.db
  /\ email Sample.ada = Some (Js.toLowerCase "ADA@Example.com")
  /\ signupUser Sample.cfg "s3" "u3" 1700000100000 req Sample.db
     = (Respond {| status := 400; cookie := None;
                   json := Fail (Text "User with this email already exists") |},
        Sample.db).
Proof.
  cbv zeta. split; [reflexivity|]. split; [simpl; tauto|].
  split; [reflexivity|].
  apply (proj2 (signupUser_keeps_emails_unique (P := Sample.platform)
                  Sample.cfg "s3" "u3" 1700000100000
                  (Sample.request None None "" ""
                     (Sample.registration "ADA@Example.com" "tr0ub4dor&3")
                     None)
                  Sample.db eq_refl)
           Sample.ada "ADA@Example.com");
    [simpl; tauto | reflexivity | discriminate | reflexivity].
Defined.

(** X10.  The record a successful signup appends takes every path from
    the body: the id the body names, else the generated one, and in both
    cases an id no stored record has; the lower-cased email; the role the
    body asked for, any role of the enumeration, "admin" included, or
    "customer" when the body names none; and [passwordChangedAt] and the
    two reset fields as the body gave them, unset when it names none. *)
Theorem signupUser_stores_requested_role {P : Platform} cfg salt newId now req
  db r db' :
  signupUser cfg salt newId now req db = (Respond r, db') ->
  status r = 201 ->
  exists u role_,
    db' = (db ++ [u])%list
    /\ _id u = match Body._id (body req) with
               | Some id => id
               | None => newId
               end
    /\ (forall v, In v db -> _id v <> _id u)
    /\ email u = option_map Js.toLowerCase (Body.email (body req))
    /\ role u = Some role_
    /\ In role_ role_values
    /\ (Body.role (body req) = Some role_
        \/ (Body.role (body req) = None /\ role_ = "customer"))
    /\ passwordChangedAt u = Body.passwordChangedAt (body req)
    /\ passwordResetToken u = Body.passwordResetToken (body req)
    /\ passwordResetExpires u = Body.passwordResetExpires (body req).
Proof.
  intros Hrun Hok.
  pose proof (signupUser_validated _ _ _ _ _ _ _ _ Hrun Hok) as Hval.
  pose proof (signupUser_fresh_id _ _ _ _ _ _ _ _ Hrun Hok) as Hfree.
  destruct (signupUser_created _ _ _ _ _ _ _ _ Hrun Hok) as (plain & _ & Hdb).
  apply validate_ok in Hval. destruct Hval as [_ Hrole].
  assert (Hfresh : forall v, In v db ->
            _id v <> _id (fields (new_document newId (body req)))).
  { intros v Hv Heq.
    assert (existsb (has_id (_id (fields (new_document newId (body req)))))
              db = true).
    { apply existsb_exists. exists v. split; [assumption|].
      now apply has_id_true. }
    congruence. }
  destruct (Body.role (body req)) as [rb|] eqn:Hb.
  - eexists. exists rb. split; [exact Hdb|].
    split; [reflexivity|]. split; [exact Hfresh|].
    split; [reflexivity|]. split; [simpl; now rewrite Hb|].
    split; [apply Hrole; simpl; now rewrite Hb|].
    split; [now left|]. repeat split.
  - eexists. exists "customer". split; [exact Hdb|].
    split; [reflexivity|]. split; [exact Hfresh|].
    split; [reflexivity|]. split; [simpl; now rewrite Hb|].
    split; [simpl; tauto|].
    split; [now right|]. repeat split.
Qed.

Lemma signupUser_stores_requested_role_witness :
  let P := Sample.platform in
  let b := {| Body.email := Some "eve@example.com";
              Body.password := Some (Js.Str "open sesame");
              Body.passwordConfirm := Some (Js.Str "open sesame");
              Body.passwordCurrent := None;
              Body.username := Some "eve"; Body.role := Some "admin";
              Body.phoneNumber := Some "07111111111";
              Body.location := Sample.home;
              Body._id := Some "u7";
              Body.passwordChangedAt := Some 1800000000000;
              Body.passwordResetToken := None;
              Body.passwordResetExpires := None |} in
  let req := Sample.request None None "" "" b None in
  let out := signupUser Sample.cfg "s5" "u5" 1700000100000 req Sample.db in
  (exists r, out = (Respond r, snd out) /\ status r = 201)
  /\ exists u, snd out = (Sample.db ++ [u])%list
               /\ role u = Some "admin" /\ _id u = "u7"
               /\ passwordChangedAt u = Some 1800000000000.
Proof.
  cbv zeta. split; [eexists; split; reflexivity|].
  destruct (signupUser_stores_requested_role (P := Sample.platform) Sample.cfg
              "s5" "u5" 1700000100000
              (Sample.request None None "" ""
                 {| Body.email := Some "eve@example.com";
                    Body.password := Some (Js.Str "open sesame");
                    Body.passwordConfirm := Some (Js.Str "open sesame");
                    Body.passwordCurrent := None;
                    Body.username := Some "eve"; Body.role := Some "admin";
                    Body.phoneNumber := Some "07111111111";
                    Body.location := Sample.home;
                    Body._id := Some "u7";
                    Body.passwordChangedAt := Some 1800000000000;
                    Body.passwordResetToken := None;
                    Body.passwordResetExpires := None |} None)
              Sample.db _ _ eq_refl eq_refl)
    as (u & role_ & Hdb & Hid & _ & _ & Hrole & _ & [Hb|[Hb _]] & Hch & _).
  - exists u. split; [exact Hdb|]. simpl in Hb. injection Hb as <-.
    split; [exact Hrole|]. split; [exact Hid | exact Hch].
  - simpl in Hb. discriminate.
Defined.

(** A signup that names a stored id is turned down by the unique index. *)
Example signupUser_taken_id :
  let b := {| Body.email := Some "eve@example.com";
              Body.password := Some (Js.Str "open sesame");
              Body.passwordConfirm := Some (Js.Str "open sesame");
              Body.passwordCurrent := None;
              Body.username := Some "eve"; Body.role := None;
              Body.phoneNumber := Some "07111111111";
              Body.location := Sample.home;
              Body._id := Some "u1"; Body.passwordChangedAt := None;
              Body.passwordResetToken := None;
              Body.passwordResetExpires := None |} in
  signupUser (P := Sample.platform) Sample.cfg "s5" "u5" 1700000100000
    (Sample.request None None "" "" b None) Sample.db
  = (Respond (fail 400 (ErrMessage DuplicateKey)), Sample.db).
Proof. reflexivity. Qed.

(** ** Validation guards every change of password *)

Section Guards.

Context {P : Platform}.

Lemma save_validated_password salt now d db d' db' :
  save true salt now d db = Ok (d', db') ->
  passwordSelected d || passwordModified d = true ->
  exists plain,
    password (fields d) = Some plain
    /\ passwordConfirm (fields d) = Some plain
    /\ (8 <= String.length plain)%nat.
Proof.
  intros Hs Hsel. apply save_inv in Hs. destruct Hs as [Hval _].
  specialize (Hval eq_refl). apply validate_ok in Hval.
  destruct Hval as [Hpw _]. now apply Hpw.
Qed.

Lemma save_never_TypeError v salt now d db :
  save v salt now d db <> Throw TypeError.
Proof.
  unfold save, validate, hashPassword.
  destruct v; [destruct (castErrors d), (validationErrors d)|]; simpl;
    try discriminate;
    destruct (negb (passwordModified d)); simpl; try discriminate;
    try (destruct (password (fields d)); simpl; try discriminate);
    destruct (_ && _); discriminate.
Qed.

Lemma protect_inv now req db v :
  protect now req db = Forward (Some v) None ->
  exists token c u,
    Js.as_truthy (bearer_token req) = Some token
    /\ jwt_verify token now = Some c
    /\ find (has_id (jwt_id c)) db = Some u
    /\ changedPasswordAfter u (jwt_iat c) = false
    /\ v = with_password None u.
Proof.
  unfold protect, findById.
  destruct (Js.as_truthy (bearer_token req)) as [token|]; [|discriminate].
  destruct (jwt_verify token now) as [c|] eqn:Hv; [|discriminate].
  destruct (find (has_id (jwt_id c)) db) as [u|] eqn:Hu; simpl;
    [|discriminate].
  destruct (changedPasswordAfter (with_password None u) (jwt_iat c)) eqn:Hc;
    [discriminate|].
  intro H. inversion H. exists token, c, u. repeat split; assumption.
Qed.

Lemma protect_outcomes now req db :
  (exists v, protect now req db = Forward (Some v) None)
  \/ exists m, protect now req db = Respond (fail 401 (Text m)).
Proof.
  unfold protect.
  destruct (Js.as_truthy _); [|right; eexists; reflexivity].
  destruct (jwt_verify _ _); [|right; eexists; reflexivity].
  destruct (findById _ _ _); [|right; eexists; reflexivity].
  destruct (changedPasswordAfter _ _);
    [right; eexists; reflexivity | left; eexists; reflexivity].
Qed.

End Guards.

(** X11.  No password is stored without validation: whenever
    [signupUser], [resetPassword] or [updatePassword] changes the store,
    the body carried a password that casts to a string of at least eight
    characters and a confirmation that casts to the same string. *)
Theorem password_writes_are_validated {P : Platform} cfg db :
  (forall salt newId now req,
      snd (signupUser cfg salt newId now req db) <> db ->
      confirmed_password (body req))
  /\ (forall salt now req,
         snd (resetPassword cfg salt now req db) <> db ->
         confirmed_password (body req))
  /\ (forall salt now req,
         snd (updatePassword cfg salt now req db) <> db ->
         confirmed_password (body req)).
Proof.
  repeat split.
  - intros salt newId now req. unfold signupUser. cbv zeta.
    destruct (negb _); [simpl; congruence|].
    destruct (findOne_email _ _ _); [simpl; congruence|].
    destruct (save true salt now (new_document newId (body req)) db)
      as [[doc db1]|e] eqn:Hs; [|simpl; congruence].
    intros _. exact (save_validated_password _ _ _ _ _ _ Hs eq_refl).
  - intros salt now req. unfold resetPassword, findOne_reset. cbv zeta.
    destruct (find _ db) as [u|]; [|simpl; congruence].
    simpl option_map. cbv iota beta.
    match goal with
    | |- context [save true salt now ?d db] =>
        destruct (save true salt now d db) as [[doc db1]|e] eqn:Hs
    end; [|simpl; congruence].
    intros _. pose proof (save_needs_casts _ _ _ _ _ Hs) as Hce.
    cbn [castErrors map_fields] in Hce.
    rewrite (assignments_cast _ _ _ Hce eq_refl) in Hs.
    exact (save_validated_password _ _ _ _ _ _ Hs eq_refl).
  - intros salt now req. unfold updatePassword, findById.
    destruct (user req) as [me|]; [|simpl; congruence].
    destruct (find (has_id (_id me)) db) as [u|]; [|simpl; congruence].
    simpl option_map. cbv iota beta.
    destruct (correctPassword _ _) as [[|]|e]; try (simpl; congruence).
    match goal with
    | |- context [save true salt now ?d db] =>
        destruct (save true salt now d db) as [[doc db1]|e] eqn:Hs
    end; [|simpl; congruence].
    intros _. pose proof (save_needs_casts _ _ _ _ _ Hs) as Hce.
    cbn [castErrors map_fields] in Hce.
    rewrite (assignments_cast _ _ _ Hce eq_refl) in Hs.
    exact (save_validated_password _ _ _ _ _ _ Hs eq_refl).
Qed.

Lemma password_writes_are_validated_witness :
  let P := Sample.platform in
  let req := Sample.request None None "abc123" ""
               (Sample.new_password None "new password 1" "new password 1")
               None in
  snd (resetPassword Sample.cfg "s9" 1700000100000 req Sample.db) <> Sample.db
  /\ confirmed_password (body req).
Proof.
  cbv zeta.
  assert (Hne : snd (resetPassword (P := Sample.platform) Sample.cfg "s9"
                       1700000100000
                       (Sample.request None None "abc123" ""
                          (Sample.new_password None "new password 1"
                             "new password 1") None) Sample.db)
                <> Sample.db).
  { vm_compute. discriminate. }
  split; [exact Hne|].
  exact (proj1 (proj2 (password_writes_are_validated (P := Sample.platform)
                         Sample.cfg Sample.db))
           "s9" 1700000100000 _ Hne).
Defined.

(** X12.  The password flows leave identities alone: on a store with
    unique ids, [forgotPassword], [resetPassword] and [updatePassword] keep
    the id, username, email, role, phone number and location of every
    record, and the order and number of records. *)
Theorem password_flows_keep_profiles {P : Platform} cfg db :
  unique_ids db = true ->
  (forall deliver draw now req,
      map profile_of (snd (forgotPassword cfg deliver draw now req db))
      = map profile_of db)
  /\ (forall salt now req,
         map profile_of (snd (resetPassword cfg salt now req db))
         = map profile_of db)
  /\ (forall salt now req,
         map profile_of (snd (updatePassword cfg salt now req db))
         = map profile_of db).
Proof.
  intro Huniq. repeat split.
  - intros deliver draw now req.
    pose proof (forgotPassword_frame cfg deliver draw
                  now req db Huniq) as H.
    apply (f_equal (map profile_of)) in H. rewrite !map_map in H. exact H.
  - intros salt now req. unfold resetPassword, findOne_reset. cbv zeta.
    destruct (find _ db) as [u|] eqn:Hf; [|reflexivity].
    simpl option_map. cbv iota beta.
    match goal with
    | |- context [save true salt now ?d db] =>
        destruct (save true salt now d db) as [[doc db1]|e] eqn:Hs
    end; [|reflexivity].
    pose proof (save_needs_casts _ _ _ _ _ Hs) as Hce.
    cbn [castErrors map_fields] in Hce.
    rewrite (assignments_cast _ _ _ Hce eq_refl) in Hs. clear Hce.
    simpl. apply (save_profiles _ _ _ _ _ _ _ u Hs eq_refl);
      [|reflexivity].
    simpl. apply find_by_own_id; [assumption|]. now apply find_some in Hf.
  - intros salt now req. unfold updatePassword, findById.
    destruct (user req) as [me|]; [|reflexivity].
    destruct (find (has_id (_id me)) db) as [u|] eqn:Hu; [|reflexivity].
    simpl option_map. cbv iota beta.
    destruct (correctPassword _ _) as [[|]|e]; try reflexivity.
    match goal with
    | |- context [save true salt now ?d db] =>
        destruct (save true salt now d db) as [[doc db1]|e] eqn:Hs
    end; [|reflexivity].
    pose proof (save_needs_casts _ _ _ _ _ Hs) as Hce.
    cbn [castErrors map_fields] in Hce.
    rewrite (assignments_cast _ _ _ Hce eq_refl) in Hs. clear Hce.
    simpl. apply (save_profiles _ _ _ _ _ _ _ u Hs eq_refl);
      [|reflexivity].
    simpl. pose proof (find_some _ _ Hu) as [_ Hid]. apply has_id_true in Hid.
    now rewrite Hid.
Qed.

Lemma password_flows_keep_profiles_witness :
  let P := Sample.platform in
  let req := Sample.request None None "abc123" ""
               (Sample.new_password None "new password 1" "new password 1")
               None in
  unique_ids Sample.db = true
  /\ map profile_of
       (snd (resetPassword Sample.cfg "s9" 1700000100000 req Sample.db))
     = map profile_of Sample.db.
Proof.
  cbv zeta. split; [reflexivity|].
  apply (proj1 (proj2 (password_flows_keep_profiles (P := Sample.platform)
                         Sample.cfg Sample.db eq_refl))).
Defined.

(** ** Routes behind [protect] *)

(** X13.  On the route of [updatePassword] behind [protect], the store
    changes only for a request whose token verifies, whose user is stored
    and has no later password change, and whose current password verifies;
    and the route never answers 404 "User not found" nor the 400 of a
    missing [req.user]. *)
Theorem updateMyPassword_route_is_guarded {P : Platform} cfg salt now req db :
  (snd (route_updateMyPassword cfg salt now req db) <> db ->
   exists token c u,
     Js.as_truthy (bearer_token req) = Some token
     /\ jwt_verify token now = Some c
     /\ find (has_id (jwt_id c)) db = Some u
     /\ changedPasswordAfter u (jwt_iat c) = false
     /\ correctPassword (Body.passwordCurrent (body req)) (password u)
        = Ok true)
  /\ fst (route_updateMyPassword cfg salt now req db)
     <> Respond (fail 404 (Text "User not found"))
  /\ fst (route_updateMyPassword cfg salt now req db)
     <> Respond (fail 400 (ErrMessage TypeError)).
Proof.
  unfold route_updateMyPassword.
  destruct (protect_outcomes now req db) as [[v Hv]|[m Hm]].
  2:{ rewrite Hm. simpl. split; [congruence|].
      split; intro H; inversion H. }
  rewrite Hv.
  destruct (protect_inv now req db v Hv) as (token & c & u & Ht & Hc & Hu &
                                             Hch & ->).
  assert (Hid : _id u = jwt_id c).
  { apply find_some in Hu. destruct Hu as [_ Hu]. now apply has_id_true. }
  unfold updatePassword, findById. cbn [user with_user body].
  change (_id (with_password None u)) with (_id u). rewrite Hid, Hu.
  cbn [option_map hydrate fields].
  destruct (correctPassword (Body.passwordCurrent (body req)) (password u))
    as [[|]|e] eqn:Hcp.
  - match goal with
    | |- context [save true salt now ?d db] =>
        destruct (save true salt now d db) as [[doc db1]|e] eqn:Hs
    end.
    + simpl. split; [|split; intro H; inversion H].
      intros _. exists token, c, u. repeat split; assumption.
    + simpl. split; [congruence|]. split; intro H; inversion H.
      subst e. exact (save_never_TypeError _ _ _ _ _ Hs).
  - simpl. split; [congruence|]. split; intro H; inversion H.
  - simpl. split; [congruence|]. split; intro H; inversion H.
    subst e. unfold correctPassword in Hcp.
    destruct (Body.passwordCurrent (body req)) as [[x|t x]|], (password u);
      discriminate.
Qed.

Lemma updateMyPassword_route_is_guarded_witness :
  let P := Issuer.platform in
  let req := Sample.request (Some "Bearer u2@1700000000") None "" ""
               (Sample.new_password (Some "battery staple")
                  "new password 2" "new password 2") None in
  snd (route_updateMyPassword Sample.cfg "s7" 1700000100000 req Sample.db)
  <> Sample.db
  /\ correctPassword (Body.passwordCurrent (body req)) (password Sample.bob)
     = Ok true.
Proof.
  cbv zeta.
  assert (Hne : snd (route_updateMyPassword (P := Issuer.platform) Sample.cfg
                       "s7" 1700000100000
                       (Sample.request (Some "Bearer u2@1700000000") None ""
                          ""
                          (Sample.new_password (Some "battery staple")
                             "new password 2" "new password 2") None)
                       Sample.db)
                <> Sample.db).
  { vm_compute. discriminate. }
  split; [exact Hne|].
  destruct (proj1 (updateMyPassword_route_is_guarded (P := Issuer.platform)
                     Sample.cfg "s7" 1700000100000 _ Sample.db) Hne)
    as (token & c & u & _ & _ & _ & _ & _).
  reflexivity.
Defined.

(** X14.  A request that carries an [Authorization] header starting with
    "Bearer" is judged by that header alone: [protect] gives the same
    outcome whatever the cookie holds, also when the header has no token
    after the word. *)
Theorem authorization_header_hides_cookie {P : Platform} now req1 req2 db a :
  authorization req1 = Some a ->
  authorization req2 = Some a ->
  Js.startsWith "Bearer" a = true ->
  protect now req1 db = protect now req2 db.
Proof.
  intros H1 H2 Hb.
  assert (Hne : Js.as_truthy (Some a) = Some a).
  { destruct a; [discriminate | reflexivity]. }
  unfold protect, bearer_token. rewrite H1, H2, Hne, Hb. reflexivity.
Qed.

Lemma authorization_header_hides_cookie_witness :
  let P := Sample.platform in
  protect 1700000100000
    (Sample.request (Some "Bearer") (Some "jwt.u1.1700000005") "" ""
       Sample.no_body None) Sample.db
  = protect 1700000100000
      (Sample.request (Some "Bearer") None "" "" Sample.no_body None)
      Sample.db.
Proof.
  cbv zeta.
  apply (authorization_header_hides_cookie (P := Sample.platform)
           1700000100000 _ _ Sample.db "Bearer"); reflexivity.
Defined.

(** X15.  Behind [protect], [restrictTo] decides on the role of the stored
    record: it calls [next] without an error exactly when that role is one
    of the listed roles, compared letter for letter, and passes a 403 error
    otherwise; with no role listed it always passes the 403 error. *)
Theorem restrictTo_checks_stored_role {P : Platform} now req db v roles :
  protect now req db = Forward (Some v) None ->
  (exists u, In u db /\ v = with_password None u)
  /\ (restrictTo roles (with_user v req) = Forward None None
      <-> exists r, role v = Some r /\ In r roles)
  /\ ((~ exists r, role v = Some r /\ In r roles) ->
      restrictTo roles (with_user v req)
      = Forward None
          (Some {| err_message :=
                     "You do not have permission to perform this action";
                   statusCode := 403 |})).
Proof.
  intro Hv.
  destruct (protect_inv now req db v Hv) as (token & c & u & _ & _ & Hu & _ &
                                             Hvu).
  split; [exists u; split; [now apply find_some in Hu | assumption]|].
  unfold restrictTo. cbn [user with_user]. cbv beta iota.
  assert (Hinc : includes roles (role v) = true
                 <-> exists r, role v = Some r /\ In r roles).
  { unfold includes. destruct (role v) as [r|].
    - rewrite existsb_exists. split.
      + intros (x & Hin & Hx). apply String.eqb_eq in Hx. subst x.
        now exists r.
      + intros (r' & Hr & Hin). inversion Hr; subst r'.
        exists r. split; [assumption | apply String.eqb_refl].
    - split; [discriminate|]. intros (r & Hr & _). discriminate. }
  destruct (includes roles (role v)) eqn:Hi; simpl.
  - split; [split; [intros _; now apply Hinc | reflexivity]|].
    intro Hno. exfalso. apply Hno. now apply Hinc.
  - split; [split; [discriminate|]|reflexivity].
    intro Hex. apply Hinc in Hex. discriminate.
Qed.

Lemma restrictTo_checks_stored_role_witness :
  let P := Sample.platform in
  let req := Sample.request (Some "Bearer jwt.u1.1700000005") None "" ""
               Sample.no_body None in
  let v := with_password None Sample.ada in
  protect 1700000100000 req Sample.db = Forward (Some v) None
  /\ (~ exists r, role v = Some r /\ In r ["admin"])
  /\ restrictTo ["admin"] (with_user v req)
     = Forward None
         (Some {| err_message :=
                    "You do not have permission to perform this action";
                  statusCode := 403 |}).
Proof.
  cbv zeta. split; [reflexivity|].
  assert (Hno : ~ exists r, role (with_password None Sample.ada) = Some r
                            /\ In r ["admin"]).
  { intros (r & Hr & [Hin|[]]). subst r. discriminate. }
  split; [exact Hno|].
  apply (proj2 (proj2 (restrictTo_checks_stored_role (P := Sample.platform)
                         1700000100000
                         (Sample.request (Some "Bearer jwt.u1.1700000005")
                            None "" "" Sample.no_body None)
                         Sample.db (with_password None Sample.ada) ["admin"]
                         eq_refl))).
  exact Hno.
Defined.

(** X16.  The route of [getMe] behind [protect] serves, with status 200,
    the very user [protect] resolved, and otherwise stops with the answer
    of [protect]; it never answers 404. *)
Theorem me_route_serves_resolved_user {P : Platform} now req db :
  (forall v,
      protect now req db = Forward (Some v) None ->
      route_me now req db
      = Served {| reply_status := 200; reply_cookie := None;
                  reply_json := InfoUser v |})
  /\ ((forall v, protect now req db <> Forward (Some v) None) ->
      route_me now req db = Stopped (protect now req db)).
Proof.
  split.
  - intros v Hv. unfold route_me. rewrite Hv, protect_with_user, Hv.
    destruct (protect_inv now req db v Hv) as (token & c & u & _ & _ & Hu & _
                                               & ->).
    unfold getMe, findById. cbn [user with_user].
    change (_id (with_password None u)) with (_id u).
    assert (Hid : _id u = jwt_id c).
    { apply find_some in Hu. destruct Hu as [_ Hu]. now apply has_id_true. }
    rewrite Hid, Hu. reflexivity.
  - intro Hno. unfold route_me.
    destruct (protect_outcomes now req db) as [[v Hv]|[m Hm]].
    + exfalso. exact (Hno v Hv).
    + rewrite Hm. reflexivity.
Qed.

Lemma me_route_serves_resolved_user_witness :
  let P := Sample.platform in
  let req := Sample.request None (Some "jwt.u1.1700000005") "" ""
               Sample.no_body None in
  protect 1700000100000 req Sample.db
  = Forward (Some (with_password None Sample.ada)) None
  /\ route_me 1700000100000 req Sample.db
     = Served {| reply_status := 200; reply_cookie := None;
                 reply_json := InfoUser (with_password None Sample.ada) |}.
Proof.
  cbv zeta. split; [reflexivity|].
  apply (proj1 (me_route_serves_resolved_user (P := Sample.platform)
                  1700000100000 _ Sample.db)).
  reflexivity.
Defined.

(** X17.  The profile route cannot touch an account: after [updateMe]
    behind [protect], every record has the id, email, password,
    confirmation, role, [passwordChangedAt] and reset fields it had, in the
    same order; a request that [protect] stops, and a request whose body
    carries a password or a confirmation, leave the store as it was. *)
Theorem updateMe_route_keeps_accounts {P : Platform} {L : LocationUpdate} now
  req db :
  map account_of (snd (route_updateMe now req db)) = map account_of db
  /\ ((forall v, protect now req db <> Forward (Some v) None) ->
      snd (route_updateMe now req db) = db)
  /\ (Js.truthy_value (Body.password (body req))
      || Js.truthy_value (Body.passwordConfirm (body req)) = true ->
      snd (route_updateMe now req db) = db).
Proof.
  assert (Hframe : forall r, map account_of (snd (updateMe r db))
                             = map account_of db).
  { intro r. unfold updateMe. cbv zeta.
    destruct (_ || _); [reflexivity|].
    destruct (user r) as [me|]; [|reflexivity].
    destruct (updateErrors _); [|reflexivity].
    destruct (find _ db); [|reflexivity].
    simpl. clear. induction db as [|x rest IH]; simpl; [reflexivity|].
    destruct (has_id (_id me) x); simpl; [reflexivity | now rewrite IH]. }
  unfold route_updateMe.
  destruct (protect_outcomes now req db) as [[v Hv]|[m Hm]].
  - rewrite Hv, protect_with_user, Hv.
    destruct (updateMe (with_user v req) db) as [r db1] eqn:Hu.
    simpl. split; [|split].
    + specialize (Hframe (with_user v req)). now rewrite Hu in Hframe.
    + intro Hno. exfalso. exact (Hno v eq_refl).
    + intro Hpw. unfold updateMe in Hu. cbv zeta in Hu. simpl body in Hu.
      rewrite Hpw in Hu. now inversion Hu.
  - rewrite Hm. simpl. repeat split; reflexivity.
Qed.

Lemma updateMe_route_keeps_accounts_witness :
  let P := Sample.platform in
  let L := Issuer.replace_location in
  let req := Sample.request (Some "Bearer jwt.u1.1700000005") None "" ""
               (Issuer.rename "root") None in
  let out := route_updateMe 1700000100000 req Sample.db in
  (exists v, fst out
             = Served {| reply_status := 200; reply_cookie := None;
                         reply_json :=
                           InfoUpdated "Profile updated successfully" v |}
             /\ username v = Some "root" /\ role v = Some "customer"
             /\ email v = Some "ada@example.com")
  /\ map account_of (snd out) = map account_of Sample.db.
Proof.
  cbv zeta. split; [eexists; repeat split|].
  apply (proj1 (updateMe_route_keeps_accounts (P := Sample.platform)
                  (L := Issuer.replace_location) 1700000100000 _ Sample.db)).
Defined.

(** X18.  The cookie [logout] sets is named "jwt", expires ten seconds
    later and holds the text "loggedout"; once the token verifier turns
    that text down, a request carrying only this cookie is answered 401 by
    [protect] and passes [isLoggedIn] with no user attached. *)
Theorem logout_cookie_does_not_authenticate {P : Platform} now0 now b db :
  jwt_verify "loggedout" now = None ->
  exists c,
    reply_cookie (logout now0) = Some c
    /\ cookie_name c = "jwt"
    /\ expires c = now0 + 10000
    /\ protect now (cookie_request (cookie_value c) b) db
       = Respond (fail 401 (Text "Invalid token. Please log in again!"))
    /\ isLoggedIn now (cookie_request (cookie_value c) b) db
       = Forward None None.
Proof.
  intro Hv. eexists. split; [reflexivity|]. simpl.
  split; [reflexivity|]. split; [reflexivity|].
  unfold protect, isLoggedIn, bearer_token. simpl. rewrite Hv.
  split; reflexivity.
Qed.

Lemma logout_cookie_does_not_authenticate_witness :
  let P := Sample.platform in
  jwt_verify "loggedout" 1700000100000 = None
  /\ protect 1700000100000 (cookie_request "loggedout" Sample.no_body)
       Sample.db
     = Respond (fail 401 (Text "Invalid token. Please log in again!")).
Proof.
  cbv zeta. split; [reflexivity|].
  destruct (logout_cookie_does_not_authenticate (P := Sample.platform)
              1700000000000 1700000100000 Sample.no_body Sample.db eq_refl)
    as (c & Hc & _ & _ & Hp & _).
  inversion Hc; subst c. exact Hp.
Defined.

(** ** The pattern matcher is the language of the pattern *)

Section RegexFacts.

Import Re.

Lemma str_app_nil_r s : s ++ "" = s.
Proof. induction s as [|a s IH]; simpl; [reflexivity | now rewrite IH]. Qed.

Lemma str_app_assoc a b c : (a ++ b) ++ c = a ++ (b ++ c).
Proof. induction a as [|x a IH]; simpl; [reflexivity | now rewrite IH]. Qed.

Lemma str_app_eq_nil a b : a ++ b = "" -> a = "" /\ b = "".
Proof. destruct a; simpl; [auto | discriminate]. Qed.

Lemma nullable_Matches r : nullable r = true <-> Matches r "".
Proof.
  split.
  - induction r as [| |p|r1 IH1 r2 IH2|r1 IH1 r2 IH2|r1 IH1]; simpl; intro H;
      try discriminate.
    + constructor.
    + apply andb_true_iff in H. destruct H as [H1 H2].
      change "" with ("" ++ ""). constructor; auto.
    + apply orb_true_iff in H. destruct H as [H|H];
        [apply MAltL | apply MAltR]; auto.
    + constructor.
  - intro H. remember "" as s eqn:Hs.
    induction H as [|p a Hp|r1 r2 s1 s2 H1 IH1 H2 IH2|r1 r2 s H IH
                    |r1 r2 s H IH|r|r s1 s2 H1 IH1 H2 IH2];
      simpl; try reflexivity; try discriminate.
    + apply str_app_eq_nil in Hs. destruct Hs as [-> ->].
      now rewrite IH1, IH2.
    + now rewrite IH.
    + rewrite IH by assumption. apply orb_true_r.
Qed.

Lemma deriv_Matches a r s : Matches (deriv a r) s <-> Matches r (String a s).
Proof.
  split.
  - revert s.
    induction r as [| |p|r1 IH1 r2 IH2|r1 IH1 r2 IH2|r1 IH1]; simpl; intros s H.
    + inversion H.
    + inversion H.
    + destruct (p a) eqn:Hp; inversion H; subst. now constructor.
    + destruct (nullable r1) eqn:Hn.
      * inversion H as [| | | ? ? ? HL | ? ? ? HR | |]; subst.
        -- inversion HL as [| |? ? s1 s2 Ha Hb| | | |]; subst.
           change (String a (s1 ++ s2)) with (String a s1 ++ s2).
           constructor; auto.
        -- change (String a s) with ("" ++ String a s).
           constructor; [now apply nullable_Matches | auto].
      * inversion H as [| |? ? s1 s2 Ha Hb| | | |]; subst.
        change (String a (s1 ++ s2)) with (String a s1 ++ s2).
        constructor; auto.
    + inversion H; subst; [apply MAltL | apply MAltR]; auto.
    + inversion H as [| |? ? s1 s2 Ha Hb| | | |]; subst.
      change (String a (s1 ++ s2)) with (String a s1 ++ s2).
      apply MStarCons; auto.
  - intro H. remember (String a s) as s0 eqn:Hs. revert s Hs.
    induction H as [|p b Hp|r1 r2 s1 s2 H1 IH1 H2 IH2|r1 r2 s0 H IH
                    |r1 r2 s0 H IH|r|r s1 s2 H1 IH1 H2 IH2];
      intros s Hs; try discriminate.
    + inversion Hs; subst. simpl. rewrite Hp. constructor.
    + destruct s1 as [|c s1'].
      * simpl in Hs. simpl.
        assert (Hn : nullable r1 = true) by (now apply nullable_Matches).
        rewrite Hn. apply MAltR. now apply IH2.
      * simpl in Hs. inversion Hs; subst. simpl.
        destruct (nullable r1);
          [apply MAltL|]; constructor; auto.
    + simpl. apply MAltL. now apply IH.
    + simpl. apply MAltR. now apply IH.
    + destruct s1 as [|c s1'].
      * simpl in Hs. now apply IH2.
      * simpl in Hs. inversion Hs; subst. simpl. constructor; auto.
Qed.

Lemma accepts_Matches r s : accepts r s = true <-> Matches r s.
Proof.
  revert r. induction s as [|a s IH]; intro r; simpl.
  - apply nullable_Matches.
  - rewrite IH. apply deriv_Matches.
Qed.

Lemma all_in_app p s1 s2 : all_in p (s1 ++ s2) = all_in p s1 && all_in p s2.
Proof.
  induction s1 as [|a s1 IH]; simpl; [reflexivity|].
  now rewrite IH, andb_assoc.
Qed.

Lemma all_in_weaken (p q : ascii -> bool) s :
  (forall a, p a = true -> q a = true) ->
  all_in p s = true -> all_in q s = true.
Proof.
  intro Hpq. induction s as [|a s IH]; simpl; [reflexivity|].
  rewrite !andb_true_iff. intros [Ha Hs]. split; auto.
Qed.

Lemma Matches_within q r s :
  within q r -> Matches r s -> all_in q s = true.
Proof.
  intros Hw H. induction H as [|p a Hp|r1 r2 s1 s2 H1 IH1 H2 IH2|r1 r2 s H IH
                               |r1 r2 s H IH|r|r s1 s2 H1 IH1 H2 IH2];
    simpl in *; try reflexivity.
  - now rewrite (Hw a Hp).
  - destruct Hw. rewrite all_in_app. now rewrite IH1, IH2.
  - destruct Hw. auto.
  - destruct Hw. auto.
  - rewrite all_in_app. now rewrite IH1, IH2.
Qed.

Lemma Matches_Cls p s :
  Matches (Cls p) s <-> exists a, s = String a "" /\ p a = true.
Proof.
  split.
  - intro H. inversion H; subst. eauto.
  - intros (a & -> & Hp). now constructor.
Qed.

Lemma Matches_Chr c s : Matches (Chr c) s <-> s = String c "".
Proof.
  unfold Chr. rewrite Matches_Cls. split.
  - intros (a & -> & Ha). apply Ascii.eqb_eq in Ha. now subst.
  - intros ->. exists c. split; [reflexivity | apply Ascii.eqb_refl].
Qed.

Lemma Matches_Str x s : Matches (Str x) s <-> s = x.
Proof.
  revert s. induction x as [|a x IH]; intro s; simpl.
  - split; [intro H; now inversion H | intros ->; constructor].
  - split.
    + intro H. inversion H as [| |? ? s1 s2 Ha Hb| | | |]; subst.
      apply Matches_Chr in Ha. apply IH in Hb. now subst.
    + intros ->. change (String a x) with (String a "" ++ x).
      constructor; [now apply Matches_Chr | now apply IH].
Qed.

Lemma Matches_Opt r s : Matches (Opt r) s <-> s = "" \/ Matches r s.
Proof.
  unfold Opt. split.
  - intro H. inversion H as [| | | ? ? ? HL | ? ? ? HR | |]; subst;
      [now right | left; now inversion HR].
  - intros [->|H]; [apply MAltR; constructor | now apply MAltL].
Qed.

Lemma Matches_Star_any s : Matches (Star any) s.
Proof.
  induction s as [|a s IH]; [constructor|].
  change (String a s) with (String a "" ++ s).
  apply MStarCons; [now constructor | assumption].
Qed.

Lemma Matches_Star_Cls p s :
  Matches (Star (Cls p)) s <-> all_in p s = true.
Proof.
  split.
  - intro H. apply (Matches_within p (Star (Cls p))); [|assumption].
    simpl. auto.
  - induction s as [|a s IH]; simpl; [constructor|].
    rewrite andb_true_iff. intros [Ha Hs].
    change (String a s) with (String a "" ++ s).
    apply MStarCons; [now constructor | auto].
Qed.

Lemma Matches_Rep_Cls n p s :
  Matches (Rep n (Cls p)) s <-> String.length s = n /\ all_in p s = true.
Proof.
  revert s. induction n as [|n IH]; intro s; simpl.
  - split.
    + intro H. inversion H. auto.
    + intros [Hl _]. destruct s; [constructor | discriminate].
  - split.
    + intro H. inversion H as [| |? ? s1 s2 Ha Hb| | | |]; subst.
      apply Matches_Cls in Ha. destruct Ha as (a & -> & Hp).
      apply IH in Hb. destruct Hb as [Hl Hall]. simpl.
      now rewrite Hl, Hp, Hall.
    + intros [Hl Hall]. destruct s as [|a s]; [discriminate|].
      simpl in Hl, Hall. apply andb_true_iff in Hall. destruct Hall as [Ha Hs].
      change (String a s) with (String a "" ++ s).
      constructor; [now constructor|]. apply IH. split; [lia | assumption].
Qed.

Lemma str_split_at n s :
  (n <= String.length s)%nat ->
  exists s1 s2, s = s1 ++ s2 /\ String.length s1 = n.
Proof.
  revert s. induction n as [|n IH]; intros s Hn.
  - exists "", s. auto.
  - destruct s as [|a s]; simpl in Hn; [lia|].
    destruct (IH s ltac:(lia)) as (s1 & s2 & -> & Hl).
    exists (String a s1), s2. simpl. now rewrite Hl.
Qed.

Lemma Matches_AtLeast_Cls n p s :
  Matches (AtLeast n (Cls p)) s
  <-> (n <= String.length s)%nat /\ all_in p s = true.
Proof.
  unfold AtLeast. split.
  - intro H. inversion H as [| |? ? s1 s2 Ha Hb| | | |]; subst.
    apply Matches_Rep_Cls in Ha. apply Matches_Star_Cls in Hb.
    destruct Ha as [Hl Hall].
    rewrite string_length_append, all_in_app, Hall, Hb. split; [lia | reflexivity].
  - intros [Hn Hall].
    destruct (str_split_at n s Hn) as (s1 & s2 & -> & Hl).
    rewrite all_in_app in Hall. apply andb_true_iff in Hall.
    destruct Hall as [H1 H2].
    constructor; [now apply Matches_Rep_Cls | now apply Matches_Star_Cls].
Qed.

(** The last round of a repetition. *)
Lemma Star_then_last r x y :
  Matches r x -> Matches (Star r) y ->
  exists before last,
    x ++ y = before ++ last /\ Matches (Star r) before /\ Matches r last.
Proof.
  intros Hx Hy. revert x Hx. remember (Star r) as sr eqn:Hsr.
  induction Hy as [| | | | |r0|r0 s1 s2 H1 IH1 H2 IH2]; try discriminate;
    intros x Hx; inversion Hsr; subst r0.
  - exists "", x. rewrite str_app_nil_r. repeat split; [constructor | assumption].
  - destruct (IH2 eq_refl s1 H1) as (before & last & Heq & Hb & Hl).
    exists (x ++ before), last. rewrite Heq, str_app_assoc.
    repeat split; [|assumption]. now apply MStarCons.
Qed.

Lemma Matches_Plus_last r s :
  Matches (Plus r) s ->
  exists before last,
    s = before ++ last /\ Matches (Star r) before /\ Matches r last.
Proof.
  unfold Plus. intro H. inversion H as [| |? ? s1 s2 Ha Hb| | | |]; subst.
  now apply Star_then_last.
Qed.

Lemma Matches_somewhere x s :
  Matches (somewhere (Str x)) s <-> contains x s.
Proof.
  unfold somewhere, contains. split.
  - intro H. inversion H as [| |? ? s1 s2 Ha Hb| | | |]; subst.
    inversion Hb as [| |? ? s3 s4 Hc Hd| | | |]; subst.
    apply Matches_Str in Hc. subst. now exists s1, s4.
  - intros (before & after & ->).
    constructor; [apply Matches_Star_any|].
    constructor; [now apply Matches_Str | apply Matches_Star_any].
Qed.

End RegexFacts.

(** ** What the validators of the schemas accept *)

(** X19.  The phone validator accepts exactly the texts made of "+44" or
    "0" followed by nine or more characters that are digits, white space or
    hyphens; it does not ask for any digit after the prefix. *)
Theorem phone_validator_spec s :
  phone_validator s = true
  <-> exists rest,
        (s = "+44" ++ rest \/ s = "0" ++ rest)
        /\ (9 <= String.length rest)%nat
        /\ Re.all_in phone_char rest = true.
Proof.
  unfold phone_validator. rewrite accepts_Matches. unfold uk_phone_regex.
  split.
  - intro H. inversion H as [| |? ? s1 s2 Ha Hb| | | |]; subst.
    apply Matches_AtLeast_Cls in Hb. destruct Hb as [Hl Hall].
    inversion Ha as [| | | ? ? ? HL | ? ? ? HR | |]; subst.
    + inversion HL as [| |? ? x o Hx Ho| | | |]; subst.
      apply (Matches_Str "+44") in Hx. subst x.
      apply Matches_Opt in Ho. destruct Ho as [->|Ho].
      * exists s2. simpl. auto.
      * apply Matches_Cls in Ho. destruct Ho as (a & -> & Hsp).
        exists (String a s2). split; [left; reflexivity|].
        simpl. split; [lia|].
        unfold phone_char at 1. rewrite Hsp, orb_true_r. exact Hall.
    + apply Matches_Chr in HR. subst s1. exists s2. simpl. auto.
  - intros (rest & Hs & Hl & Hall).
    assert (Ht : Re.Matches (Re.AtLeast 9 (Re.Cls phone_char)) rest)
      by (now apply Matches_AtLeast_Cls).
    destruct Hs as [->| ->].
    + change ("+44" ++ rest) with (("+44" ++ "") ++ rest).
      constructor; [|assumption]. apply Re.MAltL.
      constructor; [now apply Matches_Str | apply Re.MAltR; constructor].
    + change ("0" ++ rest) with (String "0" "" ++ rest).
      constructor; [|assumption]. apply Re.MAltR. now apply Matches_Chr.
Qed.

Lemma phone_validator_spec_witness :
  phone_validator "0---------" = true
  /\ exists rest,
       ("0---------" = "+44" ++ rest \/ "0---------" = "0" ++ rest)
       /\ (9 <= String.length rest)%nat
       /\ Re.all_in phone_char rest = true.
Proof.
  split; [reflexivity|].
  apply (proj1 (phone_validator_spec "0---------")). reflexivity.
Defined.

Section EmailFacts.

Lemma within_word_address :
  Re.within address_char (Re.Plus (Re.Cls Re.word)).
Proof.
  simpl. split; intros a Ha; unfold address_char; now rewrite Ha.
Qed.

Lemma within_more :
  Re.within address_char
    (Re.Star (Re.Cat (Re.Opt (Re.Cls (fun a => Ascii.eqb a "." || Ascii.eqb a "-")))
                (Re.Plus (Re.Cls Re.word)))).
Proof.
  simpl. repeat split; auto; intros a Ha; unfold address_char;
    try (now rewrite Ha);
    rewrite <- orb_assoc, Ha; apply orb_true_r.
Qed.

End EmailFacts.

(** X20.  An address the email validator accepts has the form
    local@domain.label where the last label is two or three word
    characters, and where local and domain consist of word characters,
    dots and hyphens only; so an address with a "+" or with a last label of
    four letters or more is turned down. *)
Theorem email_validator_last_label s :
  email_validator s = true ->
  exists local domain label,
    s = local ++ "@" ++ domain ++ "." ++ label
    /\ local <> ""
    /\ Re.all_in address_char local = true
    /\ Re.all_in address_char domain = true
    /\ Re.all_in Re.word label = true
    /\ (String.length label = 2 \/ String.length label = 3)%nat.
Proof.
  unfold email_validator. rewrite accepts_Matches. unfold email_regex.
  cbv zeta. intro H.
  inversion H as [| |? ? s1 t1 H1 T1| | | |]; subst.
  inversion T1 as [| |? ? s2 t2 H2 T2| | | |]; subst.
  inversion T2 as [| |? ? s3 t3 H3 T3| | | |]; subst.
  inversion T3 as [| |? ? s4 t4 H4 T4| | | |]; subst.
  inversion T4 as [| |? ? s5 s6 H5 H6| | | |]; subst.
  apply Matches_Chr in H3. subst s3.
  apply Matches_Plus_last in H6.
  destruct H6 as (before & last & -> & Hbefore & Hlast).
  inversion Hlast as [| |? ? d l1 Hd L1| | | |]; subst.
  apply Matches_Chr in Hd. subst d.
  inversion L1 as [| |? ? c1 l2 Hc1 L2| | | |]; subst.
  inversion L2 as [| |? ? c2 c3 Hc2 Hc3| | | |]; subst.
  apply Matches_Cls in Hc1. destruct Hc1 as (a1 & -> & Ha1).
  apply Matches_Cls in Hc2. destruct Hc2 as (a2 & -> & Ha2).
  apply Matches_Opt in Hc3.
  exists (s1 ++ s2), (s4 ++ s5 ++ before),
    (String a1 "" ++ String a2 "" ++ c3).
  split; [|split; [|split; [|split; [|split]]]].
  - rewrite !str_app_assoc. reflexivity.
  - inversion H1 as [| |? ? x y Hx Hy| | | |]; subst.
    apply Matches_Cls in Hx. destruct Hx as (a & -> & _). discriminate.
  - rewrite all_in_app.
    rewrite (Matches_within address_char _ s1 within_word_address H1).
    now rewrite (Matches_within address_char _ s2 within_more H2).
  - assert (Hb : Re.all_in address_char before = true).
    { refine (Matches_within address_char _ before _ Hbefore).
      cbn [Re.within Re.Chr Re.Opt]. repeat split; try exact I;
        intros a Ha; unfold address_char; try (now rewrite Ha).
      apply Ascii.eqb_eq in Ha. subst a. reflexivity. }
    rewrite !all_in_app.
    rewrite (Matches_within address_char _ s4 within_word_address H4).
    rewrite (Matches_within address_char _ s5 within_more H5).
    now rewrite Hb.
  - simpl. rewrite Ha1, Ha2. simpl.
    destruct Hc3 as [->|Hc3]; [reflexivity|].
    apply Matches_Cls in Hc3. destruct Hc3 as (a3 & -> & Ha3).
    simpl. now rewrite Ha3.
  - destruct Hc3 as [->|Hc3]; [left; reflexivity|].
    apply Matches_Cls in Hc3. destruct Hc3 as (a3 & -> & _).
    right; reflexivity.
Qed.

Lemma email_validator_last_label_witness :
  email_validator "ada.lovelace@mail.example.co.uk" = true
  /\ exists local domain label,
       "ada.lovelace@mail.example.co.uk"
       = local ++ "@" ++ domain ++ "." ++ label
       /\ (String.length label = 2 \/ String.length label = 3)%nat.
Proof.
  split; [reflexivity|].
  destruct (email_validator_last_label "ada.lovelace@mail.example.co.uk"
              eq_refl)
    as (local & domain & label & H1 & _ & _ & _ & _ & H6).
  exists local, domain, label. split; assumption.
Defined.

Example email_rejects_long_label : email_validator "ada@example.info" = false.
Proof. reflexivity. Qed.

Example email_rejects_plus : email_validator "ada+work@example.com" = false.
Proof. reflexivity. Qed.

Example postcode_accepts_lower_case : postcode_validator "ec1a 1bb" = true.
Proof. reflexivity. Qed.

Example postcode_rejects_short : postcode_validator "EC1" = false.
Proof. reflexivity. Qed.

(** ** The validators of the emergency request *)

Section TimeFacts.

Import EmergencyRequest.

Lemma digit_cases a :
  Re.digit a = true ->
  In a ["0"; "1"; "2"; "3"; "4"; "5"; "6"; "7"; "8"; "9"]%char.
Proof. ascii_cases a. Qed.

Lemma upto1_cases a :
  Re.between "0" "1" a = true -> In a ["0"; "1"]%char.
Proof. ascii_cases a. Qed.

Lemma upto3_cases a :
  Re.between "0" "3" a = true -> In a ["0"; "1"; "2"; "3"]%char.
Proof. ascii_cases a. Qed.

Lemma upto5_cases a :
  Re.between "0" "5" a = true -> In a ["0"; "1"; "2"; "3"; "4"; "5"]%char.
Proof. ascii_cases a. Qed.

Lemma minute_text c1 c2 :
  Re.between "0" "5" c1 = true -> Re.digit c2 = true ->
  exists m, 0 <= m < 60 /\ String c1 (String c2 "") = two_digits m.
Proof.
  intros H1 H2. apply upto5_cases in H1. apply digit_cases in H2.
  exists (10 * Re.digit_value c1 + Re.digit_value c2).
  simpl in H1, H2. in_cases H1; in_cases H2;
    (split; [vm_compute; split; [discriminate | reflexivity] | reflexivity]).
Qed.

Lemma hour_text h :
  Re.Matches
    (Re.Alt (Re.Cat (Re.Opt (Re.Cls (Re.between "0" "1"))) (Re.Cls Re.digit))
       (Re.Cat (Re.Chr "2") (Re.Cls (Re.between "0" "3")))) h ->
  exists n, 0 <= n < 24 /\ (h = two_digits n \/ h = string_of_Z n).
Proof.
  intro H. inversion H as [| | | ? ? ? HL | ? ? ? HR | |]; subst.
  - inversion HL as [| |? ? o d Ho Hd| | | |]; subst.
    apply Matches_Cls in Hd. destruct Hd as (c2 & -> & H2).
    apply digit_cases in H2. simpl in H2.
    apply Matches_Opt in Ho. destruct Ho as [->|Ho].
    + exists (Re.digit_value c2). in_cases H2;
        (split; [vm_compute; split; [discriminate | reflexivity]
                | right; reflexivity]).
    + apply Matches_Cls in Ho. destruct Ho as (c1 & -> & H1).
      apply upto1_cases in H1. simpl in H1.
      exists (10 * Re.digit_value c1 + Re.digit_value c2). in_cases H1; in_cases H2;
        (split; [vm_compute; split; [discriminate | reflexivity]
                | left; reflexivity]).
  - inversion HR as [| |? ? t d Ht Hd| | | |]; subst.
    apply Matches_Chr in Ht. subst t.
    apply Matches_Cls in Hd. destruct Hd as (c2 & -> & H2).
    apply upto3_cases in H2. simpl in H2.
    exists (20 + Re.digit_value c2). in_cases H2;
      (split; [vm_compute; split; [discriminate | reflexivity]
              | left; reflexivity]).
Qed.

Lemma clock_texts_accepted :
  forallb
    (fun h =>
       forallb
         (fun m =>
            time_validator (two_digits h ++ ":" ++ two_digits m)
            && time_validator (string_of_Z h ++ ":" ++ two_digits m))
         (map Z.of_nat (seq 0 60)))
    (map Z.of_nat (seq 0 24)) = true.
Proof. vm_compute. reflexivity. Qed.

Lemma in_range_list n k :
  0 <= n < Z.of_nat k -> In n (map Z.of_nat (seq 0 k)).
Proof.
  intro H. apply in_map_iff. exists (Z.to_nat n). split; [lia|].
  apply in_seq. lia.
Qed.

End TimeFacts.

(** X21.  The time validator of [preferredTime] accepts exactly the texts
    made of an hour from 0 to 23, written with two digits or without a
    leading zero, a colon, and a minute from 00 to 59 written with two
    digits. *)
Theorem time_validator_spec s :
  EmergencyRequest.time_validator s = true
  <-> exists h m,
        0 <= h < 24 /\ 0 <= m < 60
        /\ (s = EmergencyRequest.two_digits h ++ ":"
                ++ EmergencyRequest.two_digits m
            \/ s = string_of_Z h ++ ":" ++ EmergencyRequest.two_digits m).
Proof.
  split.
  - unfold EmergencyRequest.time_validator. rewrite accepts_Matches.
    unfold EmergencyRequest.time_regex. cbv zeta. intro H.
    inversion H as [| |? ? hh t1 Hh T1| | | |]; subst.
    inversion T1 as [| |? ? colon t2 Hc T2| | | |]; subst.
    inversion T2 as [| |? ? m1 m2 Hm1 Hm2| | | |]; subst.
    apply Matches_Chr in Hc. subst colon.
    apply Matches_Cls in Hm1. destruct Hm1 as (c1 & -> & H1).
    apply Matches_Cls in Hm2. destruct Hm2 as (c2 & -> & H2).
    destruct (hour_text hh Hh) as (h & Hhr & Hht).
    destruct (minute_text c1 c2 H1 H2) as (m & Hmr & Hmt).
    exists h, m. split; [assumption|]. split; [assumption|].
    simpl in Hmt. simpl. rewrite Hmt.
    destruct Hht as [->| ->]; [left | right]; reflexivity.
  - intros (h & m & Hh & Hm & Hs).
    pose proof clock_texts_accepted as Hall.
    rewrite forallb_forall in Hall.
    specialize (Hall h (in_range_list h 24 Hh)).
    rewrite forallb_forall in Hall.
    specialize (Hall m (in_range_list m 60 Hm)).
    apply andb_true_iff in Hall. destruct Hall as [H2 H1].
    destruct Hs as [->| ->]; assumption.
Qed.

Lemma time_validator_spec_witness :
  EmergencyRequest.time_validator "9:05" = true
  /\ exists h m,
       0 <= h < 24 /\ 0 <= m < 60
       /\ ("9:05" = EmergencyRequest.two_digits h ++ ":"
                      ++ EmergencyRequest.two_digits m
           \/ "9:05" = string_of_Z h ++ ":" ++ EmergencyRequest.two_digits m).
Proof.
  split; [reflexivity|].
  apply (proj1 (time_validator_spec "9:05")). reflexivity.
Defined.

Example time_rejects_24 : EmergencyRequest.time_validator "24:00" = false.
Proof. reflexivity. Qed.

(** X22.  The pattern of [images] anchors its first alternative only: a
    text passes exactly when it starts with "http://" or "https://", or
    contains "/uploads/" anywhere, or contains "data:image/" anywhere,
    whatever precedes it. *)
Theorem image_pattern_spec s :
  Re.accepts EmergencyRequest.image_regex s = true
  <-> (exists rest, s = "http://" ++ rest)
      \/ (exists rest, s = "https://" ++ rest)
      \/ Re.contains "/uploads/" s
      \/ Re.contains "data:image/" s.
Proof.
  rewrite accepts_Matches. unfold EmergencyRequest.image_regex. split.
  - intro H. inversion H as [| | | ? ? ? HL | ? ? ? HR | |]; subst.
    + unfold Re.at_start in HL.
      inversion HL as [| |? ? p rest Hp Hrest| | | |]; subst.
      inversion Hp as [| |? ? x t1 Hx T1| | | |]; subst.
      inversion T1 as [| |? ? o y Ho Hy| | | |]; subst.
      apply (Matches_Str "http") in Hx. apply (Matches_Str "://") in Hy.
      subst x y. apply Matches_Opt in Ho. destruct Ho as [->|Ho].
      * left. exists rest. reflexivity.
      * apply Matches_Chr in Ho. subst o. right; left. exists rest.
        reflexivity.
    + inversion HR as [| | | ? ? ? HL2 | ? ? ? HR2 | |]; subst.
      * right; right; left. now apply Matches_somewhere.
      * right; right; right. now apply Matches_somewhere.
  - intros [(rest & ->)|[(rest & ->)|[Hc|Hc]]].
    + apply Re.MAltL. unfold Re.at_start.
      change ("http://" ++ rest) with (("http" ++ "" ++ "://") ++ rest).
      constructor; [|apply Matches_Star_any].
      constructor; [now apply Matches_Str|].
      constructor; [apply Re.MAltR; constructor | now apply (Matches_Str "://")].
    + apply Re.MAltL. unfold Re.at_start.
      change ("https://" ++ rest) with (("http" ++ "s" ++ "://") ++ rest).
      constructor; [|apply Matches_Star_any].
      constructor; [now apply Matches_Str|].
      constructor; [apply Re.MAltL; now apply Matches_Chr
                   | now apply (Matches_Str "://")].
    + apply Re.MAltR. apply Re.MAltL. now apply Matches_somewhere.
    + apply Re.MAltR. apply Re.MAltR. now apply Matches_somewhere.
Qed.

Lemma image_pattern_spec_witness :
  Re.contains "/uploads/" "javascript:alert(1)//uploads/"
  /\ EmergencyRequest.images_validator ["javascript:alert(1)//uploads/"]
     = true.
Proof.
  assert (Hc : Re.contains "/uploads/" "javascript:alert(1)//uploads/").
  { exists "javascript:alert(1)/", "". reflexivity. }
  split; [exact Hc|].
  change (EmergencyRequest.images_validator ["javascript:alert(1)//uploads/"])
    with (Re.accepts EmergencyRequest.image_regex
            "javascript:alert(1)//uploads/" && true).
  rewrite (proj2 (image_pattern_spec "javascript:alert(1)//uploads/")
             (or_intror (or_intror (or_introl Hc)))).
  reflexivity.
Defined.

(** ** The age label of a request *)

Section AgeFacts.

Import EmergencyRequest.

Lemma quotient_bounds a b :
  0 < b -> b * (a / b) <= a < b * (a / b) + b.
Proof.
  intro Hb. pose proof (Z.div_mod a b ltac:(lia)) as Hd.
  pose proof (Z.mod_pos_bound a b Hb) as Hm. lia.
Qed.

End AgeFacts.

(** X23.  The age label counts whole days from one day on, whole hours from
    one hour on, and whole minutes below; the unit takes an "s" from two
    units on.  A request younger than a minute is labelled "0 minute ago",
    and a request dated in the future gets a negative count of minutes. *)
Theorem requestAgeFormatted_units now createdAt :
  let age := now - createdAt in
  let label := EmergencyRequest.requestAgeFormatted now createdAt in
  (86400000 <= age ->
   label = string_of_Z (age / 86400000) ++ " day"
           ++ (if 172800000 <=? age then "s" else "") ++ " ago")
  /\ (3600000 <= age < 86400000 ->
      label = string_of_Z (age / 3600000) ++ " hour"
              ++ (if 7200000 <=? age then "s" else "") ++ " ago")
  /\ (age < 3600000 ->
      label = string_of_Z (age / 60000) ++ " minute"
              ++ (if 120000 <=? age then "s" else "") ++ " ago")
  /\ (0 <= age < 60000 -> label = "0 minute ago")
  /\ (age < 0 -> age / 60000 < 0).
Proof.
  cbv zeta. unfold EmergencyRequest.requestAgeFormatted. cbv zeta.
  set (age := now - createdAt).
  replace (1000 * 60 * 60) with 3600000 by reflexivity.
  replace (1000 * 60) with 60000 by reflexivity.
  assert (Hdays : age / 3600000 / 24 = age / 86400000).
  { rewrite Z.div_div by lia. reflexivity. }
  rewrite Hdays.
  pose proof (quotient_bounds age 86400000 ltac:(lia)) as Hd.
  pose proof (quotient_bounds age 3600000 ltac:(lia)) as Hh.
  pose proof (quotient_bounds age 60000 ltac:(lia)) as Hm.
  unfold EmergencyRequest.plural.
  repeat split.
  - intro H.
    assert (H0 : (0 <? age / 86400000) = true) by (apply Z.ltb_lt; lia).
    rewrite H0.
    destruct (172800000 <=? age) eqn:Hp.
    + apply Z.leb_le in Hp.
      assert (H1 : (1 <? age / 86400000) = true) by (apply Z.ltb_lt; lia).
      now rewrite H1.
    + apply Z.leb_gt in Hp.
      assert (H1 : (1 <? age / 86400000) = false) by (apply Z.ltb_ge; lia).
      now rewrite H1.
  - intros [Hlo Hhi].
    assert (H0 : (0 <? age / 86400000) = false) by (apply Z.ltb_ge; lia).
    assert (H0' : (0 <? age / 3600000) = true) by (apply Z.ltb_lt; lia).
    rewrite H0, H0'.
    destruct (7200000 <=? age) eqn:Hp.
    + apply Z.leb_le in Hp.
      assert (H1 : (1 <? age / 3600000) = true) by (apply Z.ltb_lt; lia).
      now rewrite H1.
    + apply Z.leb_gt in Hp.
      assert (H1 : (1 <? age / 3600000) = false) by (apply Z.ltb_ge; lia).
      now rewrite H1.
  - intro Hhi.
    assert (H0 : (0 <? age / 86400000) = false) by (apply Z.ltb_ge; lia).
    assert (H0' : (0 <? age / 3600000) = false) by (apply Z.ltb_ge; lia).
    rewrite H0, H0'.
    destruct (120000 <=? age) eqn:Hp.
    + apply Z.leb_le in Hp.
      assert (H1 : (1 <? age / 60000) = true) by (apply Z.ltb_lt; lia).
      now rewrite H1.
    + apply Z.leb_gt in Hp.
      assert (H1 : (1 <? age / 60000) = false) by (apply Z.ltb_ge; lia).
      now rewrite H1.
  - intros [Hlo Hhi].
    assert (H0 : (0 <? age / 86400000) = false) by (apply Z.ltb_ge; lia).
    assert (H0' : (0 <? age / 3600000) = false) by (apply Z.ltb_ge; lia).
    assert (Hz : age / 60000 = 0) by lia.
    rewrite H0, H0', Hz. reflexivity.
  - intro Hneg. lia.
Qed.

Lemma requestAgeFormatted_units_witness :
  86400000 <= 1700090000000 - 1700000000000
  /\ EmergencyRequest.requestAgeFormatted 1700090000000 1700000000000
     = "1 day ago".
Proof.
  split; [lia|].
  rewrite (proj1 (requestAgeFormatted_units 1700090000000 1700000000000))
    by lia.
  reflexivity.
Defined.

(** ** The dashboard statistics *)

Section StatsFacts.

Import EmergencyRequest.

Lemma bump_counted k s g :
  counted s (bump k g) = counted s g + (if String.eqb k s then 1 else 0).
Proof.
  induction g as [|[k0 n] rest IH]; simpl.
  - destruct (String.eqb k s); reflexivity.
  - destruct (String.eqb k0 k) eqn:Hk; simpl.
    + apply String.eqb_eq in Hk. subst k0.
      destruct (String.eqb k s); lia.
    + destruct (String.eqb k0 s) eqn:Hs; [|exact IH].
      apply String.eqb_eq in Hs. subst k0. rewrite String.eqb_sym, Hk. lia.
Qed.

Lemma bump_keys k g x :
  In x (map fst (bump k g)) <-> x = k \/ In x (map fst g).
Proof.
  induction g as [|[k0 n] rest IH]; simpl.
  - intuition.
  - destruct (String.eqb k0 k) eqn:Hk; simpl.
    + apply String.eqb_eq in Hk. subst k0. intuition.
    + rewrite IH. intuition.
Qed.

Lemma bump_NoDup k g : NoDup (map fst g) -> NoDup (map fst (bump k g)).
Proof.
  induction g as [|[k0 n] rest IH]; simpl; intro H.
  - constructor; [simpl; tauto | constructor].
  - inversion H as [|? ? Hnot Hrest]; subst.
    destruct (String.eqb k0 k) eqn:Hk; simpl.
    + now constructor.
    + constructor; [|auto].
      rewrite bump_keys. intros [->|Hin]; [|contradiction].
      rewrite String.eqb_refl in Hk. discriminate.
Qed.

Lemma bump_positive k g :
  (forall x n, In (x, n) g -> 0 < n) ->
  forall x n, In (x, n) (bump k g) -> 0 < n.
Proof.
  induction g as [|[k0 m] rest IH]; simpl; intros Hpos x n.
  - intros [H|[]]. inversion H. lia.
  - destruct (String.eqb k0 k); simpl.
    + intros [H|H].
      * pose proof (Hpos k0 m (or_introl eq_refl)). inversion H. lia.
      * apply (Hpos x n). now right.
    + intros [H|H].
      * apply (Hpos x n). now left.
      * apply (IH (fun y q Hy => Hpos y q (or_intror Hy)) x n H).
Qed.

Lemma fold_add_shift l a b :
  fold_left Z.add l (a + b) = fold_left Z.add l a + b.
Proof.
  revert a. induction l as [|x l IH]; intro a; simpl; [reflexivity|].
  replace (a + b + x) with (a + x + b) by lia. apply IH.
Qed.

Lemma bump_total k g a :
  fold_left Z.add (map snd (bump k g)) a
  = fold_left Z.add (map snd g) a + 1.
Proof.
  revert a. induction g as [|[k0 n] rest IH]; intro a; simpl.
  - reflexivity.
  - destruct (String.eqb k0 k); simpl.
    + replace (a + (n + 1)) with (a + n + 1) by lia. apply fold_add_shift.
    + apply IH.
Qed.

Lemma fold_bump statuses :
  forall g,
    NoDup (map fst g) ->
    (forall x n, In (x, n) g -> 0 < n) ->
    let g' := fold_left (fun groups s => bump s groups) statuses g in
    NoDup (map fst g')
    /\ (forall x n, In (x, n) g' -> 0 < n)
    /\ (forall s, counted s g'
                  = counted s g + Z.of_nat (count_occ string_dec statuses s))
    /\ fold_left Z.add (map snd g') 0
       = fold_left Z.add (map snd g) 0 + Z.of_nat (List.length statuses).
Proof.
  induction statuses as [|st rest IH]; intros g Hnd Hpos; cbv zeta.
  - simpl. repeat split; try assumption; intros; lia.
  - simpl fold_left.
    destruct (IH (bump st g) (bump_NoDup st g Hnd) (bump_positive st g Hpos))
      as (H1 & H2 & H3 & H4).
    repeat split; try assumption.
    + intro s. rewrite H3, bump_counted. simpl count_occ.
      destruct (string_dec st s) as [->|Hne].
      * rewrite String.eqb_refl. lia.
      * apply String.eqb_neq in Hne. rewrite Hne. lia.
    + rewrite H4, bump_total. simpl List.length. lia.
Qed.

Lemma counted_In g s n :
  NoDup (map fst g) -> In (s, n) g -> counted s g = n.
Proof.
  induction g as [|[k0 m] rest IH]; simpl; [tauto|].
  intros Hnd [H|H].
  - inversion H; subst. now rewrite String.eqb_refl.
  - inversion Hnd as [|? ? Hnot Hrest]; subst.
    destruct (String.eqb k0 s) eqn:Hk.
    + apply String.eqb_eq in Hk. subst k0. exfalso. apply Hnot.
      apply in_map_iff. now exists (s, n).
    + auto.
Qed.

Lemma In_counted g s :
  0 < counted s g -> In (s, counted s g) g.
Proof.
  induction g as [|[k0 m] rest IH]; simpl; [lia|].
  destruct (String.eqb k0 s) eqn:Hk.
  - apply String.eqb_eq in Hk. subst k0. now left.
  - intro H. right. auto.
Qed.

End StatsFacts.

(** X24.  [getDashboardStats] gives no document for an empty collection
    and one document otherwise; in that document [total] is the number of
    requests and [statusCounts] lists every status that occurs exactly
    once, with the number of requests that have it. *)
Theorem getDashboardStats_spec statuses :
  (statuses = [] -> EmergencyRequest.getDashboardStats statuses = [])
  /\ (statuses <> [] ->
      exists groups,
        EmergencyRequest.getDashboardStats statuses
        = [{| EmergencyRequest.total := Z.of_nat (List.length statuses);
              EmergencyRequest.statusCounts := groups |}]
        /\ NoDup (map fst groups)
        /\ forall s n,
             In (s, n) groups
             <-> n = Z.of_nat (count_occ string_dec statuses s) /\ 0 < n).
Proof.
  split; [intros ->; reflexivity|].
  intro Hne. unfold EmergencyRequest.getDashboardStats,
    EmergencyRequest.group_by_status.
  destruct (fold_bump statuses [] (NoDup_nil _)
              (fun x n (H : In (x, n) []) => False_ind _ H))
    as (Hnd & Hpos & Hcount & Htotal).
  cbv zeta in Hnd, Hpos, Hcount, Htotal. simpl in Hcount, Htotal.
  set (g := fold_left (fun groups s => EmergencyRequest.bump s groups)
              statuses []) in *.
  assert (Hg : g <> []).
  { destruct statuses as [|st rest]; [congruence|].
    intro Hnil. specialize (Hcount st). rewrite Hnil in Hcount.
    simpl in Hcount. destruct (string_dec st st); [lia | congruence]. }
  destruct g as [|p rest] eqn:Hgeq; [congruence|].
  exists (p :: rest). rewrite Htotal. split; [reflexivity|].
  split; [assumption|].
  intros s n. split.
  - intro Hin. split; [|now apply (Hpos s n)].
    rewrite <- Hcount. symmetry. now apply counted_In.
  - intros [-> Hn]. rewrite <- Hcount in *. now apply In_counted.
Qed.

Lemma getDashboardStats_spec_witness :
  ["pending"; "assigned"; "pending"] <> []
  /\ EmergencyRequest.getDashboardStats ["pending"; "assigned"; "pending"]
     = [{| EmergencyRequest.total := 3;
           EmergencyRequest.statusCounts := [("pending", 2); ("assigned", 1)] |}].
Proof.
  split; [discriminate|].
  destruct (proj2 (getDashboardStats_spec ["pending"; "assigned"; "pending"])
              ltac:(discriminate)) as (groups & Heq & _).
  reflexivity.
Defined.

(** ** The two access checks side by side *)

(** X25.  [isLoggedIn] reads the cookie only: its outcome does not depend
    on the [Authorization] header; and for a request without that header
    it attaches a user exactly when [protect] grants access to that
    user. *)
Theorem isLoggedIn_agrees_with_protect {P : Platform} now req db :
  (forall req2, cookies_jwt req2 = cookies_jwt req ->
                isLoggedIn now req2 db = isLoggedIn now req db)
  /\ (authorization req = None ->
      forall u,
        isLoggedIn now req db = Forward (Some u) None
        <-> protect now req db = Forward (Some u) None).
Proof.
  split.
  - intros req2 Hc. unfold isLoggedIn. now rewrite Hc.
  - intros Hnone u. unfold isLoggedIn, protect, bearer_token.
    rewrite Hnone. simpl.
    assert (Hidem : Js.as_truthy (Js.as_truthy (cookies_jwt req))
                    = Js.as_truthy (cookies_jwt req)).
    { destruct (cookies_jwt req) as [[|a s]|]; reflexivity. }
    rewrite Hidem.
    destruct (Js.as_truthy (cookies_jwt req)) as [token|];
      [|split; discriminate].
    destruct (jwt_verify token now) as [c|]; [|split; discriminate].
    destruct (findById false db (jwt_id c)) as [found|];
      [|split; discriminate].
    destruct (changedPasswordAfter (fields found) (jwt_iat c));
      split; intro H; try discriminate; exact H.
Qed.

Lemma isLoggedIn_agrees_with_protect_witness :
  let P := Sample.platform in
  let req := Sample.request None (Some "jwt.u1.1700000005") "" ""
               Sample.no_body None in
  authorization req = None
  /\ isLoggedIn 1700000100000 req Sample.db
     = Forward (Some (with_password None Sample.ada)) None
  /\ protect 1700000100000 req Sample.db
     = Forward (Some (with_password None Sample.ada)) None.
Proof.
  cbv zeta. split; [reflexivity|]. split; [reflexivity|].
  apply (proj2 (isLoggedIn_agrees_with_protect (P := Sample.platform)
                  1700000100000
                  (Sample.request None (Some "jwt.u1.1700000005") "" ""
                     Sample.no_body None) Sample.db) eq_refl).
  reflexivity.
Defined.

(** ** The alphabet of the raw reset token *)

Lemma toHex_alphabet buf :
  Re.all_in (fun a => Re.digit a || Re.between "a" "f" a) (Js.toHex buf) = true.
Proof.
  induction buf as [|b rest IH]; [reflexivity|].
  simpl Js.toHex. cbn [Re.all_in]. rewrite IH.
  destruct b; reflexivity.
Qed.

(** X26.  The raw reset token consists of 64 characters, each a digit or a
    letter from a to f, and the digest stored on the record is the one of
    that raw text. *)
Theorem reset_token_is_lowercase_hex {P : Platform} draw now u :
  let raw := fst (createPasswordResetToken draw now u) in
  String.length raw = 64%nat
  /\ Re.all_in (fun a => Re.digit a || Re.between "a" "f" a) raw = true
  /\ passwordResetToken (snd (createPasswordResetToken draw now u))
     = Some (sha256_hex raw).
Proof.
  cbv zeta.
  change (fst (createPasswordResetToken draw now u))
    with (Js.toHex (randomBytes draw 32)).
  split; [rewrite toHex_length, randomBytes_length; reflexivity|].
  split; [apply toHex_alphabet | reflexivity].
Qed.

(** ** Signup under the patterns of the schema *)

Section Contact.

Context {P : Platform}.

(** A document that passes validation has an email, a phone number and a
    postcode that pass the three patterns. *)
Lemma validate_contact d :
  validate d = Ok tt ->
  exists e ph zip,
    email (fields d) = Some e /\ email_pattern e = true
    /\ phoneNumber (fields d) = Some ph /\ uk_phone_pattern ph = true
    /\ zipCode (location (fields d)) = Some zip
    /\ uk_postcode_pattern zip = true.
Proof.
  intro Hv. pose proof (validate_errors _ Hv) as He.
  unfold validationErrors in He. cbv zeta in He.
  apply app_eq_nil in He. destruct He as [_ He].
  apply app_eq_nil in He. destruct He as [Hmail He].
  apply app_eq_nil in He. destruct He as [_ He].
  apply app_eq_nil in He. destruct He as [_ He].
  apply app_eq_nil in He. destruct He as [_ He].
  apply app_eq_nil in He. destruct He as [Hphone He].
  apply app_eq_nil in He. destruct He as [_ He].
  apply app_eq_nil in He. destruct He as [_ He].
  apply app_eq_nil in He. destruct He as [Hzip _].
  apply first_failure_all in Hmail, Hphone, Hzip.
  unfold forallb in Hmail, Hphone, Hzip. cbn [fst] in Hmail, Hphone, Hzip.
  rewrite !andb_true_iff in Hmail, Hphone, Hzip.
  destruct Hmail as (Hm1 & Hm2 & _). destruct Hphone as (Hp1 & Hp2 & _).
  destruct Hzip as (Hz1 & Hz2 & _).
  destruct (email (fields d)) as [e|]; [|discriminate].
  destruct (phoneNumber (fields d)) as [ph|]; [|discriminate].
  destruct (zipCode (location (fields d))) as [zip|]; [|discriminate].
  exists e, ph, zip. simpl in Hm2, Hp2, Hz2. repeat split; assumption.
Qed.

End Contact.

(** X27.  Under the three patterns of the schema, the record a 201 signup
    appends has a lower-cased email the email validator accepts, hence
    with a last label of two or three word characters, a phone number the
    phone validator accepts, and a trimmed postcode the postcode validator
    accepts. *)
Theorem signup_stores_valid_contact (P : Platform) cfg salt newId now req db
  r db' :
  signupUser (P := with_schema_patterns P) cfg salt newId now req db
  = (Respond r, db') ->
  status r = 201 ->
  exists u e ph zip,
    db' = (db ++ [u])%list
    /\ email u = Some e
    /\ option_map Js.toLowerCase (Body.email (body req)) = Some e
    /\ email_validator e = true
    /\ (exists local domain label,
           e = local ++ "@" ++ domain ++ "." ++ label
           /\ (String.length label = 2 \/ String.length label = 3)%nat)
    /\ phoneNumber u = Some ph
    /\ phone_validator ph = true
    /\ zipCode (location u) = Some zip
    /\ option_map Js.trim (zipCode (Body.location (body req))) = Some zip
    /\ postcode_validator zip = true.
Proof.
  intros Hrun Hok.
  pose proof (signupUser_validated (P := with_schema_patterns P)
                _ _ _ _ _ _ _ _ Hrun Hok) as Hval.
  destruct (signupUser_created (P := with_schema_patterns P)
              _ _ _ _ _ _ _ _ Hrun Hok) as (plain & _ & Hdb).
  destruct (validate_contact (P := with_schema_patterns P) _ Hval)
    as (e & ph & zip & He & Hev & Hph & Hphv & Hz & Hzv).
  simpl in He, Hph, Hz, Hev, Hphv, Hzv.
  eexists. exists e, ph, zip. split; [exact Hdb|]. simpl.
  split; [exact He|]. split; [exact He|]. split; [exact Hev|].
  split.
  - destruct (email_validator_last_label e Hev)
      as (local & domain & label & H1 & _ & _ & _ & _ & H6).
    exists local, domain, label. split; assumption.
  - repeat split; assumption.
Qed.

Lemma signup_stores_valid_contact_witness :
  let P := with_schema_patterns Sample.platform in
  let req := Sample.request None None "" ""
               (Sample.registration "Carol@Example.com" "tr0ub4dor&3") None in
  let out := signupUser Sample.cfg "s3" "u3" 1700000100000 req Sample.db in
  (exists r, out = (Respond r, snd out) /\ status r = 201)
  /\ exists u, snd out = (Sample.db ++ [u])%list
               /\ email u = Some "carol@example.com".
Proof.
  cbv zeta. split; [eexists; split; reflexivity|].
  destruct (signup_stores_valid_contact Sample.platform Sample.cfg "s3" "u3"
              1700000100000
              (Sample.request None None "" ""
                 (Sample.registration "Carol@Example.com" "tr0ub4dor&3") None)
              Sample.db _ _ eq_refl eq_refl)
    as (u & e & ph & zip & Hdb & He & Hlow & _).
  exists u. split; [exact Hdb|]. rewrite He. symmetry. exact Hlow.
Defined.
